(** * lwc-react-interop: bundle packaging and runtime reconstitution

    A shallow embedding of [scripts/lwcWrapperGenerator.js] (the build-time
    generator) and of [scripts/templates/lwcWrapper.js] (the runtime bridge
    that the generator emits), with the properties of the chunked encoding,
    of the build stages and of the render lifecycle stated over it; then of
    the scripts that call the generator, [scripts/cli.js],
    [scripts/generate-single.js] and [scripts/generate-app.js]. *)

From Equations Require Import Equations.
From Stdlib Require Import NArith List String Ascii Lia PeanoNat Bool.
From stdpp Require Import gmap.
Import ListNotations.

#[local] Open Scope N_scope.
#[local] Open Scope list_scope.

(** ** JavaScript strings

    A JavaScript string is a sequence of UTF-16 code units.  Literals of the
    source are ASCII and are written [js "..."]. *)

Definition jsstr : Type := list N.
#[global] Typeclasses Transparent jsstr.

Definition js (s : string) : jsstr := map N_of_ascii (list_ascii_of_string s).

Definition wf_jsstr (s : jsstr) : Prop := Forall (fun c => c < 65536) s.
Definition ascii_only (s : jsstr) : Prop := Forall (fun c => c < 128) s.
Definition bytes_ok (bs : list N) : Prop := Forall (fun b => b < 256) bs.

(** [String.prototype.slice(a, b)] for [0 <= a <= b]: the code units from
    position [a] up to (not including) position [b], clamped to the end. *)
Definition slice (s : jsstr) (a b : nat) : jsstr := firstn (b - a) (skipn a s).

(** ** [Buffer.from(text)]: the UTF-8 bytes of a string *)

Definition is_high_surrogate (c : N) : bool := (0xD800 <=? c) && (c <=? 0xDBFF).
Definition is_low_surrogate (c : N) : bool := (0xDC00 <=? c) && (c <=? 0xDFFF).

Definition utf8_of_code_point (cp : N) : list N :=
  if cp <? 0x80 then [cp]
  else if cp <? 0x800 then [0xC0 + cp / 64; 0x80 + cp mod 64]
  else if cp <? 0x10000 then
    [0xE0 + cp / 4096; 0x80 + (cp / 64) mod 64; 0x80 + cp mod 64]
  else
    [0xF0 + cp / 262144; 0x80 + (cp / 4096) mod 64;
     0x80 + (cp / 64) mod 64; 0x80 + cp mod 64].

(** U+FFFD, written for an unpaired surrogate. *)
Definition utf8_replacement : list N := [0xEF; 0xBF; 0xBD].

Fixpoint Buffer_from (s : jsstr) : list N :=
  match s with
  | [] => []
  | c :: rest =>
      if is_high_surrogate c then
        match rest with
        | d :: rest' =>
            if is_low_surrogate d then
              utf8_of_code_point (0x10000 + (c - 0xD800) * 1024 + (d - 0xDC00))
                ++ Buffer_from rest'
            else utf8_replacement ++ Buffer_from rest
        | [] => utf8_replacement
        end
      else if is_low_surrogate c then utf8_replacement ++ Buffer_from rest
      else utf8_of_code_point c ++ Buffer_from rest
  end.

(** ** [buffer.toString('base64')] *)

Definition b64_char (i : N) : N :=
  if i <? 26 then 65 + i            (* A-Z *)
  else if i <? 52 then 71 + i       (* a-z *)
  else if i <? 62 then i - 4        (* 0-9 *)
  else if i =? 62 then 43           (* + *)
  else 47.                          (* / *)

Definition b64_pad : N := 61.       (* = *)

(** The 6-bit groups of a byte sequence, most significant bits first; an
    incomplete last group is filled with zero bits. *)
Fixpoint sextets (bs : list N) : list N :=
  match bs with
  | [] => []
  | [a] => [a / 4; (a mod 4) * 16]
  | [a; b] => [a / 4; (a mod 4) * 16 + b / 16; (b mod 16) * 4]
  | a :: b :: c :: rest =>
      a / 4 :: (a mod 4) * 16 + b / 16 :: (b mod 16) * 4 + c / 64 :: c mod 64
        :: sextets rest
  end.

Definition padding (n : nat) : jsstr :=
  match (n mod 3)%nat with
  | 1%nat => [b64_pad; b64_pad]
  | 2%nat => [b64_pad]
  | _ => []
  end.

Definition base64_encode (bs : list N) : jsstr :=
  map b64_char (sextets bs) ++ padding (length bs).

(** ** [atob]: forgiving base64 decoding into a binary string

    [None] stands for the [InvalidCharacterError] that [atob] throws. *)

Definition b64_index (c : N) : option N :=
  if (65 <=? c) && (c <=? 90) then Some (c - 65)
  else if (97 <=? c) && (c <=? 122) then Some (c - 71)
  else if (48 <=? c) && (c <=? 57) then Some (c + 4)
  else if c =? 43 then Some 62
  else if c =? 47 then Some 63
  else None.

Definition is_ascii_whitespace (c : N) : bool :=
  (c =? 9) || (c =? 10) || (c =? 12) || (c =? 13) || (c =? 32).

(** When the length is a multiple of four, one or two [=] at the end are
    removed. *)
Definition strip_padding (d : jsstr) : jsstr :=
  if (length d mod 4 =? 0)%nat then
    match rev d with
    | c1 :: c2 :: r =>
        if c1 =? b64_pad then if c2 =? b64_pad then rev r else rev (c2 :: r)
        else d
    | [c1] => if c1 =? b64_pad then [] else d
    | [] => d
    end
  else d.

Fixpoint b64_indices (d : jsstr) : option (list N) :=
  match d with
  | [] => Some []
  | c :: rest =>
      match b64_index c, b64_indices rest with
      | Some i, Some ixs => Some (i :: ixs)
      | _, _ => None
      end
  end.

Fixpoint bytes_of_sextets (sx : list N) : option (list N) :=
  match sx with
  | [] => Some []
  | [_] => None
  | [a; b] => Some [a * 4 + b / 16]
  | [a; b; c] => Some [a * 4 + b / 16; (b mod 16) * 16 + c / 4]
  | a :: b :: c :: d :: rest =>
      match bytes_of_sextets rest with
      | Some bs =>
          Some (a * 4 + b / 16 :: (b mod 16) * 16 + c / 4 :: (c mod 4) * 64 + d :: bs)
      | None => None
      end
  end.

Definition atob (data : jsstr) : option jsstr :=
  let d := strip_padding (List.filter (fun c => negb (is_ascii_whitespace c)) data) in
  match b64_indices d with
  | Some sx => bytes_of_sextets sx
  | None => None
  end.

(** ** The chunk encoder of [generateJavaScriptFile] *)

Definition chunkSize : nat := N.to_nat 800000.

(** The loop
    [for (let i = 0; i < encodedReact.length; i += chunkSize)
       chunks.push(encodedReact.slice(i, i + chunkSize));] *)
Equations? chunk_loop (encodedReact : jsstr) (i : nat) (chunks : list jsstr)
  : list jsstr by wf (length encodedReact - i)%nat lt :=
  chunk_loop encodedReact i chunks with lt_dec i (length encodedReact) => {
    | left _ =>
        chunk_loop encodedReact (i + chunkSize)
          (chunks ++ [slice encodedReact i (i + chunkSize)]);
    | right _ => chunks }.
Proof. unfold chunkSize. lia. Qed.

Definition split_chunks (encodedReact : jsstr) : list jsstr :=
  chunk_loop encodedReact 0 [].

(** [const encodedReact = Buffer.from(compiledReact).toString('base64')]
    followed by the loop. *)
Definition encode_chunks (compiledReact : jsstr) : list jsstr :=
  split_chunks (base64_encode (Buffer_from compiledReact)).

(** What the generated module computes from the chunk constants:
    [atob(chunk0 + chunk1 + ...)]. *)
Definition decode_chunks (chunks : list jsstr) : option jsstr :=
  atob (concat chunks).

(** [ceil(a / b)] *)
Definition ceil_div (a b : nat) : nat := ((a + b - 1) / b)%nat.

(** The host's ceiling on the size of one file, in bytes: the [1MB limit
    per file] that the comment at [chunkSize] names. *)
Definition host_file_limit : nat := N.to_nat 1000000.

(** The chunk set as the specification words it, with the bound applied to
    slices of the text before encoding: the bytes are cut every [chunkSize]
    and each slice is encoded.  Stated to be compared with [encode_chunks]. *)
Definition chunks_sliced_before_encoding (compiledReact : jsstr) : list jsstr :=
  map base64_encode (split_chunks (Buffer_from compiledReact)).

(** ** Effects: state, a trace of observable events, exceptions

    Both programs are sequential code that mutates state, writes to the
    console and throws; a computation maps the state before to the state
    after, the events it produced, and how it ended. *)

Inductive Outcome (Ex A : Type) : Type :=
| Returned (a : A)
| Thrown (e : Ex).
Arguments Returned {Ex A} a.
Arguments Thrown {Ex A} e.

Record Run (St Ev Ex A : Type) : Type :=
  mkRun { final : St; trace : list Ev; outcome : Outcome Ex A }.
Arguments mkRun {St Ev Ex A} final trace outcome.
Arguments final {St Ev Ex A} r.
Arguments trace {St Ev Ex A} r.
Arguments outcome {St Ev Ex A} r.

Definition Eff (St Ev Ex A : Type) : Type := St -> Run St Ev Ex A.

Section Eff.
Context {St Ev Ex : Type}.

Definition ret {A} (a : A) : Eff St Ev Ex A :=
  fun s => mkRun s [] (Returned a).

Definition throw {A} (e : Ex) : Eff St Ev Ex A :=
  fun s => mkRun s [] (Thrown e).

Definition bind {A B} (m : Eff St Ev Ex A) (k : A -> Eff St Ev Ex B)
  : Eff St Ev Ex B :=
  fun s =>
    match m s with
    | mkRun s1 t1 (Returned a) =>
        match k a s1 with
        | mkRun s2 t2 o => mkRun s2 (t1 ++ t2) o
        end
    | mkRun s1 t1 (Thrown e) => mkRun s1 t1 (Thrown e)
    end.

(** [try { body } catch (e) { handler e }] *)
Definition try_catch {A} (body : Eff St Ev Ex A) (handler : Ex -> Eff St Ev Ex A)
  : Eff St Ev Ex A :=
  fun s =>
    match body s with
    | mkRun s1 t1 (Returned a) => mkRun s1 t1 (Returned a)
    | mkRun s1 t1 (Thrown e) =>
        match handler e s1 with
        | mkRun s2 t2 o => mkRun s2 (t1 ++ t2) o
        end
    end.

Definition get : Eff St Ev Ex St := fun s => mkRun s [] (Returned s).
Definition modify (f : St -> St) : Eff St Ev Ex unit :=
  fun s => mkRun (f s) [] (Returned tt).
Definition emit (e : Ev) : Eff St Ev Ex unit :=
  fun s => mkRun s [e] (Returned tt).
Definition of_outcome {A} (o : Outcome Ex A) : Eff St Ev Ex A :=
  fun s => mkRun s [] o.

(** [xs.forEach(x => f x)] *)
Fixpoint for_each {A} (f : A -> Eff St Ev Ex unit) (xs : list A)
  : Eff St Ev Ex unit :=
  match xs with
  | [] => ret tt
  | x :: rest => bind (f x) (fun _ => for_each f rest)
  end.
End Eff.

Declare Scope eff_scope.
Delimit Scope eff_scope with eff.
Notation "x <- m ;; k" := (bind m (fun x => k))
  (at level 100, m at next level, k at level 200, right associativity) : eff_scope.
Notation "m ;; k" := (bind m (fun _ => k))
  (at level 100, k at level 200, right associativity) : eff_scope.
#[local] Open Scope eff_scope.

(** [Error] objects: what every [throw] of the two programs, and every
    failure of [fs], [atob], [Function] and the DOM, throws. *)
Record JsError : Type :=
  mkError { err_name : jsstr; err_message : jsstr; err_stack : jsstr }.

(** [new Error(message)] *)
Definition Error (message : jsstr) : JsError :=
  mkError (js "Error") message [].

(** ** The runtime bridge: [scripts/templates/lwcWrapper.js] *)

Module Bridge.

(** JavaScript values, as far as the bridge inspects them. *)
#[local] Unset Elimination Schemes.
Inductive JsVal : Type :=
| VUndefined
| VNull
| VBool (b : bool)
| VNum (n : Z)
| VStr (s : jsstr)
| VFun (name : jsstr)
| VObj (fields : list (jsstr * JsVal)).
#[local] Set Elimination Schemes.

Definition truthy (v : JsVal) : bool :=
  match v with
  | VUndefined | VNull => false
  | VBool b => b
  | VNum n => negb (n =? 0)%Z
  | VStr s => negb (Nat.eqb (length s) 0)
  | VFun _ | VObj _ => true
  end.

Definition typeof (v : JsVal) : jsstr :=
  match v with
  | VUndefined => js "undefined"
  | VNull | VObj _ => js "object"
  | VBool _ => js "boolean"
  | VNum _ => js "number"
  | VStr _ => js "string"
  | VFun _ => js "function"
  end.

(** [fields[name]] on the own properties of a plain object. *)
Fixpoint own_property (fields : list (jsstr * JsVal)) (name : jsstr) : JsVal :=
  match fields with
  | [] => VUndefined
  | (key, value) :: rest =>
      if bool_decide (key = name) then value else own_property rest name
  end.

(** What a [throw] statement carries and a [catch] block receives: any
    value.  The [Error] objects are kept apart from the other values, with
    their name, message and stack. *)
Inductive Exception : Type :=
| error_object (e : JsError)
| thrown_value (v : JsVal).

(** [new TypeError(message)] *)
Definition TypeError (message : jsstr) : JsError :=
  mkError (js "TypeError") message [].

(** [error.message] and [error.stack] for a caught value.  [null] and
    [undefined] have no properties: the read throws a [TypeError] (the
    message is V8's); a plain object gives its own property; none of the
    other values has a [message] or a [stack]. *)
Definition property_of (error : Exception) (name : jsstr) : Outcome Exception JsVal :=
  match error with
  | error_object e =>
      Returned (if bool_decide (name = js "message") then VStr (err_message e)
                else if bool_decide (name = js "stack") then VStr (err_stack e)
                else if bool_decide (name = js "name") then VStr (err_name e)
                else VUndefined)
  | thrown_value VNull =>
      Thrown (error_object (TypeError
        (js "Cannot read properties of null (reading '" ++ name ++ js "')")))
  | thrown_value VUndefined =>
      Thrown (error_object (TypeError
        (js "Cannot read properties of undefined (reading '" ++ name ++ js "')")))
  | thrown_value (VObj fields) => Returned (own_property fields name)
  | thrown_value _ => Returned VUndefined
  end.

(** The component's own fields. *)
Record Instance : Type := mkInstance {
  _hasRendered : bool;
  _reactInstance : JsVal;
  _reactDOMInstance : JsVal;
  _reactRoot : option N            (* the root returned by [createRoot] *)
}.

(** [_hasRendered = false; _reactInstance = null; ...] *)
Definition new_instance : Instance :=
  mkInstance false VNull VNull None.

(** The part of the page the bridge touches: two globals on [window], and
    the element that [this.template.querySelector('[data-id="app"]')]
    finds, with the children of its shadow root once one is attached. *)
Inductive ShadowChild : Type :=
| StyleElement (textContent : jsstr)
| DivElement.

Record Page : Type := mkPage {
  window_process : JsVal;
  window_ReactAppComponent : JsVal;
  container : option (option (list ShadowChild))
}.

Record World : Type := mkWorld { this : Instance; page : Page }.

(** What the module is generated with and what it imports.
    [COMPILED_STYLES] is the text substituted for [{{COMPILED_STYLES}}],
    which the template places between two backticks. *)
Record Generated : Type := mkGenerated {
  React : JsVal;                  (* [import React from 'c/react'] *)
  ReactDOM : JsVal;               (* [import ReactDOM from 'c/reactdom'] *)
  chunks : list jsstr;            (* [chunk0], [chunk1], ... *)
  COMPILED_STYLES : jsstr
}.

(** Code the bridge calls but does not contain: the function the engine
    compiles from the decoded text, the engine's evaluation of a template
    literal that has escapes or substitutions, and React.  Each of them
    may throw any value. *)
Definition Script : Type := JsVal -> JsVal -> Page -> Page * Outcome Exception unit.

Record Host : Type := mkHost {
  new_Function : jsstr -> Outcome Exception Script;
  template_literal : jsstr -> Outcome Exception jsstr;
  createElement : JsVal -> JsVal -> Outcome Exception JsVal;
  createRoot : JsVal -> Outcome Exception N;
  render : N -> JsVal -> Outcome Exception unit;
  unmount : N -> Outcome Exception unit
}.

(** [source] has a [$] followed by [{]. *)
Fixpoint opens_substitution (source : jsstr) : bool :=
  match source with
  | c :: rest =>
      match rest with
      | d :: _ => (c =? 36) && (d =? 123) || opens_substitution rest
      | [] => false
      end
  | [] => false
  end.

(** The characters of a template literal stand for themselves, except
    that a backslash starts an escape, a backtick ends the literal, [${]
    opens a substitution, and a carriage return is read as a line feed. *)
Definition plain_template_text (source : jsstr) : bool :=
  forallb (fun c => negb (c =? 92) && negb (c =? 96) && negb (c =? 13)) source
  && negb (opens_substitution source).

(** The value of the template literal with the text [source] between its
    backticks: the text itself when every character of it stands for
    itself, and what the engine makes of it otherwise (the escapes cooked,
    the substitutions evaluated, which may throw). *)
Definition template_literal_value (h : Host) (source : jsstr) : Outcome Exception jsstr :=
  if plain_template_text source then Returned source else template_literal h source.

Inductive Call : Type :=
| call_atob | call_Function | call_scriptFunc | call_attachShadow
| call_createElement | call_createRoot | call_render | call_unmount.

Inductive Event : Type :=
| log_started
| log_React_loaded (b : bool)
| log_ReactDOM_loaded (b : bool)
| log_decoding
| log_process_defined (b : bool)
| log_bundle_executed
| log_looking_for_component
| log_component_found (b : bool)
| log_component_type (t : jsstr)
| log_finding_container
| log_container_found
| log_injecting_styles
| log_creating_shadow_container
| log_creating_element
| log_creating_root
| log_rendered
| log_already_rendered
| log_unmounted
| error_not_available
| error_React (v : JsVal)
| error_ReactDOM (v : JsVal)
| error_rendering (error : Exception)
| error_message (message : JsVal)
| error_stack (stack : JsVal)
| error_unmounting (error : Exception)
| unhandled_rejection (reason : Exception)
| called (c : Call).

Definition M (A : Type) : Type := Eff World Event Exception A.

Definition set_this (f : Instance -> Instance) : M unit :=
  modify (fun w => mkWorld (f (this w)) (page w)).
Definition set_page (f : Page -> Page) : M unit :=
  modify (fun w => mkWorld (this w) (f (page w))).

(** The object installed as [window.process]. *)
Definition default_process : JsVal :=
  VObj [(js "env", VObj [
    (js "NODE_ENV", VStr (js "production"));
    (js "REACT_APP_SF_ACCESS_TOKEN", VUndefined);
    (js "REACT_APP_SF_INSTANCE_URL", VUndefined);
    (js "REACT_APP_SF_USERNAME", VStr []);
    (js "REACT_APP_SF_ORG_ALIAS", VStr []);
    (js "REACT_APP_USE_MOCK_DATA", VStr (js "true"))])].

(** [if (!window.process) { window.process = {...}; }] *)
Definition define_process : M unit :=
  w <- get ;;
  if negb (truthy (window_process (page w))) then
    set_page (fun p =>
      mkPage default_process (window_ReactAppComponent p) (container p))
  else ret tt.

(** The text substituted for [{{COMPILED_REACT_FUNC}}], for at least one
    chunk: [encodedCode] is [chunk0 + chunk1 + ...]. *)
Definition COMPILED_REACT_FUNC (g : Generated) (h : Host) : M unit :=
  let encodedCode := concat (chunks g) in
  emit (called call_atob) ;;
  decodedCode <-
    match atob encodedCode with
    | Some text => ret text
    | None =>
        throw (error_object
                 (mkError (js "InvalidCharacterError")
                    (js "The string to be decoded is not correctly encoded.") []))
    end ;;
  emit (called call_Function) ;;
  scriptFunc <- of_outcome (new_Function h decodedCode) ;;
  emit (called call_scriptFunc) ;;
  w <- get ;;
  let '(p, o) := scriptFunc (_reactInstance (this w)) (_reactDOMInstance (this w)) (page w) in
  set_page (fun _ => p) ;;
  of_outcome o.

(** [container.attachShadow({ mode: "open" })]; an element that already
    hosts a shadow root refuses a second one. *)
Definition attachShadow (shadow : option (list ShadowChild)) : M unit :=
  emit (called call_attachShadow) ;;
  match shadow with
  | Some _ =>
      throw (error_object
               (mkError (js "NotSupportedError")
                  (js "Shadow root cannot be created on a host which already hosts a shadow tree.")
                  []))
  | None =>
      set_page (fun p =>
        mkPage (window_process p) (window_ReactAppComponent p) (Some (Some [])))
  end.

(** [shadow.appendChild(child)] *)
Definition appendChild (child : ShadowChild) : M unit :=
  set_page (fun p =>
    mkPage (window_process p) (window_ReactAppComponent p)
      (match container p with
       | Some (Some children) => Some (Some (children ++ [child]))
       | c => c
       end)).

Definition mount (g : Generated) (h : Host) : M unit :=
  emit log_decoding ;;
  define_process ;;
  w <- get ;;
  emit (log_process_defined (truthy (window_process (page w)))) ;;
  COMPILED_REACT_FUNC g h ;;
  emit log_bundle_executed ;;
  emit log_looking_for_component ;;
  w <- get ;;
  let ReactAppComponent := window_ReactAppComponent (page w) in
  emit (log_component_found (truthy ReactAppComponent)) ;;
  emit (log_component_type (typeof ReactAppComponent)) ;;
  (if negb (truthy ReactAppComponent) then
     throw (error_object
              (Error (js "ReactAppComponent not found. Check webpack compilation.")))
   else ret tt) ;;
  emit log_finding_container ;;
  match container (page w) with
  | None => throw (error_object
                     (Error (js "Container element with data-id=" ++ [34] ++ js "app"
                               ++ [34] ++ js " not found")))
  | Some shadow_before =>
      emit log_container_found ;;
      attachShadow shadow_before ;;
      emit log_injecting_styles ;;
      textContent <- of_outcome (template_literal_value h (COMPILED_STYLES g)) ;;
      appendChild (StyleElement textContent) ;;
      emit log_creating_shadow_container ;;
      appendChild DivElement ;;
      emit log_creating_element ;;
      emit (called call_createElement) ;;
      app <- of_outcome (createElement h (_reactInstance (this w)) ReactAppComponent) ;;
      emit log_creating_root ;;
      emit (called call_createRoot) ;;
      root <- of_outcome (createRoot h (_reactDOMInstance (this w))) ;;
      set_this (fun i =>
        mkInstance (_hasRendered i) (_reactInstance i) (_reactDOMInstance i) (Some root)) ;;
      emit (called call_render) ;;
      of_outcome (render h root app) ;;
      set_this (fun i =>
        mkInstance true (_reactInstance i) (_reactDOMInstance i) (_reactRoot i)) ;;
      emit log_rendered
  end.

(** The [try] block of [renderedCallback]. *)
Definition renderedCallback_try (g : Generated) (h : Host) : M unit :=
  emit log_started ;;
  set_this (fun i =>
    mkInstance (_hasRendered i) (React g) (ReactDOM g) (_reactRoot i)) ;;
  w <- get ;;
  emit (log_React_loaded (truthy (_reactInstance (this w)))) ;;
  emit (log_ReactDOM_loaded (truthy (_reactDOMInstance (this w)))) ;;
  if truthy (_reactInstance (this w)) && truthy (_reactDOMInstance (this w)) then
    mount g h
  else
    emit error_not_available ;;
    emit (error_React (_reactInstance (this w))) ;;
    emit (error_ReactDOM (_reactDOMInstance (this w))).

(** Its [catch] block: three calls of [console.error], the last two with
    a property read from the caught value. *)
Definition renderedCallback_catch (error : Exception) : M unit :=
  emit (error_rendering error) ;;
  message <- of_outcome (property_of error (js "message")) ;;
  emit (error_message message) ;;
  stack <- of_outcome (property_of error (js "stack")) ;;
  emit (error_stack stack).

(** The hook is an [async] function without [await]: its body runs at the
    call, and what the body throws rejects the promise that the call
    returns.  [Thrown] is that rejection. *)
Definition renderedCallback (g : Generated) (h : Host) : M unit :=
  w <- get ;;
  if negb (_hasRendered (this w)) then
    try_catch (renderedCallback_try g h) renderedCallback_catch
  else emit log_already_rendered.

Definition disconnectedCallback (h : Host) : M unit :=
  w <- get ;;
  match _hasRendered (this w), _reactRoot (this w) with
  | true, Some root =>
      try_catch
        (emit (called call_unmount) ;;
         of_outcome (unmount h root) ;;
         emit log_unmounted)
        (fun error => emit (error_unmounting error))
  | _, _ => ret tt
  end.

(** The host invokes the render hook once per entry of [hs], each time with
    whatever the engine and React do on that occasion.  It does not wait
    for the promise of an invocation: one that rejects is left unhandled,
    and the next invocation takes place all the same. *)
Fixpoint rendered_n (g : Generated) (hs : list Host) : M unit :=
  match hs with
  | [] => ret tt
  | h :: rest =>
      try_catch (renderedCallback g h) (fun reason => emit (unhandled_rejection reason)) ;;
      rendered_n g rest
  end.

(** Observations on a trace. *)
Definition decodes (e : Event) : bool :=
  match e with called call_atob => true | _ => false end.
Definition executes (e : Event) : bool :=
  match e with called call_scriptFunc => true | _ => false end.
Definition mounts (e : Event) : bool :=
  match e with called call_render => true | _ => false end.
Definition reports_failure (e : Event) : bool :=
  match e with error_not_available | error_rendering _ => true | _ => false end.
Definition count (p : Event -> bool) (t : list Event) : nat :=
  length (List.filter p t).

(** The promise of the hook rejects with the [TypeError] of a property
    read on the caught [null] or [undefined], after the first of the three
    reports. *)
Definition rejects_reading (v : JsVal) (r : Run World Event Exception unit) : Prop :=
  (v = VNull \/ v = VUndefined)
  /\ (exists reported, trace r = reported ++ [error_rendering (thrown_value v)])
  /\ exists e, outcome r = Thrown (error_object e) /\ err_name e = js "TypeError".

(** A host whose bundles do not touch the container element. *)
Definition leaves_the_container_alone (h : Host) : Prop :=
  forall body scriptFunc react dom p,
    new_Function h body = Returned scriptFunc ->
    container (fst (scriptFunc react dom p)) = container p.

End Bridge.

(** ** More of the JavaScript library *)

(** [Array.prototype.join(separator)] on an array of strings. *)
Fixpoint join (separator : jsstr) (parts : list jsstr) : jsstr :=
  match parts with
  | [] => []
  | [x] => x
  | x :: rest => x ++ separator ++ join separator rest
  end.

(** [text.endsWith(suffix)] *)
Definition endsWith (text suffix : jsstr) : bool :=
  (length suffix <=? length text)%nat
  && bool_decide (skipn (length text - length suffix) text = suffix).

(** [`${n}`] for a non-negative integer: its decimal digits. *)
Equations? decimal (n : N) : jsstr by wf (N.to_nat n) lt :=
  decimal n with decide (n < 10) => {
    | left _ => [48 + n];
    | right _ => decimal (n / 10) ++ [48 + n mod 10] }.
Proof.
  assert (n / 10 < n) by (apply N.div_lt; lia). lia.
Qed.

(** [array.map((x, index) => f x index)] *)
Fixpoint map_indexed_from {A B} (i : nat) (f : A -> nat -> B) (xs : list A) : list B :=
  match xs with
  | [] => []
  | x :: rest => f x i :: map_indexed_from (S i) f rest
  end.
Definition map_indexed {A B} (f : A -> nat -> B) (xs : list A) : list B :=
  map_indexed_from 0 f xs.

Definition dquote : jsstr := [34].
Definition newline : jsstr := [10].

(** ** The generator: [scripts/lwcWrapperGenerator.js] *)

Module Build.

(** A file or a directory with its entries in the order [readdirSync]
    lists them. *)
#[local] Unset Elimination Schemes.
Inductive Node : Type :=
| File (content : jsstr)
| Dir (entries : list (jsstr * Node)).
#[local] Set Elimination Schemes.

(** The directories the generator works in.  A directory that holds only
    files is a map from file name to content. *)
Record Disk : Type := mkDisk {
  src : list (jsstr * Node);                 (* [__dirname/../src] *)
  temp_build : option (gmap jsstr jsstr);    (* [__dirname/../temp-build] *)
  temp_css_build : option (gmap jsstr jsstr);(* [__dirname/../temp-css-build] *)
  templates : gmap jsstr jsstr;              (* [__dirname/templates] *)
  react_umd : option Node;      (* [node_modules/react/umd/react.production.min.js] *)
  react_dom_umd : option Node;  (* [node_modules/react-dom/umd/react-dom.production.min.js] *)
  output : option (option (gmap jsstr (gmap jsstr jsstr)))
    (* [outputDir], then [outputDir/lwc] with one directory per component *)
}.

(** What [webpack(config, callback)] hands to its callback. *)
Inductive WebpackOutcome : Type :=
| wp_err (err : JsError)                     (* [err] is set *)
| wp_has_errors (first : JsError)            (* [stats.hasErrors()] *)
| wp_done (emitted : gmap jsstr jsstr).      (* the assets written to [output.path] *)

(** What the generator does not contain: the two webpack runs, what other
    processes do to the source tree between the discovery of the stylesheets
    and their reading, [String.prototype.replace] with a global pattern, and
    where the script lives. *)
Record Env : Type := mkEnv {
  webpack_react : WebpackOutcome;
  webpack_css : WebpackOutcome;
  meanwhile : list (jsstr * Node) -> list (jsstr * Node);
  replace_all : jsstr -> jsstr -> jsstr -> jsstr;   (* pattern, replacement, subject *)
  __dirname : jsstr
}.

(** [new LWCWrapperGenerator(options)] *)
Record Generator : Type := mkGenerator {
  componentName : jsstr;
  reactComponentName : jsstr;
  outputDir : jsstr
}.

Definition new_generator (componentName outputDir : option jsstr) : Generator :=
  mkGenerator
    (match componentName with Some (c :: n) => c :: n | _ => js "appInterop" end)
    (js "app")
    (match outputDir with Some (c :: d) => c :: d | _ => js "./dist" end).

(** What [generate], [generateReactImport] and [generateReactDOMImport]
    return. *)
Inductive Result : Type :=
| success_true (outputDir componentName : jsstr)
| success_false (error : jsstr).

Inductive Event : Type :=
| error_webpack_failed (e : JsError)
| log_react_compiled
| error_reading_compiled (e : JsError)
| log_found_css (n : nat)
| error_css_failed (e : JsError)
| log_using_fallback (n : nat)
| log_css_compiled
| error_reading_css (e : JsError)
| log_splitting (n : nat)
| log_generated_files (n : nat)
| log_wrapper_generated (name : jsstr)
| log_output_directory (dir : jsstr)
| log_component_name (name : jsstr)
| log_react_component
| error_generating_wrapper (message : jsstr)
| log_embedded_react
| warn_react_not_found
| error_generating_react_js (message : jsstr)
| log_embedded_reactdom
| warn_reactdom_not_found
| error_generating_reactdom_js (message : jsstr)
| log_react_lwc_generated
| error_generating_react_lwc (message : jsstr)
| log_reactdom_lwc_generated
| error_generating_reactdom_lwc (message : jsstr).

Definition M (A : Type) : Type := Eff Disk Event JsError A.

(** *** [fs] *)

Definition ENOENT (path : jsstr) : JsError :=
  Error (js "ENOENT: no such file or directory, open '" ++ path ++ js "'").

(** [path.join(__dirname, '../' + name)].  [__dirname] is an absolute path
    without a separator at its end, so the directory above it is what
    precedes its last separator. *)
Fixpoint drop_last_segment (reversed : jsstr) : jsstr :=
  match reversed with
  | [] => []
  | c :: rest => if c =? 47 then rest else drop_last_segment rest
  end.

Definition beside_dirname (env : Env) (name : jsstr) : jsstr :=
  rev (drop_last_segment (rev (__dirname env))) ++ js "/" ++ name.
Definition EISDIR : JsError :=
  Error (js "EISDIR: illegal operation on a directory, read").

Definition set_temp_build (t : option (gmap jsstr jsstr)) (d : Disk) : Disk :=
  mkDisk (src d) t (temp_css_build d) (templates d) (react_umd d) (react_dom_umd d) (output d).
Definition set_temp_css_build (t : option (gmap jsstr jsstr)) (d : Disk) : Disk :=
  mkDisk (src d) (temp_build d) t (templates d) (react_umd d) (react_dom_umd d) (output d).
Definition set_src (t : list (jsstr * Node)) (d : Disk) : Disk :=
  mkDisk t (temp_build d) (temp_css_build d) (templates d) (react_umd d) (react_dom_umd d) (output d).
Definition set_output (o : option (option (gmap jsstr (gmap jsstr jsstr)))) (d : Disk) : Disk :=
  mkDisk (src d) (temp_build d) (temp_css_build d) (templates d) (react_umd d) (react_dom_umd d) o.

(** [if (!fs.existsSync(dir)) fs.mkdirSync(dir, { recursive: true })] for a
    temporary directory. *)
Definition ensure_dir (dir : option (gmap jsstr jsstr)) : option (gmap jsstr jsstr) :=
  match dir with
  | Some files => Some files
  | None => Some ∅
  end.

(** [fs.writeFileSync(path.join(tempDir, file), content)], for the
    directory [dir] found at the path [tempDir] *)
Definition write_into (tempDir : jsstr) (dir : option (gmap jsstr jsstr))
  (file content : jsstr) : Outcome JsError (option (gmap jsstr jsstr)) :=
  match dir with
  | Some files => Returned (Some (<[file := content]> files))
  | None => Thrown (ENOENT (tempDir ++ js "/" ++ file))
  end.

(** The content of [path.join(dir, file)], when [fs.existsSync] finds it. *)
Definition lookup_in (dir : option (gmap jsstr jsstr)) (file : jsstr) : option jsstr :=
  match dir with
  | Some files => files !! file
  | None => None
  end.

(** [fs.readFileSync(path.join(tempDir, file), 'utf8')] *)
Definition read_from (tempDir : jsstr) (dir : option (gmap jsstr jsstr)) (file : jsstr)
  : Outcome JsError jsstr :=
  match lookup_in dir file with
  | Some content => Returned content
  | None => Thrown (ENOENT (tempDir ++ js "/" ++ file))
  end.

(** [fs.readFileSync(path, 'utf8')] of what is found at a path. *)
Definition read_node (path : jsstr) (n : option Node) : Outcome JsError jsstr :=
  match n with
  | Some (File content) => Returned content
  | Some (Dir _) => Thrown EISDIR
  | None => Thrown (ENOENT path)
  end.

(** What lies at a path below a directory. *)
Fixpoint lookup_path (n : Node) (path : list jsstr) : option Node :=
  match path with
  | [] => Some n
  | name :: rest =>
      match n with
      | Dir entries =>
          match find (fun e => bool_decide (fst e = name)) entries with
          | Some (_, child) => lookup_path child rest
          | None => None
          end
      | File _ => None
      end
  end.

(** *** [findCSSFiles]

    Paths below [src] are lists of names; [path.join(dir, file)] appends
    one.  The recursive call pushes onto the caller's [fileList]. *)
Fixpoint findCSSFiles_at (dir : list jsstr) (n : Node) (fileList : list (list jsstr))
  {struct n} : list (list jsstr) :=
  match n with
  | File _ => fileList
  | Dir files =>
      (fix forEach (files : list (jsstr * Node)) (fileList : list (list jsstr)) :=
         match files with
         | [] => fileList
         | (file, stat) :: rest =>
             let filePath := dir ++ [file] in
             forEach rest
               (match stat with
                | Dir _ => findCSSFiles_at filePath stat fileList
                | File _ =>
                    if endsWith file (js ".css") then fileList ++ [filePath]
                    else fileList
                end)
         end) files fileList
  end.

Definition findCSSFiles (src : list (jsstr * Node)) : list (list jsstr) :=
  findCSSFiles_at [] (Dir src) [].

(** What one entry of a directory contributes to the list: a stylesheet
    itself, a subdirectory all the stylesheets below it. *)
Definition css_files_of_entry (dir : list jsstr) (entry : jsstr * Node)
  : list (list jsstr) :=
  match snd entry with
  | Dir _ => findCSSFiles_at (dir ++ [fst entry]) (snd entry) []
  | File _ => if endsWith (fst entry) (js ".css") then [dir ++ [fst entry]] else []
  end.

(** *** [compileReactComponents] *)

(** The entry module written for webpack. *)
Definition entryContent : jsstr :=
  js "
import React from 'react';
import App from '../src/App.js';

// Wrap App to support MUI in Shadow DOM
function AppWrapper({ shadowRoot }) {
  // If shadowRoot is provided and MUI is used, set up emotion cache
  if (shadowRoot && typeof window !== 'undefined') {
    try {
      // Try to import emotion cache for MUI shadow DOM support
      const createCache = require('@emotion/cache').default;
      const CacheProvider = require('@emotion/react').CacheProvider;
      
      const cache = createCache({
        key: 'css',
        prepend: true,
        container: shadowRoot,
      });
      
      return React.createElement(CacheProvider, { value: cache }, 
        React.createElement(App)
      );
    } catch (e) {
      console.log('" ++ [0x26A0; 0xFE0F] ++ js " @emotion/cache not available, using App without emotion cache');
      return React.createElement(App);
    }
  }
  
  return React.createElement(App);
}

// Export the wrapped App component for LWC usage
console.log('" ++ [0xD83D; 0xDCE6] ++ js " Entry file executing, App:', App);
window.ReactAppComponent = AppWrapper;
console.log('" ++ [0x2705] ++ js " window.ReactAppComponent set:', !!window.ReactAppComponent);
      ".

(** The body of the callback given to [webpack] is the [match]; what
    precedes it is the promise's executor. *)
Definition compileReactComponents (env : Env) : M jsstr :=
  let tempDir := beside_dirname env (js "temp-build") in
  modify (fun d => set_temp_build (ensure_dir (temp_build d)) d) ;;
  d <- get ;;
  written <-
    of_outcome (write_into tempDir (temp_build d) (js "lwc-entry.js") entryContent) ;;
  modify (set_temp_build written) ;;
  modify (fun d => set_temp_build (ensure_dir (temp_build d)) d) ;;
  match webpack_react env with
  | wp_err error | wp_has_errors error =>
      emit (error_webpack_failed error) ;;
      throw error
  | wp_done emitted =>
      modify (fun d =>
        set_temp_build (Some (emitted ∪ default ∅ (temp_build d))) d) ;;
      try_catch
        (d <- get ;;
         compiledJS <-
           of_outcome (read_from tempDir (temp_build d) (js "compiled-react.js")) ;;
         modify (set_temp_build None) ;;
         emit log_react_compiled ;;
         ret compiledJS)
        (fun readError =>
           emit (error_reading_compiled readError) ;;
           throw readError)
  end.

(** *** [compileStyles] *)

(** [path.relative(tempDir, cssFile).replace(/\\/g, '/')] and the import
    statement made of it. *)
Definition css_import (cssFile : list jsstr) : jsstr :=
  js "import '" ++ js "../src/" ++ join (js "/") cssFile ++ js "';".

(** The fallback: [cssFiles.forEach(cssFile => { if (fs.existsSync(cssFile))
    cssContent += fs.readFileSync(cssFile, 'utf8') + '\n'; })] *)
Fixpoint read_css_files (src : list (jsstr * Node)) (cssFiles : list (list jsstr))
  (cssContent : jsstr) : Outcome JsError jsstr :=
  match cssFiles with
  | [] => Returned cssContent
  | cssFile :: rest =>
      match lookup_path (Dir src) cssFile with
      | Some found =>
          match read_node (join (js "/") cssFile) (Some found) with
          | Returned text => read_css_files src rest (cssContent ++ (text ++ newline))
          | Thrown e => Thrown e
          end
      | None => read_css_files src rest cssContent
      end
  end.



Definition compileStyles (env : Env) : M jsstr :=
  d <- get ;;
  let cssFiles := findCSSFiles (src d) in
  let cssImports := join newline (map css_import cssFiles) in
  emit (log_found_css (length cssFiles)) ;;
  modify (fun d => set_temp_css_build (ensure_dir (temp_css_build d)) d) ;;
  d <- get ;;
  written <-
    of_outcome (write_into (beside_dirname env (js "temp-css-build")) (temp_css_build d)
                  (js "css-entry.js") cssImports) ;;
  modify (set_temp_css_build written) ;;
  match webpack_css env with
  | wp_err error | wp_has_errors error =>
      emit (error_css_failed error) ;;
      throw error
  | wp_done emitted =>
      modify (fun d =>
        set_temp_css_build (Some (emitted ∪ default ∅ (temp_css_build d))) d) ;;
      try_catch
        (d <- get ;;
         cssContent <-
           match lookup_in (temp_css_build d) (js "extracted-styles.css") with
           | Some text => ret text
           | None =>
               let cssFiles := findCSSFiles (src d) in
               emit (log_using_fallback (length cssFiles)) ;;
               modify (fun d => set_src (meanwhile env (src d)) d) ;;
               d <- get ;;
               of_outcome (read_css_files (src d) cssFiles [])
           end ;;
         modify (set_temp_css_build None) ;;
         emit log_css_compiled ;;
         ret cssContent)
        (fun readError =>
           emit (error_reading_css readError) ;;
           throw readError)
  end.

(** *** [generateJavaScriptFile] and the other files of a component *)

(** [getTemplate(templateName)] *)
Definition getTemplate (env : Env) (templateName : jsstr) : M jsstr :=
  d <- get ;;
  match templates d !! templateName with
  | Some text => ret text
  | None =>
      throw (Error (js "Template file not found: " ++ __dirname env
                      ++ js "/templates/" ++ templateName))
  end.

(** [createOutputDirectory()] *)
Definition createOutputDirectory (g : Generator) : M unit :=
  modify (fun d =>
    match output d with None => set_output (Some None) d | Some _ => d end) ;;
  modify (fun d =>
    match output d with Some None => set_output (Some (Some ∅)) d | _ => d end) ;;
  modify (fun d =>
    match output d with
    | Some (Some lwc) =>
        match lwc !! componentName g with
        | None => set_output (Some (Some (<[componentName g := ∅]> lwc))) d
        | Some _ => d
        end
    | _ => d
    end).

(** [if (!fs.existsSync(lwcDir)) fs.mkdirSync(lwcDir, { recursive: true });
     if (!fs.existsSync(componentDir)) fs.mkdirSync(componentDir, ...)] *)
Definition ensure_component_dir (name : jsstr) : M unit :=
  modify (fun d =>
    match output d with
    | Some (Some _) => d
    | _ => set_output (Some (Some ∅)) d
    end) ;;
  modify (fun d =>
    match output d with
    | Some (Some lwc) =>
        match lwc !! name with
        | None => set_output (Some (Some (<[name := ∅]> lwc))) d
        | Some _ => d
        end
    | _ => d
    end).

(** The component directories once the directory [name] has been made
    sure of, whatever was there before. *)
Definition with_component_dir (name : jsstr)
  (o : option (option (gmap jsstr (gmap jsstr jsstr)))) : gmap jsstr (gmap jsstr jsstr) :=
  match o with
  | Some (Some lwc) =>
      match lwc !! name with
      | None => <[name := ∅]> lwc
      | Some _ => lwc
      end
  | _ => {[ name := ∅ ]}
  end.

(** [fs.writeFileSync(path.join(outputDir, 'lwc', component, file), content)] *)
Definition write_component_file (component file content : jsstr) : M unit :=
  d <- get ;;
  match output d with
  | Some (Some lwc) =>
      match lwc !! component with
      | Some files =>
          modify (set_output (Some (Some (<[component := <[file := content]> files]> lwc))))
      | None => throw (ENOENT file)
      end
  | _ => throw (ENOENT file)
  end.

(** The file found at [outputDir/lwc/component/file]. *)
Definition component_file (d : Disk) (component file : jsstr) : option jsstr :=
  match output d with
  | Some (Some lwc) =>
      match lwc !! component with
      | Some files => files !! file
      | None => None
      end
  | _ => None
  end.

Definition chunkFileName (g : Generator) (index : nat) : jsstr :=
  componentName g ++ js "Chunk" ++ decimal (N.of_nat index) ++ js ".js".

Definition chunkContent (count : nat) (chunk : jsstr) (index : nat) : jsstr :=
  js "// React Bundle Chunk " ++ decimal (N.of_nat (index + 1)) ++ js "/"
    ++ decimal (N.of_nat count) ++ newline
    ++ js "export const chunk" ++ decimal (N.of_nat index) ++ js " = '" ++ chunk
    ++ js "';" ++ newline.

Definition chunkImport (g : Generator) (index : nat) : jsstr :=
  js "import { chunk" ++ decimal (N.of_nat index) ++ js " } from './"
    ++ componentName g ++ js "Chunk" ++ decimal (N.of_nat index) ++ js "';".

Definition compiledReactFunc (concatenateChunks : jsstr) : jsstr :=
  js "
      // Concatenate all base64 chunks
      const encodedCode = " ++ concatenateChunks ++ js ";
      
      // Decode base64 encoded React bundle
      const decodedCode = atob(encodedCode);
      
      // Execute the decoded code
      const scriptFunc = new Function('React', 'ReactDOM', decodedCode);
      scriptFunc(this._reactInstance, this._reactDOMInstance);
    ".

Definition generateJavaScriptFile (env : Env) (g : Generator) : M unit :=
  template <- getTemplate env (js "lwcWrapper.js") ;;
  compiledReact <- compileReactComponents env ;;
  compiledStyles <- compileStyles env ;;
  let encodedReact := base64_encode (Buffer_from compiledReact) in
  let chunks := split_chunks encodedReact in
  emit (log_splitting (length chunks)) ;;
  for_each
    (fun '(chunkFileName, chunkContent) =>
       write_component_file (componentName g) chunkFileName chunkContent)
    (map_indexed
       (fun chunk index => (chunkFileName g index, chunkContent (length chunks) chunk index))
       chunks) ;;
  let chunkImports := join newline (map_indexed (fun _ index => chunkImport g index) chunks) in
  let concatenateChunks :=
    join (js " + ") (map_indexed (fun _ index => js "chunk" ++ decimal (N.of_nat index)) chunks) in
  let content :=
    chunkImports ++ newline ++
    replace_all env (js "{{COMPILED_STYLES}}") compiledStyles
      (replace_all env (js "{{COMPILED_REACT_FUNC}}") (compiledReactFunc concatenateChunks)
         (replace_all env (js "{{REACT_COMPONENT_NAME}}") (reactComponentName g)
            (replace_all env (js "{{COMPONENT_NAME}}") (componentName g) template))) in
  write_component_file (componentName g) (componentName g ++ js ".js") content ;;
  emit (log_generated_files (length chunks)).

(** [generateHTMLFile], [generateMetaFile], [generateCSSFile] *)
Definition generate_from_template (env : Env) (g : Generator)
  (templateName extension : jsstr) : M unit :=
  template <- getTemplate env templateName ;;
  let content := replace_all env (js "{{COMPONENT_NAME}}") (componentName g) template in
  write_component_file (componentName g) (componentName g ++ extension) content.

Definition generateHTMLFile (env : Env) (g : Generator) : M unit :=
  generate_from_template env g (js "lwcWrapper.html") (js ".html").
Definition generateMetaFile (env : Env) (g : Generator) : M unit :=
  generate_from_template env g (js "lwcWrapper-meta.xml") (js ".js-meta.xml").
Definition generateCSSFile (env : Env) (g : Generator) : M unit :=
  generate_from_template env g (js "lwcWrapper.css") (js ".css").

Definition generate (env : Env) (g : Generator) : M Result :=
  try_catch
    (createOutputDirectory g ;;
     generateJavaScriptFile env g ;;
     generateHTMLFile env g ;;
     generateMetaFile env g ;;
     generateCSSFile env g ;;
     emit (log_wrapper_generated (componentName g)) ;;
     emit (log_output_directory (outputDir g)) ;;
     emit (log_component_name (componentName g)) ;;
     emit log_react_component ;;
     ret (success_true (outputDir g) (componentName g)))
    (fun error =>
       emit (error_generating_wrapper (err_message error)) ;;
       ret (success_false (err_message error))).

(** *** The two auxiliary components, [react] and [reactdom] *)

Definition react_stub : jsstr := js "// React library not found".
Definition reactdom_stub : jsstr := js "// ReactDOM library not found".

Definition react_jsContent (reactLibrary : jsstr) : jsstr :=
  js "// Execute the React library code
" ++ reactLibrary ++ js "

// Export React instance
export default window.React;".

Definition reactdom_jsContent (reactDOMLibrary : jsstr) : jsstr :=
  js "// Execute the ReactDOM library code
" ++ reactDOMLibrary ++ js "

// Export ReactDOM instance
export default window.ReactDOM;".

Definition generateReactJSFile (env : Env) : M unit :=
  try_catch
    (d <- get ;;
     reactLibrary <-
       match react_umd d with
       | Some found =>
           text <- of_outcome (read_node (js "react.production.min.js") (Some found)) ;;
           emit log_embedded_react ;;
           ret text
       | None =>
           emit warn_react_not_found ;;
           ret react_stub
       end ;;
     write_component_file (js "react") (js "react.js") (react_jsContent reactLibrary))
    (fun error => emit (error_generating_react_js (err_message error))).

Definition generateReactDOMJSFile (env : Env) : M unit :=
  try_catch
    (d <- get ;;
     reactDOMLibrary <-
       match react_dom_umd d with
       | Some found =>
           text <- of_outcome (read_node (js "react-dom.production.min.js") (Some found)) ;;
           emit log_embedded_reactdom ;;
           ret text
       | None =>
           emit warn_reactdom_not_found ;;
           ret reactdom_stub
       end ;;
     write_component_file (js "reactdom") (js "reactdom.js")
       (reactdom_jsContent reactDOMLibrary))
    (fun error => emit (error_generating_reactdom_js (err_message error))).

Definition react_htmlContent : jsstr :=
  js "<template>
    <!-- React ES module - no template needed -->
</template>".

Definition reactdom_htmlContent : jsstr :=
  js "<template>
    <!-- ReactDOM ES module - no template needed -->
</template>".

Definition react_cssContent : jsstr :=
  js ".react-component {
    display: none;
}".

Definition reactdom_cssContent : jsstr :=
  js ".reactdom-component {
    display: none;
}".

Definition metaContent : jsstr :=
  js "<?xml version=" ++ dquote ++ js "1.0" ++ dquote ++ js " encoding="
    ++ dquote ++ js "UTF-8" ++ dquote ++ js "?>
<LightningComponentBundle xmlns=" ++ dquote
    ++ js "http://soap.sforce.com/2006/04/metadata" ++ dquote ++ js ">
    <apiVersion>58.0</apiVersion>
    <isExposed>false</isExposed>
    <targets>
        <target>lightning__AppPage</target>
        <target>lightning__RecordPage</target>
        <target>lightning__HomePage</target>
    </targets>
</LightningComponentBundle>".

Definition generateReactLWCComponent (env : Env) : M unit :=
  ensure_component_dir (js "react") ;;
  generateReactJSFile env ;;
  write_component_file (js "react") (js "react.html") react_htmlContent ;;
  write_component_file (js "react") (js "react.css") react_cssContent ;;
  write_component_file (js "react") (js "react.js-meta.xml") metaContent.

Definition generateReactDOMLWCComponent (env : Env) : M unit :=
  ensure_component_dir (js "reactdom") ;;
  generateReactDOMJSFile env ;;
  write_component_file (js "reactdom") (js "reactdom.html") reactdom_htmlContent ;;
  write_component_file (js "reactdom") (js "reactdom.css") reactdom_cssContent ;;
  write_component_file (js "reactdom") (js "reactdom.js-meta.xml") metaContent.

Definition generateReactImport (env : Env) (g : Generator) : M Result :=
  try_catch
    (createOutputDirectory g ;;
     generateReactLWCComponent env ;;
     emit log_react_lwc_generated ;;
     emit (log_output_directory (outputDir g)) ;;
     emit (log_component_name (js "react")) ;;
     ret (success_true (outputDir g) (js "react")))
    (fun error =>
       emit (error_generating_react_lwc (err_message error)) ;;
       ret (success_false (err_message error))).

Definition generateReactDOMImport (env : Env) (g : Generator) : M Result :=
  try_catch
    (createOutputDirectory g ;;
     generateReactDOMLWCComponent env ;;
     emit log_reactdom_lwc_generated ;;
     emit (log_output_directory (outputDir g)) ;;
     emit (log_component_name (js "reactdom")) ;;
     ret (success_true (outputDir g) (js "reactdom")))
    (fun error =>
       emit (error_generating_reactdom_lwc (err_message error)) ;;
       ret (success_false (err_message error))).

(** [generateReactImports()] *)
Definition generateReactImports (env : Env) (g : Generator) : M (list Result) :=
  reactResult <- generateReactImport env g ;;
  domResult <- generateReactDOMImport env g ;;
  ret [reactResult; domResult].

(** *** [generateMultiple]

    A component to generate is [{ lwcName, reactName }].  The constructor
    reads [componentName] and [outputDir] from its options and nothing else,
    so the [reactComponentName] passed to it is not used; it comes back in
    the result only.  Each component is generated on its own occasion, with
    what webpack does then. *)
Record Component : Type := mkComponent { lwcName : jsstr; reactName : jsstr }.

(** [{ ...result, componentName: component.lwcName,
       reactComponentName: component.reactName }]: the two properties are
    set after the spread, so the [componentName] of a successful [result]
    is replaced. *)
Inductive MultipleResult : Type :=
| multiple_success_true (outputDir componentName reactComponentName : jsstr)
| multiple_success_false (error componentName reactComponentName : jsstr).

Definition spread_result (result : Result) (componentName reactComponentName : jsstr)
  : MultipleResult :=
  match result with
  | success_true outputDir _ =>
      multiple_success_true outputDir componentName reactComponentName
  | success_false error =>
      multiple_success_false error componentName reactComponentName
  end.

Definition result_componentName (r : MultipleResult) : jsstr :=
  match r with
  | multiple_success_true _ name _ | multiple_success_false _ name _ => name
  end.

Definition result_reactComponentName (r : MultipleResult) : jsstr :=
  match r with
  | multiple_success_true _ _ name | multiple_success_false _ _ name => name
  end.

Fixpoint generateMultiple (this : Generator) (components : list (Env * Component))
  : M (list MultipleResult) :=
  match components with
  | [] => ret []
  | (env, component) :: rest =>
      let generator := new_generator (Some (lwcName component)) (Some (outputDir this)) in
      result <- generate env generator ;;
      results <- generateMultiple this rest ;;
      ret (spread_result result (lwcName component) (reactName component) :: results)
  end.

(** *** Notions used to state properties of the generator *)

(** A path from a directory down to a stylesheet: through directories, to
    a file whose name ends in [.css]. *)
Inductive css_path : list (jsstr * Node) -> list jsstr -> Prop :=
| css_path_file files file content :
    In (file, File content) files ->
    endsWith file (js ".css") = true ->
    css_path files [file]
| css_path_dir files file sub path :
    In (file, Dir sub) files ->
    css_path sub path ->
    css_path files (file :: path).

(** The error that [getTemplate] throws. *)
Definition template_missing (env : Env) (templateName : jsstr) : JsError :=
  Error (js "Template file not found: " ++ __dirname env ++ js "/templates/" ++ templateName).

(** *** [generate()] called without [await]

    [generate] is an [async] function: a call runs its body up to the
    first [await] on a promise and hands a promise back to the caller; the
    rest runs later, from the job queue.  The body reaches
    [await this.generateJavaScriptFile()], whose own body reads the
    template and reaches [await this.compileReactComponents()]; there the
    executor of the promise runs up to the call of [webpack], whose
    callback is called later.  An error thrown on the way (by [getTemplate],
    by the executor) rejects the promise it is thrown in and is not seen by
    the caller. *)

(** The executor of [compileReactComponents] up to the call of [webpack]. *)
Definition compileReactComponents_until_webpack (env : Env) : M unit :=
  modify (fun d => set_temp_build (ensure_dir (temp_build d)) d) ;;
  d <- get ;;
  written <-
    of_outcome (write_into (beside_dirname env (js "temp-build")) (temp_build d)
                  (js "lwc-entry.js") entryContent) ;;
  modify (set_temp_build written) ;;
  modify (fun d => set_temp_build (ensure_dir (temp_build d)) d).

(** What has happened when [generate()] hands back its promise.  The
    outer handler is the [catch] block of [generate], for what is thrown
    before the first [await]; the inner one stands for the rejection of
    the promise of [generateJavaScriptFile]. *)
Definition generate_until_await (env : Env) (g : Generator) : M unit :=
  try_catch
    (createOutputDirectory g ;;
     try_catch
       (_ <- getTemplate env (js "lwcWrapper.js") ;;
        compileReactComponents_until_webpack env)
       (fun _ => ret tt))
    (fun error => emit (error_generating_wrapper (err_message error))).

(** The directory [outputDir/lwc/component], when it exists. *)
Definition component_directory (d : Disk) (component : jsstr)
  : option (gmap jsstr jsstr) :=
  match output d with
  | Some (Some lwc) => lwc !! component
  | _ => None
  end.

(** A directory of files after a series of [writeFileSync]. *)
Definition write_files (writes : list (jsstr * jsstr)) (files : gmap jsstr jsstr)
  : gmap jsstr jsstr :=
  fold_left (fun files write => <[fst write := snd write]> files) writes files.

(** The chunk files that [generateJavaScriptFile] writes, in order. *)
Definition chunk_files (g : Generator) (chunks : list jsstr) : list (jsstr * jsstr) :=
  map_indexed
    (fun chunk index => (chunkFileName g index, chunkContent (length chunks) chunk index))
    chunks.

(** The main script that [generateJavaScriptFile] writes. *)
Definition main_script (env : Env) (g : Generator) (template compiledStyles : jsstr)
  (chunks : list jsstr) : jsstr :=
  join newline (map_indexed (fun _ index => chunkImport g index) chunks) ++ newline ++
  replace_all env (js "{{COMPILED_STYLES}}") compiledStyles
    (replace_all env (js "{{COMPILED_REACT_FUNC}}")
       (compiledReactFunc
          (join (js " + ")
             (map_indexed (fun _ index => js "chunk" ++ decimal (N.of_nat index)) chunks)))
       (replace_all env (js "{{REACT_COMPONENT_NAME}}") (reactComponentName g)
          (replace_all env (js "{{COMPONENT_NAME}}") (componentName g) template))).

End Build.

(** ** The callers of the generator: [scripts/cli.js] and
    [scripts/generate-single.js] *)

Module CLI.

(** How a script ends: it runs to its end, or it calls
    [process.exit(code)]. *)
Inductive Status : Type :=
| completed
| exited (code : nat).

(** What the scripts write to the console, the output of the generator
    included; [None] stands for [undefined] printed in a message. *)
Inductive Event : Type :=
| generator (e : Build.Event)
| error_unknown_option (arg : jsstr)
| log_help
| log_version (version : jsstr)
| error_wrapper_generation_failed (error : option jsstr)
| log_import_summary
| log_import_generated (componentName : jsstr)
| log_import_failed (componentName : option jsstr) (error : jsstr)
| log_all_generated
| error_generation_failed (error : option jsstr)
| error_unexpected (message : jsstr)
| log_wrapper_generated (componentName : jsstr)
| log_output (outputDir : jsstr).

Definition M (A : Type) : Type := Eff Build.Disk Event JsError A.

(** A call into the generator, its console output being part of the
    script's. *)
Definition call {A} (m : Build.M A) : M A :=
  fun d =>
    let r := m d in
    mkRun (final r) (map generator (trace r)) (outcome r).

(** *** [cli.js] *)

(** The options; [None] is [undefined], which [this.args[++i]] gives when
    the option is the last argument. *)
Record Options : Type := mkOptions {
  componentName : option jsstr;
  outputDir : option jsstr;
  help : bool;
  version : bool;
  generateReact : bool;
  generateReactDOM : bool;
  generateAll : bool
}.

Definition default_options : Options :=
  mkOptions (Some (js "appInterop")) (Some (js "./dist")) false false false false false.

(** [arg.startsWith('-')] *)
Definition starts_with_dash (arg : jsstr) : bool :=
  match arg with
  | 45 :: _ => true
  | _ => false
  end.

(** [case a: case b:] of the [switch] *)
Definition is_case (arg : jsstr) (a b : string) : bool :=
  bool_decide (arg = js a) || bool_decide (arg = js b).

(** The loop of [parseArgs] from the argument it has reached; [inr arg] is
    the exit on the unknown option [arg]. *)
Fixpoint parseArgs_from (args : list jsstr) (options : Options) : Options + jsstr :=
  match args with
  | [] => inl options
  | arg :: rest =>
      if is_case arg "--name" "-n" then
        match rest with
        | value :: rest' =>
            parseArgs_from rest'
              (mkOptions (Some value) (outputDir options) (help options) (version options)
                 (generateReact options) (generateReactDOM options) (generateAll options))
        | [] =>
            inl (mkOptions None (outputDir options) (help options) (version options)
                   (generateReact options) (generateReactDOM options) (generateAll options))
        end
      else if is_case arg "--output" "-o" then
        match rest with
        | value :: rest' =>
            parseArgs_from rest'
              (mkOptions (componentName options) (Some value) (help options) (version options)
                 (generateReact options) (generateReactDOM options) (generateAll options))
        | [] =>
            inl (mkOptions (componentName options) None (help options) (version options)
                   (generateReact options) (generateReactDOM options) (generateAll options))
        end
      else if is_case arg "--react" "-r" then
        parseArgs_from rest
          (mkOptions (componentName options) (outputDir options) (help options)
             (version options) true (generateReactDOM options) (generateAll options))
      else if is_case arg "--reactdom" "-d" then
        parseArgs_from rest
          (mkOptions (componentName options) (outputDir options) (help options)
             (version options) (generateReact options) true (generateAll options))
      else if is_case arg "--all" "-a" then
        parseArgs_from rest
          (mkOptions (componentName options) (outputDir options) (help options)
             (version options) (generateReact options) (generateReactDOM options) true)
      else if is_case arg "--help" "-h" then
        parseArgs_from rest
          (mkOptions (componentName options) (outputDir options) true (version options)
             (generateReact options) (generateReactDOM options) (generateAll options))
      else if is_case arg "--version" "-v" then
        parseArgs_from rest
          (mkOptions (componentName options) (outputDir options) (help options) true
             (generateReact options) (generateReactDOM options) (generateAll options))
      else if starts_with_dash arg then inr arg
      else parseArgs_from rest options
  end.

Definition parseArgs (args : list jsstr) : Options + jsstr :=
  parseArgs_from args default_options.

(** What [run] holds in [result] or [wrapperResult]: the object that a
    synchronous method returned, or the promise that [generate()]
    returned. *)
Inductive ResultValue : Type :=
| result_object (r : Build.Result)
| promise.

(** [result.success], as a condition. *)
Definition success (result : ResultValue) : bool :=
  match result with
  | result_object (Build.success_true _ _) => true
  | _ => false
  end.

(** [result.error] *)
Definition error (result : ResultValue) : option jsstr :=
  match result with
  | result_object (Build.success_false message) => Some message
  | _ => None
  end.

(** [importResult.componentName] *)
Definition result_componentName (importResult : Build.Result) : option jsstr :=
  match importResult with
  | Build.success_true _ name => Some name
  | Build.success_false _ => None
  end.

(** [run()]; [package_version] is what [require('../package.json').version]
    gives. *)
Definition run (env : Build.Env) (package_version : Outcome JsError jsstr)
  (args : list jsstr) : M Status :=
  match parseArgs args with
  | inr arg =>
      emit (error_unknown_option arg) ;;
      emit log_help ;;
      ret (exited 1)
  | inl options =>
      if help options then
        emit log_help ;;
        ret completed
      else if version options then
        v <- of_outcome package_version ;;
        emit (log_version v) ;;
        ret completed
      else
        try_catch
          (let generator := Build.new_generator (componentName options) (outputDir options) in
           let finish (result : ResultValue) : M Status :=
             if negb (success result) then
               emit (error_generation_failed (error result)) ;;
               ret (exited 1)
             else ret completed in
           if generateReact options then
             result <- call (Build.generateReactImport env generator) ;;
             finish (result_object result)
           else if generateReactDOM options then
             result <- call (Build.generateReactDOMImport env generator) ;;
             finish (result_object result)
           else if generateAll options then
             call (Build.generate_until_await env generator) ;;
             let wrapperResult := promise in
             if negb (success wrapperResult) then
               emit (error_wrapper_generation_failed (error wrapperResult)) ;;
               ret (exited 1)
             else
               importResults <- call (Build.generateReactImports env generator) ;;
               emit log_import_summary ;;
               for_each
                 (fun importResult =>
                    match importResult with
                    | Build.success_true _ name => emit (log_import_generated name)
                    | Build.success_false message =>
                        emit (log_import_failed (result_componentName importResult) message)
                    end)
                 importResults ;;
               emit log_all_generated ;;
               ret completed
           else
             call (Build.generate_until_await env generator) ;;
             finish promise)
          (fun e =>
             emit (error_unexpected (err_message e)) ;;
             ret (exited 1))
  end.

(** *** [generate-single.js] *)

(** [args.indexOf(x)]; [None] is [-1]. *)
Fixpoint indexOf (args : list jsstr) (x : jsstr) : option nat :=
  match args with
  | [] => None
  | arg :: rest =>
      if bool_decide (arg = x) then Some 0%nat
      else option_map S (indexOf rest x)
  end.

(** [componentNameIndex !== -1 && args[componentNameIndex + 1]
       ? args[componentNameIndex + 1] : 'appWrapper'] *)
Definition componentName_of (args : list jsstr) : jsstr :=
  match indexOf args (js "--componentName") with
  | Some componentNameIndex =>
      match nth_error args (componentNameIndex + 1) with
      | Some (c :: name) => c :: name
      | _ => js "appWrapper"
      end
  | None => js "appWrapper"
  end.

(** [generateWrapper()], which awaits the generation. *)
Definition generateWrapper (env : Build.Env) (args : list jsstr) : M Status :=
  let componentName := componentName_of args in
  let generator := Build.new_generator (Some componentName) (Some (js "./dist")) in
  try_catch
    (result <- call (Build.generate env generator) ;;
     match result with
     | Build.success_true outputDir _ =>
         emit (log_wrapper_generated componentName) ;;
         emit (log_output outputDir) ;;
         ret completed
     | Build.success_false message =>
         emit (error_generation_failed (Some message)) ;;
         ret (exited 1)
     end)
    (fun e =>
       emit (error_generation_failed (Some (err_message e))) ;;
       ret (exited 1)).

End CLI.

(** ** The pipeline: [scripts/generate-app.js] *)

Module App.

(** The commands that [main] hands to [executeCommand]. *)
Inductive Step : Type :=
| generating_wrapper      (* [node scripts/generate-single.js --componentName <name>] *)
| generating_react        (* [node scripts/cli.js --react] *)
| generating_reactdom     (* [node scripts/cli.js --reactdom] *)
| deploying               (* [node scripts/deploy-cli.js --org <alias>] *)
| opening.                (* [sf org open --target-org <alias> --path "<path>"] *)

(** The console; the child processes write to it as well
    ([stdio: 'inherit']). *)
Inductive Event : Type :=
| child (e : CLI.Event)
| log_usage
| error_invalid_component_name
| log_generating (componentName : jsstr)
| log_component_name (componentName : jsstr)
| log_org (orgAlias : jsstr)
| log_deploy (shouldDeploy : bool)
| log_open (shouldOpen : bool)
| log_step (step : Step)
| error_step_failed (step : Step)
| log_ensuring_libraries
| log_opening_in_browser
| log_generation_complete (componentName orgAlias : jsstr) (shouldDeploy : bool).

Definition M (A : Type) : Type := Eff Build.Disk Event JsError A.

(** What the pipeline does not contain: what webpack does in each of the
    three generator processes, the version in [package.json], and whether a
    command that is not one of the generator scripts ends with status 0. *)
Record Env : Type := mkEnv {
  wrapper_env : Build.Env;
  react_env : Build.Env;
  reactdom_env : Build.Env;
  package_version : Outcome JsError jsstr;
  execSync : jsstr -> bool
}.

(** [/^[a-z][a-zA-Z0-9]*$/.test(componentName)] *)
Definition is_lower (c : N) : bool := (97 <=? c) && (c <=? 122).
Definition is_upper (c : N) : bool := (65 <=? c) && (c <=? 90).
Definition is_digit (c : N) : bool := (48 <=? c) && (c <=? 57).
Definition valid_component_name (componentName : jsstr) : bool :=
  match componentName with
  | c :: rest =>
      is_lower c && forallb (fun c => is_lower c || is_upper c || is_digit c) rest
  | [] => false
  end.

(** [args.includes(x)] *)
Definition includes (args : list jsstr) (x : jsstr) : bool :=
  existsb (fun arg => bool_decide (arg = x)) args.

(** [orgIndex !== -1 && args[orgIndex + 1] ? args[orgIndex + 1] : 'default'] *)
Definition orgAlias_of (args : list jsstr) : jsstr :=
  match CLI.indexOf args (js "--org") with
  | Some orgIndex =>
      match nth_error args (orgIndex + 1) with
      | Some (c :: alias) => c :: alias
      | _ => js "default"
      end
  | None => js "default"
  end.

(** [execSync] of one of the generator scripts: the script runs on the
    disk and writes to the console; [execSync] throws unless it ends with
    status 0, which a script that calls [process.exit(1)] or ends on an
    uncaught exception does not. *)
Definition run_script (script : CLI.M CLI.Status) : M bool :=
  fun d =>
    let r := script d in
    mkRun (final r) (map child (trace r))
      (Returned
         match outcome r with
         | Returned CLI.completed | Returned (CLI.exited 0) => true
         | _ => false
         end).

(** [execSync] of another command. *)
Definition run_command (env : Env) (command : jsstr) : M bool :=
  ret (execSync env command).

(** [executeCommand(command, description)] *)
Definition executeCommand (command : M bool) (step : Step) : M bool :=
  emit (log_step step) ;;
  ok <- command ;;
  if ok then ret true
  else
    emit (error_step_failed step) ;;
    ret false.

(** [main()].  A component name that passes the test has letters and
    digits only, so the shell hands [--componentName] and the name to
    [generate-single.js] as its two arguments. *)
Definition main (env : Env) (args : list jsstr) : M CLI.Status :=
  match args with
  | [] =>
      emit log_usage ;;
      ret (CLI.exited 0)
  | componentName :: _ =>
      if bool_decide (componentName = js "--help") || bool_decide (componentName = js "-h")
      then
        emit log_usage ;;
        ret (CLI.exited 0)
      else
        let shouldDeploy := includes args (js "--deploy") in
        let shouldOpen := includes args (js "--open") in
        let orgAlias := orgAlias_of args in
        if negb (valid_component_name componentName) then
          emit error_invalid_component_name ;;
          ret (CLI.exited 1)
        else
          emit (log_generating componentName) ;;
          emit (log_component_name componentName) ;;
          emit (log_org orgAlias) ;;
          emit (log_deploy shouldDeploy) ;;
          emit (log_open shouldOpen) ;;
          generated <-
            executeCommand
              (run_script
                 (CLI.generateWrapper (wrapper_env env) [js "--componentName"; componentName]))
              generating_wrapper ;;
          if negb generated then ret (CLI.exited 1)
          else
            emit log_ensuring_libraries ;;
            _ <- executeCommand
                   (run_script (CLI.run (react_env env) (package_version env) [js "--react"]))
                   generating_react ;;
            _ <- executeCommand
                   (run_script
                      (CLI.run (reactdom_env env) (package_version env) [js "--reactdom"]))
                   generating_reactdom ;;
            deployed <-
              (if shouldDeploy then
                 executeCommand
                   (run_command env (js "node scripts/deploy-cli.js --org " ++ orgAlias))
                   deploying
               else ret true) ;;
            if negb deployed then ret (CLI.exited 1)
            else
              (if shouldOpen && shouldDeploy then
                 emit log_opening_in_browser ;;
                 _ <- executeCommand
                        (run_command env
                           (js "sf org open --target-org " ++ orgAlias ++ js " --path "
                              ++ dquote ++ js "/lightning/app/c__" ++ componentName ++ dquote))
                        opening ;;
                 ret tt
               else ret tt) ;;
              emit (log_generation_complete componentName orgAlias shouldDeploy) ;;
              ret CLI.completed
  end.

End App.

(** The number that a decimal numeral denotes. *)
Definition decimal_value (digits : jsstr) : N :=
  fold_left (fun value digit => 10 * value + (digit - 48)) digits 0.

(** ** Scenarios

    Concrete generated modules, hosts, pages and disks on which the model is
    run. *)

Module Scenario.
Import Bridge.

(** A bundle that publishes the root factory and touches nothing else. *)
Definition publishing_script : Script :=
  fun _ _ p =>
    (mkPage (window_process p) (VFun (js "AppWrapper")) (container p), Returned tt).

(** An engine and a React that do what they are asked. *)
Definition working_host : Host :=
  mkHost (fun _ => Returned publishing_script)
         (fun source => Returned source)
         (fun _ _ => Returned (VObj []))
         (fun _ => Returned 1)
         (fun _ _ => Returned tt)
         (fun _ => Returned tt).

(** The same, except that [render] throws. *)
Definition host_whose_render_throws : Host :=
  mkHost (fun _ => Returned publishing_script)
         (fun source => Returned source)
         (fun _ _ => Returned (VObj []))
         (fun _ => Returned 1)
         (fun _ _ => Thrown (error_object (Error (js "render failed"))))
         (fun _ => Returned tt).

(** A bundle that executes [throw null] before it publishes anything. *)
Definition script_throwing_null : Script :=
  fun _ _ p => (p, Thrown (thrown_value VNull)).

(** An engine that compiles the text [throw null;] to such a bundle, with
    a React that does what it is asked. *)
Definition host_whose_bundle_throws_null : Host :=
  mkHost (fun body =>
            Returned (if bool_decide (body = js "throw null;") then script_throwing_null
                      else publishing_script))
         (fun source => Returned source)
         (fun _ _ => Returned (VObj []))
         (fun _ => Returned 1)
         (fun _ _ => Returned tt)
         (fun _ => Returned tt).

(** The module generated from a bundle whose text is [throw null;]. *)
Definition module_throwing_null : Generated :=
  mkGenerated (VObj []) (VObj []) (encode_chunks (js "throw null;")) (js "body{}").

(** Compiled styles with an escape, as [content:'\n'] in a stylesheet. *)
Definition module_with_escaped_styles : Generated :=
  mkGenerated (VObj []) (VObj [])
    (encode_chunks (js "window.ReactAppComponent = AppWrapper;"))
    (js "a::after{content:'\n'}").

(** An engine that reads the escape [\n] of a template literal as a line
    feed, with a React that does what it is asked. *)
Definition host_cooking_escapes : Host :=
  mkHost (fun _ => Returned publishing_script)
         (fun source =>
            Returned (if bool_decide (source = js "a::after{content:'\n'}")
                      then js "a::after{content:'" ++ [10] ++ js "'}"
                      else source))
         (fun _ _ => Returned (VObj []))
         (fun _ => Returned 1)
         (fun _ _ => Returned tt)
         (fun _ => Returned tt).

Definition generated_module : Generated :=
  mkGenerated (VObj []) (VObj [])
    (encode_chunks (js "window.ReactAppComponent = AppWrapper;"))
    (js "body{}").

(** A fresh instance on a page that has the container and no globals. *)
Definition fresh_world : World :=
  mkWorld new_instance (mkPage VUndefined VUndefined (Some None)).

(** A fresh instance on a page whose template lacks the container. *)
Definition world_without_container : World :=
  mkWorld new_instance (mkPage VUndefined VUndefined None).

(** Replacement of every occurrence of a literal pattern, as the engine
    does it for a pattern and a replacement without special characters. *)
Fixpoint replace_literal (fuel : nat) (pattern replacement subject : jsstr) : jsstr :=
  match fuel, subject with
  | S fuel', c :: rest =>
      if bool_decide (firstn (length pattern) subject = pattern) then
        replacement
          ++ replace_literal fuel' pattern replacement (skipn (length pattern) subject)
      else c :: replace_literal fuel' pattern replacement rest
  | _, _ => subject
  end.

Import Build.

(** A source tree with three stylesheets, one of them in a directory. *)
Definition source_tree : list (jsstr * Node) :=
  [ (js "App.css", File (js "a{}"));
    (js "App.js", File (js "export default App;"));
    (js "components",
       Dir [ (js "Button.css", File (js "b{}"));
             (js "Button.js", File (js "export default Button;")) ]);
    (js "index.css", File (js "i{}")) ].

(** The same tree once [App.css] has been deleted. *)
Definition source_tree_without_App_css : list (jsstr * Node) :=
  [ (js "App.js", File (js "export default App;"));
    (js "components",
       Dir [ (js "Button.css", File (js "b{}"));
             (js "Button.js", File (js "export default Button;")) ]);
    (js "index.css", File (js "i{}")) ].


Definition wrapper_template : jsstr :=
  js "export default class {{COMPONENT_NAME}} { renderedCallback() { {{COMPILED_REACT_FUNC}} } }".

(** A checkout before the first run: no temporary directory, no output, no
    library resource. *)
Definition clean_disk : Disk :=
  mkDisk source_tree None None
    (<[js "lwcWrapper.js" := wrapper_template]>
       (<[js "lwcWrapper.html" := js "<template></template>"]>
          (<[js "lwcWrapper-meta.xml" := js "<xml/>"]>
             (<[js "lwcWrapper.css" := js ""]> ∅))))
    None None None.

(** Webpack compiles the application to [compiled] and extracts no
    stylesheet; [App.css] may be deleted while the styles are compiled. *)
Definition env_compiling_to (compiled : jsstr) (App_css_deleted : bool) : Env :=
  mkEnv (wp_done {[ js "compiled-react.js" := compiled ]})
        (wp_done {[ js "styles-bundle.js" := js "" ]})
        (fun tree => if App_css_deleted then source_tree_without_App_css else tree)
        (fun pattern replacement subject =>
           replace_literal (length subject) pattern replacement subject)
        (js "/repo/scripts").


(** Webpack reports that the application does not compile. *)
Definition env_with_compile_error : Env :=
  mkEnv (wp_has_errors (Error (js "Module not found")))
        (wp_has_errors (Error (js "Module not found")))
        (fun tree => tree)
        (fun pattern replacement subject =>
           replace_literal (length subject) pattern replacement subject)
        (js "/repo/scripts").

(** Webpack reports no error and writes nothing. *)
Definition env_emitting_nothing : Env :=
  mkEnv (wp_done ∅) (wp_done ∅)
        (fun tree => tree)
        (fun pattern replacement subject =>
           replace_literal (length subject) pattern replacement subject)
        (js "/repo/scripts").

(** Webpack compiles the application to [compiled] and extracts the
    stylesheets into [extracted-styles.css]. *)
Definition env_extracting_styles (compiled styles : jsstr) : Env :=
  mkEnv (wp_done {[ js "compiled-react.js" := compiled ]})
        (wp_done {[ js "extracted-styles.css" := styles ]})
        (fun tree => tree)
        (fun pattern replacement subject =>
           replace_literal (length subject) pattern replacement subject)
        (js "/repo/scripts").

(** A checkout whose template directory is empty. *)
Definition disk_without_templates : Disk :=
  mkDisk source_tree None None ∅ None None None.

(** A checkout that has the template of the main script and no other. *)
Definition disk_with_script_template_only : Disk :=
  mkDisk source_tree None None {[ js "lwcWrapper.js" := wrapper_template ]} None None None.

(** A checkout on which an earlier run for a larger bundle has left the
    sixth chunk file. *)
Definition disk_with_stale_chunk : Disk :=
  mkDisk source_tree None None (templates clean_disk) None None
    (Some (Some {[ js "appInterop" := {[ js "appInteropChunk5.js" := js "stale" ]} ]})).

(** A checkout with the two library resources installed. *)
Definition disk_with_libraries : Disk :=
  mkDisk source_tree None None (templates clean_disk)
    (Some (File (js "window.React = {};"))) (Some (File (js "window.ReactDOM = {};"))) None.

(** A checkout on which the two library resources are directories. *)
Definition disk_with_unreadable_libraries : Disk :=
  mkDisk source_tree None None (templates clean_disk) (Some (Dir [])) (Some (Dir [])) None.

Definition default_generator : Generator := new_generator None None.

(** A pipeline in which webpack compiles the application in the first
    process and every other command ends with status 0. *)
Definition pipeline_env : App.Env :=
  App.mkEnv (env_compiling_to (js "x") false) (env_compiling_to (js "x") false)
    (env_compiling_to (js "x") false) (Returned (js "1.0.0")) (fun _ => true).

End Scenario.

(** * Properties *)

(** ** Tactics *)

Ltac bool_to_prop :=
  repeat match goal with
    | H : (_ && _)%bool = true |- _ => apply andb_true_iff in H; destruct H
    | H : (_ && _)%bool = false |- _ => apply andb_false_iff in H; destruct H
    | H : (_ || _)%bool = false |- _ => apply orb_false_iff in H; destruct H
    | H : (_ <? _) = true |- _ => apply N.ltb_lt in H
    | H : (_ <? _) = false |- _ => apply N.ltb_ge in H
    | H : (_ <=? _) = true |- _ => apply N.leb_le in H
    | H : (_ <=? _) = false |- _ => apply N.leb_gt in H
    | H : (_ =? _) = true |- _ => apply N.eqb_eq in H
    | H : (_ =? _) = false |- _ => apply N.eqb_neq in H
    end.

Ltac div_lia := zify; Z.to_euclidean_division_equations; lia.

Ltac case_match :=
  match goal with
  | |- context [match ?x with _ => _ end] =>
      lazymatch x with
      | context [match _ with _ => _ end] => fail
      | _ => destruct x eqn:?
      end
  end.

(** Runs a computation of the generator as far as its constructors allow. *)
Ltac eff_red :=
  cbv beta iota zeta delta
    [bind ret throw emit get modify of_outcome try_catch final trace outcome
     Build.src Build.temp_build Build.temp_css_build Build.templates Build.react_umd
     Build.react_dom_umd Build.output
     Build.set_temp_build Build.set_temp_css_build Build.set_src Build.set_output
     Build.ensure_dir Build.write_into Build.read_from Build.lookup_in].

Ltac case_if :=
  match goal with
  | |- context [if ?b then _ else _] => destruct b eqn:?
  end.

(** ** The library on known values *)

Example base64_encode_Man : base64_encode (js "Man") = js "TWFu".
Proof. reflexivity. Qed.

Example base64_encode_padded :
  base64_encode (js "M") = js "TQ==" /\ base64_encode (js "Ma") = js "TWE=".
Proof. split; reflexivity. Qed.

Example base64_encode_last_letters : base64_encode [0xFB; 0xFF] = js "+/8=".
Proof. reflexivity. Qed.

Example atob_without_padding : atob (js "TQ") = Some (js "M").
Proof. reflexivity. Qed.

Example atob_skips_whitespace : atob (js "TW Fu") = Some (js "Man").
Proof. reflexivity. Qed.

Example atob_rejects :
  atob (js "T") = None /\ atob (js "TQ=") = None /\ atob (js "TW-u") = None.
Proof. repeat split; reflexivity. Qed.

Example Buffer_from_euro_sign : Buffer_from [0x20AC] = [0xE2; 0x82; 0xAC].
Proof. reflexivity. Qed.

Example Buffer_from_surrogate_pair :
  Buffer_from [0xD83D; 0xDCE6] = [0xF0; 0x9F; 0x93; 0xA6].
Proof. reflexivity. Qed.

Example Buffer_from_lone_surrogate : Buffer_from [0xDC00; 65] = [0xEF; 0xBF; 0xBD; 65].
Proof. reflexivity. Qed.

Example decimal_12345 : decimal 12345 = js "12345".
Proof. reflexivity. Qed.

Example endsWith_css :
  endsWith (js "App.css") (js ".css") = true
  /\ endsWith (js "App.css.map") (js ".css") = false
  /\ endsWith (js "css") (js ".css") = false.
Proof. repeat split; reflexivity. Qed.

Example chunkFileName_3 :
  Build.chunkFileName Scenario.default_generator 3 = js "appInteropChunk3.js".
Proof. reflexivity. Qed.

Example findCSSFiles_source_tree :
  Build.findCSSFiles Scenario.source_tree
  = [[js "App.css"]; [js "components"; js "Button.css"]; [js "index.css"]].
Proof. reflexivity. Qed.

(** ** Base64: decoding inverts encoding *)


Lemma list_ind3 {A} (P : list A -> Prop) :
  P [] -> (forall a, P [a]) -> (forall a b, P [a; b]) ->
  (forall a b c rest, P rest -> P (a :: b :: c :: rest)) ->
  forall l, P l.
Proof.
  intros H0 H1 H2 H3.
  fix IH 1. intros [|a [|b [|c rest]]]; [exact H0|apply H1|apply H2|apply H3, IH].
Qed.

Lemma b64_index_char i : i < 64 -> b64_index (b64_char i) = Some i.
Proof.
  intros Hi. unfold b64_char. repeat case_if; bool_to_prop;
    unfold b64_index; repeat case_if; bool_to_prop; try lia; f_equal; lia.
Qed.

Lemma b64_char_not_pad i : i < 64 -> b64_char i <> b64_pad.
Proof.
  intros Hi. unfold b64_char, b64_pad. repeat case_if; bool_to_prop; lia.
Qed.

Lemma b64_char_not_whitespace i : i < 64 -> is_ascii_whitespace (b64_char i) = false.
Proof.
  intros Hi. unfold b64_char. repeat case_if; bool_to_prop;
    unfold is_ascii_whitespace; repeat (apply orb_false_intro); apply N.eqb_neq; lia.
Qed.


Lemma sextets_bound bs : bytes_ok bs -> Forall (fun i => i < 64) (sextets bs).
Proof.
  unfold bytes_ok. induction bs as [|a|a b|a b c rest IH] using list_ind3; intros H; simpl.
  - constructor.
  - inversion_clear H. repeat constructor; div_lia.
  - inversion_clear H as [|? ? Ha H']. inversion_clear H'. repeat constructor; div_lia.
  - inversion_clear H as [|? ? Ha H']. inversion_clear H' as [|? ? Hb H''].
    inversion_clear H'' as [|? ? Hc H3].
    repeat (constructor; [div_lia|]). auto.
Qed.

Lemma bytes_of_sextets_sextets bs : bytes_ok bs -> bytes_of_sextets (sextets bs) = Some bs.
Proof.
  unfold bytes_ok. induction bs as [|a|a b|a b c rest IH] using list_ind3; intros H; simpl.
  - reflexivity.
  - inversion_clear H. do 2 f_equal. div_lia.
  - inversion_clear H as [|? ? Ha H']. inversion_clear H'. do 2 f_equal; [div_lia|]. f_equal. div_lia.
  - inversion_clear H as [|? ? Ha H']. inversion_clear H' as [|? ? Hb H''].
    inversion_clear H'' as [|? ? Hc H3].
    rewrite IH by assumption. do 2 f_equal; [div_lia|]. f_equal; [div_lia|]. f_equal; div_lia.
Qed.

Lemma b64_indices_chars sx :
  Forall (fun i => i < 64) sx -> b64_indices (map b64_char sx) = Some sx.
Proof.
  induction 1 as [|i sx Hi _ IH]; simpl; [reflexivity|].
  now rewrite b64_index_char, IH.
Qed.

Lemma filter_all {A} (f : A -> bool) (l : list A) :
  Forall (fun x => f x = true) l -> List.filter f l = l.
Proof.
  induction 1 as [|x l Hx _ IH]; simpl; [reflexivity|]. now rewrite Hx, IH.
Qed.

Lemma base64_encode_cons3 a b c rest :
  base64_encode (a :: b :: c :: rest) =
  map b64_char (sextets [a; b; c]) ++ base64_encode rest.
Proof.
  unfold base64_encode. cbn [sextets map app].
  replace (padding (length (a :: b :: c :: rest))) with (padding (length rest)); [reflexivity|].
  unfold padding. cbn [length].
  replace (S (S (S (length rest)))) with (length rest + 1 * 3)%nat by lia.
  now rewrite Nat.Div0.mod_add.
Qed.

Lemma base64_encode_length bs :
  length (base64_encode bs) = (4 * ((length bs + 2) / 3))%nat.
Proof.
  induction bs as [|a|a b|a b c rest IH] using list_ind3; try reflexivity.
  rewrite base64_encode_cons3, length_app, IH. cbn [length sextets map].
  replace (S (S (S (length rest))) + 2)%nat with (length rest + 2 + 1 * 3)%nat by lia.
  rewrite Nat.div_add by lia. lia.
Qed.

Lemma padding_cases n :
  padding n = [] \/ padding n = [b64_pad] \/ padding n = [b64_pad; b64_pad].
Proof.
  unfold padding. destruct (n mod 3)%nat as [|[|[|?]]]; auto.
Qed.

Lemma strip_padding_encode bs :
  bytes_ok bs -> strip_padding (base64_encode bs) = map b64_char (sextets bs).
Proof.
  intros Hbs. unfold strip_padding.
  rewrite base64_encode_length.
  replace (4 * ((length bs + 2) / 3))%nat with (((length bs + 2) / 3) * 4)%nat by lia.
  rewrite Nat.Div0.mod_mul. cbn [Nat.eqb].
  assert (Hbody : Forall (fun c => c <> b64_pad) (rev (map b64_char (sextets bs)))).
  { apply List.Forall_rev, List.Forall_map.
    eapply List.Forall_impl; [|apply sextets_bound, Hbs]. apply b64_char_not_pad. }
  unfold base64_encode.
  destruct (padding_cases (length bs)) as [-> | [-> | ->]]; rewrite rev_app_distr; cbn [rev app].
  - rewrite app_nil_r.
    destruct (rev (map b64_char (sextets bs))) as [|c1 [|c2 r]] eqn:E; [reflexivity| |];
      inversion_clear Hbody as [|? ? Hc1 _]; apply N.eqb_neq in Hc1; now rewrite Hc1.
  - destruct (rev (map b64_char (sextets bs))) as [|c2 r] eqn:E.
    + rewrite N.eqb_refl. apply (f_equal (@rev N)) in E. now rewrite rev_involutive in E.
    + rewrite N.eqb_refl. inversion_clear Hbody as [|? ? Hc2 _].
      apply N.eqb_neq in Hc2. rewrite Hc2.
      change (rev r ++ [c2]) with (rev (c2 :: r)). rewrite <- E. apply rev_involutive.
  - rewrite !N.eqb_refl. apply rev_involutive.
Qed.

Lemma atob_base64_encode bs : bytes_ok bs -> atob (base64_encode bs) = Some bs.
Proof.
  intros Hbs. unfold atob.
  rewrite filter_all.
  - rewrite strip_padding_encode, b64_indices_chars by auto using sextets_bound.
    now apply bytes_of_sextets_sextets.
  - unfold base64_encode. apply List.Forall_app. split.
    + apply List.Forall_map. eapply List.Forall_impl; [|apply sextets_bound, Hbs].
      intros i Hi. cbn beta. now rewrite b64_char_not_whitespace.
    + destruct (padding_cases (length bs)) as [-> | [-> | ->]]; repeat constructor.
Qed.


(** ** UTF-8 *)

Lemma Buffer_from_ascii s : ascii_only s -> Buffer_from s = s.
Proof.
  induction 1 as [|c s Hc _ IH]; [reflexivity|].
  cbn [Buffer_from]. unfold is_high_surrogate, is_low_surrogate, utf8_of_code_point.
  repeat case_if; bool_to_prop; try lia. now rewrite IH.
Qed.

Lemma utf8_of_code_point_bytes cp : cp < 0x110000 -> bytes_ok (utf8_of_code_point cp).
Proof.
  intros Hcp. unfold utf8_of_code_point, bytes_ok.
  repeat case_if; bool_to_prop; repeat constructor; div_lia.
Qed.

Lemma Buffer_from_bytes s : wf_jsstr s -> bytes_ok (Buffer_from s).
Proof.
  unfold wf_jsstr, bytes_ok.
  assert (Hrep : Forall (fun b => b < 256) utf8_replacement)
    by (repeat constructor; reflexivity).
  enough (H : forall n s, (length s <= n)%nat -> Forall (fun c => c < 65536) s ->
                          Forall (fun b => b < 256) (Buffer_from s)) by eauto.
  induction n as [|n IH]; intros [|c rest] Hlen Hs; simpl in Hlen; try lia;
    try constructor.
  inversion_clear Hs as [|? ? Hc Hrest]. cbn [Buffer_from].
  destruct (is_high_surrogate c) eqn:Hhi.
  - destruct rest as [|d rest']; [exact Hrep|].
    inversion Hrest as [|? ? Hd Hrest']; subst.
    destruct (is_low_surrogate d) eqn:Hlo.
    + apply List.Forall_app. split; [|apply IH; [simpl in Hlen; lia|assumption]].
      apply utf8_of_code_point_bytes.
      unfold is_high_surrogate, is_low_surrogate in *. bool_to_prop. lia.
    + apply List.Forall_app. split; [exact Hrep|apply IH; [lia|assumption]].
  - destruct (is_low_surrogate c).
    + apply List.Forall_app. split; [exact Hrep|apply IH; [lia|assumption]].
    + apply List.Forall_app. split; [|apply IH; [lia|assumption]].
      apply utf8_of_code_point_bytes. lia.
Qed.

(** ** The chunk loop *)

Lemma chunkSize_pos : (0 < chunkSize)%nat.
Proof. unfold chunkSize. lia. Qed.

Lemma chunkSize_eq : chunkSize = (4 * N.to_nat 200000)%nat.
Proof. unfold chunkSize. lia. Qed.

#[local] Opaque chunkSize.

Lemma chunk_loop_step e i acc :
  chunk_loop e i acc =
  if lt_dec i (length e)
  then chunk_loop e (i + chunkSize) (acc ++ [slice e i (i + chunkSize)])
  else acc.
Proof. rewrite chunk_loop_equation_1. destruct (lt_dec i (length e)); reflexivity. Qed.

Lemma chunk_loop_acc e i acc : chunk_loop e i acc = acc ++ chunk_loop e i [].
Proof.
  remember (length e - i)%nat as n eqn:Hn. revert i acc Hn.
  induction n as [n IH] using lt_wf_ind. intros i acc Hn.
  rewrite (chunk_loop_step e i acc), (chunk_loop_step e i []).
  destruct (lt_dec i (length e)) as [Hlt|Hge]; [|now rewrite app_nil_r].
  pose proof chunkSize_pos.
  assert (Hm : (length e - (i + chunkSize) < n)%nat) by lia.
  rewrite (IH _ Hm (i + chunkSize)%nat (acc ++ _) eq_refl).
  rewrite (IH _ Hm (i + chunkSize)%nat ([] ++ _) eq_refl).
  now rewrite <- app_assoc.
Qed.

Lemma chunk_loop_skipn e i : chunk_loop e i [] = chunk_loop (skipn i e) 0 [].
Proof.
  remember (length e - i)%nat as n eqn:Hn. revert e i Hn.
  induction n as [n IH] using lt_wf_ind. intros e i Hn.
  pose proof chunkSize_pos as Hk.
  rewrite (chunk_loop_step e i), (chunk_loop_step (skipn i e) 0).
  rewrite length_skipn.
  destruct (lt_dec i (length e)) as [Hlt|Hge];
    destruct (lt_dec 0 (length e - i)) as [Hlt'|Hge']; try lia; [|reflexivity].
  rewrite (chunk_loop_acc e), (chunk_loop_acc (skipn i e)).
  f_equal.
  - unfold slice. cbn [app skipn]. do 2 f_equal. lia.
  - cbn [Nat.add].
    assert (Hm : (length e - (i + chunkSize) < n)%nat) by lia.
    rewrite (IH _ Hm e (i + chunkSize)%nat eq_refl).
    assert (Hm' : (length (skipn i e) - chunkSize < n)%nat)
      by (rewrite length_skipn; lia).
    rewrite (IH _ Hm' (skipn i e) chunkSize eq_refl).
    now rewrite skipn_skipn, (Nat.add_comm chunkSize i).
Qed.

Lemma split_chunks_nil : split_chunks [] = [].
Proof. unfold split_chunks. now rewrite chunk_loop_step. Qed.

Lemma split_chunks_cons c e :
  split_chunks (c :: e) =
  firstn chunkSize (c :: e) :: split_chunks (skipn chunkSize (c :: e)).
Proof.
  unfold split_chunks. rewrite chunk_loop_step.
  destruct (lt_dec 0 (length (c :: e))) as [_|H]; [|simpl in H; lia].
  rewrite chunk_loop_acc, chunk_loop_skipn. cbn [Nat.add app].
  unfold slice. now rewrite Nat.sub_0_r.
Qed.

(** Induction that follows the loop: a non-empty text gives its first
    [chunkSize] code units, then the chunks of the rest. *)
Lemma split_chunks_ind (P : jsstr -> list jsstr -> Prop) :
  P [] [] ->
  (forall e, e <> [] -> P (skipn chunkSize e) (split_chunks (skipn chunkSize e)) ->
             P e (firstn chunkSize e :: split_chunks (skipn chunkSize e))) ->
  forall e, P e (split_chunks e).
Proof.
  intros Hnil Hcons e.
  remember (length e) as n eqn:Hn. revert e Hn.
  induction n as [n IH] using lt_wf_ind. intros [|c e] Hn.
  - now rewrite split_chunks_nil.
  - rewrite split_chunks_cons. apply Hcons; [discriminate|].
    apply (IH (length (skipn chunkSize (c :: e)))); [|reflexivity].
    pose proof chunkSize_pos. rewrite length_skipn. subst n. simpl. lia.
Qed.

Lemma concat_split_chunks e : concat (split_chunks e) = e.
Proof.
  apply (split_chunks_ind (fun e cs => concat cs = e)); [reflexivity|].
  intros e' _ IH. cbn [concat]. rewrite IH. apply firstn_skipn.
Qed.

Lemma split_chunks_nonempty e : e <> [] -> split_chunks e <> [].
Proof. destruct e as [|c e]; [congruence|]. rewrite split_chunks_cons. discriminate. Qed.

Lemma split_chunks_sizes e :
  Forall (fun chunk => (1 <= length chunk <= chunkSize)%nat) (split_chunks e).
Proof.
  apply (split_chunks_ind (fun _ cs => Forall (fun chunk => (1 <= length chunk <= chunkSize)%nat) cs));
    [constructor|].
  intros e' He IH. constructor; [|exact IH].
  pose proof chunkSize_pos. rewrite length_firstn.
  destruct e'; [congruence|]. simpl length. lia.
Qed.

Lemma split_chunks_nth e :
  forall index chunk,
    nth_error (split_chunks e) index = Some chunk ->
    chunk = slice e (index * chunkSize) (index * chunkSize + chunkSize).
Proof.
  apply (split_chunks_ind (fun e cs => forall index chunk,
    nth_error cs index = Some chunk ->
    chunk = slice e (index * chunkSize) (index * chunkSize + chunkSize))).
  - intros [|?] ? H; discriminate H.
  - intros e' _ IH [|index] chunk H; cbn [nth_error] in H.
    + injection H as <-. unfold slice. cbn [Nat.mul Nat.add skipn]. now rewrite Nat.sub_0_r.
    + apply IH in H. subst chunk. unfold slice. rewrite skipn_skipn.
      replace (S index * chunkSize)%nat with (index * chunkSize + chunkSize)%nat by lia.
      f_equal. lia.
Qed.

Lemma split_chunks_full e :
  forall index chunk,
    nth_error (split_chunks e) index = Some chunk ->
    (S index < length (split_chunks e))%nat ->
    length chunk = chunkSize.
Proof.
  apply (split_chunks_ind (fun e cs => forall index chunk,
    nth_error cs index = Some chunk -> (S index < length cs)%nat ->
    length chunk = chunkSize)).
  - intros [|?] ? H; discriminate H.
  - intros e' _ IH [|index] chunk H Hlt; cbn [nth_error length] in H, Hlt.
    + injection H as <-. rewrite length_firstn.
      destruct (split_chunks (skipn chunkSize e')) as [|c cs] eqn:E; [simpl in Hlt; lia|].
      assert (Hne : skipn chunkSize e' <> []).
      { intros Hnil. rewrite Hnil, split_chunks_nil in E. discriminate. }
      assert (length (skipn chunkSize e') <> 0%nat)
        by (destruct (skipn chunkSize e'); [congruence|discriminate]).
      rewrite length_skipn in *. lia.
    + apply (IH index); [assumption|lia].
Qed.

Lemma split_chunks_length e :
  length (split_chunks e) = ceil_div (length e) chunkSize.
Proof.
  pose proof chunkSize_pos as Hk. unfold ceil_div.
  apply (split_chunks_ind (fun e cs => length cs = ((length e + chunkSize - 1) / chunkSize)%nat)).
  - cbn [length Nat.add]. symmetry. apply Nat.div_small. lia.
  - intros e' He IH. cbn [length]. rewrite IH, length_skipn.
    assert (length e' <> 0%nat) by (destruct e'; [congruence|discriminate]).
    destruct (le_lt_dec chunkSize (length e')) as [Hle|Hlt].
    + replace (length e' + chunkSize - 1)%nat
        with ((length e' - chunkSize + chunkSize - 1) + 1 * chunkSize)%nat by lia.
      rewrite Nat.div_add by lia. lia.
    + replace (length e' - chunkSize + chunkSize - 1)%nat with (chunkSize - 1)%nat by lia.
      rewrite Nat.div_small by lia.
      replace (length e' + chunkSize - 1)%nat
        with ((length e' - 1) + 1 * chunkSize)%nat by lia.
      rewrite Nat.div_add by lia. rewrite Nat.div_small by lia. reflexivity.
Qed.

Lemma split_chunks_one e :
  e <> [] -> (length e <= chunkSize)%nat -> split_chunks e = [e].
Proof.
  intros He Hlen. destruct e as [|c e]; [congruence|].
  rewrite split_chunks_cons, firstn_all2, skipn_all2 by assumption.
  now rewrite split_chunks_nil.
Qed.

(** ** Slices of the encoded text at multiples of four *)

Lemma firstn_base64_encode m bs :
  firstn (4 * m) (base64_encode bs) = base64_encode (firstn (3 * m) bs).
Proof.
  revert bs. induction m as [|m IH]; intros bs; [reflexivity|].
  replace (4 * S m)%nat with (S (S (S (S (4 * m))))) by lia.
  replace (3 * S m)%nat with (S (S (S (3 * m)))) by lia.
  destruct bs as [|a [|b [|c rest]]].
  - reflexivity.
  - cbn. now rewrite firstn_nil.
  - cbn. now rewrite !firstn_nil.
  - rewrite base64_encode_cons3. cbn [sextets map app firstn].
    rewrite IH. now rewrite base64_encode_cons3.
Qed.

Lemma skipn_base64_encode m bs :
  skipn (4 * m) (base64_encode bs) = base64_encode (skipn (3 * m) bs).
Proof.
  revert bs. induction m as [|m IH]; intros bs; [reflexivity|].
  replace (4 * S m)%nat with (S (S (S (S (4 * m))))) by lia.
  replace (3 * S m)%nat with (S (S (S (3 * m)))) by lia.
  destruct bs as [|a [|b [|c rest]]].
  - reflexivity.
  - cbn. now rewrite skipn_nil.
  - cbn. now rewrite !skipn_nil.
  - rewrite base64_encode_cons3. cbn [sextets map app skipn]. apply IH.
Qed.

Lemma base64_encode_nil_iff bs : base64_encode bs = [] <-> bs = [].
Proof.
  split; [|now intros ->].
  destruct bs as [|a [|b [|c rest]]]; [reflexivity|discriminate..].
Qed.

(** Every chunk of an encoded byte sequence is the encoding of a slice of
    the bytes. *)
Lemma split_chunks_base64 bs :
  Forall (fun chunk => exists segment,
            chunk = base64_encode segment /\ (bytes_ok bs -> bytes_ok segment))
    (split_chunks (base64_encode bs)).
Proof.
  remember (length bs) as n eqn:Hn. revert bs Hn.
  induction n as [n IH] using lt_wf_ind. intros bs Hn.
  destruct (base64_encode bs) as [|c e] eqn:E.
  - rewrite split_chunks_nil. constructor.
  - rewrite split_chunks_cons, <- E. rewrite chunkSize_eq.
    rewrite firstn_base64_encode, skipn_base64_encode.
    assert (bs <> []) by (intros ->; discriminate).
    constructor.
    + exists (firstn (3 * N.to_nat 200000) bs). split; [reflexivity|].
      unfold bytes_ok. apply Forall_take.
    + assert (Hlt : (length (skipn (3 * N.to_nat 200000) bs) < n)%nat).
      { rewrite length_skipn. destruct bs; [congruence|]. simpl length in *. lia. }
      pose proof (IH _ Hlt _ eq_refl) as IH'.
      eapply List.Forall_impl; [|exact IH'].
      intros chunk (segment & -> & Hok). exists segment. split; [reflexivity|].
      intros Hbs. apply Hok. unfold bytes_ok. now apply Forall_drop.
Qed.

(** ** Decimal numerals *)

Lemma decimal_step n :
  decimal n = if decide (n < 10) then [48 + n] else decimal (n / 10) ++ [48 + n mod 10].
Proof. rewrite decimal_equation_1. destruct (decide (n < 10)); reflexivity. Qed.

Lemma decimal_ascii n : ascii_only (decimal n).
Proof.
  unfold ascii_only. funelim (decimal n).
  - repeat constructor. lia.
  - apply List.Forall_app. split; [assumption|]. repeat constructor. div_lia.
Qed.

Lemma decimal_length d n :
  n < 10 ^ N.of_nat (S d) -> (length (decimal n) <= S d)%nat.
Proof.
  revert n. induction d as [|d IH]; intros n Hn; rewrite decimal_step.
  - destruct (decide (n < 10)) as [_|Hge]; [simpl; lia|]. simpl in Hn. lia.
  - destruct (decide (n < 10)) as [_|Hge]; [simpl; lia|].
    rewrite length_app. cbn [length].
    assert (n / 10 < 10 ^ N.of_nat (S d)).
    { apply N.Div0.div_lt_upper_bound.
      replace (N.of_nat (S (S d))) with (N.succ (N.of_nat (S d))) in Hn by lia.
      now rewrite N.pow_succ_r' in Hn. }
    specialize (IH _ H). lia.
Qed.

Lemma decimal_length_53 n : n < 2 ^ 53 -> (length (decimal n) <= 16)%nat.
Proof.
  intros Hn. apply (decimal_length 15).
  eapply N.lt_trans; [exact Hn|reflexivity].
Qed.

(** ** The chunk files stay below the host's ceiling *)

Lemma b64_char_lt_128 i : b64_char i < 128.
Proof. unfold b64_char. repeat case_if; bool_to_prop; lia. Qed.

Lemma base64_encode_ascii bs : ascii_only (base64_encode bs).
Proof.
  unfold ascii_only, base64_encode. apply List.Forall_app. split.
  - apply List.Forall_map, List.Forall_forall. intros. apply b64_char_lt_128.
  - destruct (padding_cases (length bs)) as [-> | [-> | ->]]; repeat constructor.
Qed.

Lemma js_ascii_app a b : ascii_only a -> ascii_only b -> ascii_only (a ++ b).
Proof. intros. apply List.Forall_app. now split. Qed.

Lemma chunkContent_ascii count chunk index :
  ascii_only chunk -> ascii_only (Build.chunkContent count chunk index).
Proof.
  intros Hc. unfold Build.chunkContent.
  repeat apply js_ascii_app; try apply decimal_ascii; try assumption;
    unfold ascii_only; repeat constructor.
Qed.

Lemma chunkContent_length count chunk index :
  length (Build.chunkContent count chunk index) =
  (49 + length (decimal (N.of_nat (index + 1))) + length (decimal (N.of_nat count))
   + length (decimal (N.of_nat index)) + length chunk)%nat.
Proof. unfold Build.chunkContent. rewrite !length_app. simpl. lia. Qed.

(** ** The round trip through the chunks *)

Lemma round_trip_bytes s :
  wf_jsstr s -> decode_chunks (encode_chunks s) = Some (Buffer_from s).
Proof.
  intros Hs. unfold decode_chunks, encode_chunks.
  rewrite concat_split_chunks. now apply atob_base64_encode, Buffer_from_bytes.
Qed.

Lemma ascii_only_wf s : ascii_only s -> wf_jsstr s.
Proof. apply List.Forall_impl. intros; lia. Qed.

Lemma round_trip_ascii s :
  ascii_only s -> decode_chunks (encode_chunks s) = Some s.
Proof.
  intros Hs. rewrite round_trip_bytes by now apply ascii_only_wf.
  now rewrite Buffer_from_ascii.
Qed.

(** C1, at a text with a character outside ASCII.  The bundle text
    [console.log('<U+2705>')] is encoded from its UTF-8 bytes, and [atob]
    gives back one code unit per byte: the decoded text has the three code
    units E2 9C 85 where the source has U+2705. *)
Theorem round_trip_non_ascii :
  let compiledReact := js "console.log('" ++ [0x2705] ++ js "')" in
  decode_chunks (encode_chunks compiledReact)
    = Some (js "console.log('" ++ [0xE2; 0x9C; 0x85] ++ js "')")
  /\ decode_chunks (encode_chunks compiledReact) <> Some compiledReact.
Proof.
  assert (E : decode_chunks (encode_chunks (js "console.log('" ++ [0x2705] ++ js "')"))
              = Some (js "console.log('" ++ [0xE2; 0x9C; 0x85] ++ js "')"))
    by (vm_compute; reflexivity).
  cbv zeta. split; [exact E|]. rewrite E. vm_compute. discriminate.
Qed.

Lemma Buffer_from_nil_iff s : Buffer_from s = [] <-> s = [].
Proof.
  split; [|now intros ->]. destruct s as [|c rest]; [reflexivity|].
  cbn [Buffer_from]. unfold utf8_of_code_point, utf8_replacement.
  destruct rest as [|d rest']; repeat case_if; discriminate.
Qed.

Lemma Forall_nth_error {A} (P : A -> Prop) l i x :
  Forall P l -> nth_error l i = Some x -> P x.
Proof.
  intros H Hx. apply nth_error_In in Hx. rewrite List.Forall_forall in H. now apply H.
Qed.

Lemma Forall_last {A} (P : A -> Prop) l d :
  Forall P l -> l <> [] -> P (List.last l d).
Proof.
  intros H Hl. rewrite List.Forall_forall in H. apply H.
  destruct (exists_last Hl) as (l' & x & ->).
  rewrite List.last_last. apply in_or_app. right. now left.
Qed.

Lemma length_le_concat {A} (ls : list (list A)) :
  Forall (fun l => (1 <= length l)%nat) ls -> (length ls <= length (concat ls))%nat.
Proof.
  induction 1 as [|l ls Hl _ IH]; cbn [concat length]; [lia|].
  rewrite length_app. lia.
Qed.

(** C3, as amended.  The encoded text is cut every [chunkSize] = 800000
    code units: the number of chunks is [ceil(encoded length / 800000)],
    every chunk has at most 800000 code units and is the slice of the
    encoded text that starts at 800000 times its index, a non-empty bundle
    whose encoded text fits in one segment gives that text as the only
    chunk, and, for an encoded text within the length of a JavaScript
    string, every chunk file is smaller than the host's ceiling. *)
Theorem chunk_count_and_sizes (compiledReact : jsstr) :
  let encodedReact := base64_encode (Buffer_from compiledReact) in
  let chunks := encode_chunks compiledReact in
  length chunks = ceil_div (length encodedReact) chunkSize
  /\ Forall (fun chunk => (length chunk <= chunkSize)%nat) chunks
  /\ (forall index chunk,
        nth_error chunks index = Some chunk ->
        chunk = slice encodedReact (index * chunkSize) (index * chunkSize + chunkSize))
  /\ (compiledReact <> [] -> (length encodedReact <= chunkSize)%nat ->
      chunks = [encodedReact])
  /\ (N.of_nat (length encodedReact) < 2 ^ 53 ->
      forall index chunk,
        nth_error chunks index = Some chunk ->
        (length (Buffer_from (Build.chunkContent (length chunks) chunk index))
         < host_file_limit)%nat).
Proof.
  intros encodedReact chunks. subst chunks. unfold encode_chunks. fold encodedReact.
  split; [apply split_chunks_length|].
  split; [eapply List.Forall_impl; [|apply split_chunks_sizes]; cbn beta; intros; lia|].
  split; [apply split_chunks_nth|].
  split.
  - intros Hne Hlen. apply split_chunks_one; [|assumption].
    subst encodedReact. rewrite base64_encode_nil_iff, Buffer_from_nil_iff. exact Hne.
  - intros Hmax index chunk Hchunk.
    assert (Hascii : ascii_only chunk).
    { rewrite (split_chunks_nth _ _ _ Hchunk). unfold slice, ascii_only.
      apply Forall_take, Forall_drop. apply base64_encode_ascii. }
    rewrite Buffer_from_ascii by now apply chunkContent_ascii.
    rewrite chunkContent_length.
    pose proof (Forall_nth_error _ _ _ _ (split_chunks_sizes encodedReact) Hchunk) as Hsize.
    cbn beta in Hsize.
    assert (Hindex : (index < length (split_chunks encodedReact))%nat)
      by (apply nth_error_Some; congruence).
    assert (Hcount : (length (split_chunks encodedReact) <= length encodedReact)%nat).
    { rewrite <- (concat_split_chunks encodedReact) at 2.
      apply length_le_concat. eapply List.Forall_impl; [|apply split_chunks_sizes].
      cbn beta. intros; lia. }
    assert (Hlt : forall n, (n <= length encodedReact)%nat -> N.of_nat n < 2 ^ 53)
      by (intros n Hn; eapply N.le_lt_trans; [|exact Hmax]; lia).
    pose proof (decimal_length_53 _ (Hlt (index + 1)%nat ltac:(lia))).
    pose proof (decimal_length_53 _ (Hlt (length (split_chunks encodedReact)) ltac:(lia))).
    pose proof (decimal_length_53 _ (Hlt index ltac:(lia))).
    unfold host_file_limit. rewrite chunkSize_eq in Hsize. lia.
Qed.

Lemma chunk_count_and_sizes_witness :
  encode_chunks (js "Man") = [js "TWFu"]
  /\ Forall (fun file => (length (Buffer_from file) < host_file_limit)%nat)
       [Build.chunkContent 1 (js "TWFu") 0].
Proof.
  destruct (chunk_count_and_sizes (js "Man")) as (_ & _ & _ & Hone & Hfile).
  assert (E : encode_chunks (js "Man") = [js "TWFu"]).
  { apply Hone; [discriminate|]. rewrite chunkSize_eq. simpl length. lia. }
  split; [exact E|]. constructor; [|constructor].
  rewrite E in Hfile. apply (Hfile ltac:(reflexivity) 0%nat). reflexivity.
Defined.


(** C3, as stated, fails: the bound is applied to the encoded text, not to
    the text before encoding.  A bundle of 600003 letters [A] is within
    800000 before encoding, so slicing before encoding leaves it in one
    piece; its encoded text has 800004 code units and the generator cuts it
    in two. *)
Lemma bound_is_not_on_the_text_before_encoding :
  let compiledReact := repeat 65 (N.to_nat 600003) in
  (length (Buffer_from compiledReact) <= chunkSize)%nat
  /\ length (chunks_sliced_before_encoding compiledReact) = 1%nat
  /\ length (encode_chunks compiledReact) = 2%nat
  /\ encode_chunks compiledReact <> chunks_sliced_before_encoding compiledReact.
Proof.
  cbv zeta.
  assert (Hascii : ascii_only (repeat 65 (N.to_nat 600003))).
  { unfold ascii_only. apply List.Forall_forall. intros c Hc.
    apply repeat_spec in Hc. subst c. reflexivity. }
  assert (Hbytes : length (Buffer_from (repeat 65 (N.to_nat 600003))) = N.to_nat 600003)
    by (rewrite Buffer_from_ascii by exact Hascii; apply repeat_length).
  assert (Hspec : length (chunks_sliced_before_encoding (repeat 65 (N.to_nat 600003))) = 1%nat).
  { unfold chunks_sliced_before_encoding.
    rewrite length_map, split_chunks_length, Hbytes. unfold ceil_div.
    rewrite chunkSize_eq.
    replace (N.to_nat 600003 + 4 * N.to_nat 200000 - 1)%nat
      with (N.to_nat 600002 + 1 * (4 * N.to_nat 200000))%nat by lia.
    rewrite Nat.div_add by lia. rewrite Nat.div_small by lia. reflexivity. }
  assert (Hcode : length (encode_chunks (repeat 65 (N.to_nat 600003))) = 2%nat).
  { unfold encode_chunks.
    rewrite split_chunks_length, base64_encode_length, Hbytes. unfold ceil_div.
    replace (N.to_nat 600003 + 2)%nat with (2 + N.to_nat 200001 * 3)%nat by lia.
    rewrite Nat.div_add by lia. rewrite (Nat.div_small 2 3) by lia.
    rewrite chunkSize_eq.
    replace (4 * (0 + N.to_nat 200001) + 4 * N.to_nat 200000 - 1)%nat
      with (3 + 2 * (4 * N.to_nat 200000))%nat by lia.
    rewrite Nat.div_add by lia. rewrite Nat.div_small by lia. reflexivity. }
  split; [rewrite Hbytes, chunkSize_eq; lia|].
  split; [exact Hspec|]. split; [exact Hcode|].
  intros E. rewrite E, Hspec in Hcode. discriminate Hcode.
Qed.

(** C9.  For a non-empty bundle every chunk but the last has exactly
    [chunkSize] = 800000 code units and the last has between 1 and 800000;
    800000 is a multiple of four, so every chunk starts at a multiple of
    four of the encoded text and is itself the base64 encoding of a byte
    sequence, which [atob] decodes. *)
Theorem chunks_are_base64 (compiledReact : jsstr) :
  wf_jsstr compiledReact ->
  compiledReact <> [] ->
  let chunks := encode_chunks compiledReact in
  (forall index chunk,
     nth_error chunks index = Some chunk -> (S index < length chunks)%nat ->
     length chunk = chunkSize)
  /\ (1 <= length (List.last chunks []) <= chunkSize)%nat
  /\ (chunkSize mod 4 = 0)%nat
  /\ (forall index chunk,
        nth_error chunks index = Some chunk ->
        ((index * chunkSize) mod 4 = 0)%nat
        /\ exists bytes, chunk = base64_encode bytes /\ atob chunk = Some bytes).
Proof.
  intros Hwf Hne chunks. subst chunks. unfold encode_chunks.
  assert (Hmod : (chunkSize mod 4 = 0)%nat)
    by (rewrite chunkSize_eq, Nat.mul_comm; apply Nat.Div0.mod_mul).
  split; [apply split_chunks_full|].
  split.
  { apply (Forall_last (fun chunk => (1 <= length chunk <= chunkSize)%nat));
      [apply split_chunks_sizes|].
    apply split_chunks_nonempty.
    rewrite base64_encode_nil_iff, Buffer_from_nil_iff. exact Hne. }
  split; [exact Hmod|].
  intros index chunk Hchunk. split.
  - rewrite chunkSize_eq.
    replace (index * (4 * N.to_nat 200000))%nat with (index * N.to_nat 200000 * 4)%nat by lia.
    apply Nat.Div0.mod_mul.
  - destruct (Forall_nth_error _ _ _ _ (split_chunks_base64 (Buffer_from compiledReact)) Hchunk)
      as (bytes & -> & Hok).
    exists bytes. split; [reflexivity|].
    apply atob_base64_encode, Hok, Buffer_from_bytes, Hwf.
Qed.

Lemma chunks_are_base64_witness :
  wf_jsstr (js "Ma") /\ js "Ma" <> []
  /\ (1 <= length (List.last (encode_chunks (js "Ma")) []) <= chunkSize)%nat.
Proof.
  assert (Hwf : wf_jsstr (js "Ma")) by (repeat constructor).
  assert (Hne : js "Ma" <> []) by discriminate.
  split; [exact Hwf|]. split; [exact Hne|].
  exact (proj1 (proj2 (chunks_are_base64 (js "Ma") Hwf Hne))).
Defined.

(** ** The round trip is exact for ASCII only *)

Lemma utf8_of_code_point_length cp :
  (1 <= length (utf8_of_code_point cp))%nat
  /\ (length (utf8_of_code_point cp) = 1%nat -> cp < 128)
  /\ (0x10000 <= cp -> length (utf8_of_code_point cp) = 4%nat).
Proof.
  unfold utf8_of_code_point. repeat case_if; bool_to_prop; cbn [length]; repeat split; lia.
Qed.

Lemma Buffer_from_length_aux n : forall s, (length s <= n)%nat ->
  (length s <= length (Buffer_from s))%nat
  /\ (length (Buffer_from s) = length s -> ascii_only s).
Proof.
  induction n as [|n IH]; intros s Hn.
  - destruct s; [|simpl in Hn; lia]. split; [reflexivity|constructor].
  - destruct s as [|c rest]; [split; [reflexivity|constructor]|].
    cbn [length] in Hn.
    destruct (IH rest ltac:(lia)) as [Hle Heq].
    destruct (utf8_of_code_point_length c) as (H1 & H2 & _).
    cbn [Buffer_from].
    destruct (is_high_surrogate c) eqn:Hh.
    + destruct rest as [|d rest'].
      * cbn [length utf8_replacement]. split; [lia|intros; lia].
      * destruct (is_low_surrogate d) eqn:Hl.
        -- destruct (IH rest' ltac:(cbn [length] in Hn; lia)) as [Hle' _].
           destruct (utf8_of_code_point_length (0x10000 + (c - 0xD800) * 1024 + (d - 0xDC00)))
             as (_ & _ & H4).
           rewrite length_app, H4 by lia. cbn [length]. split; [lia|intros; lia].
        -- rewrite length_app. cbn [length utf8_replacement] in *. split; [lia|intros; lia].
    + destruct (is_low_surrogate c) eqn:Hl.
      * rewrite length_app. cbn [length utf8_replacement] in *. split; [lia|intros; lia].
      * rewrite length_app. cbn [length]. split; [lia|].
        intros E. constructor; [apply H2; lia|apply Heq; lia].
Qed.

Lemma Buffer_from_fixed s : Buffer_from s = s <-> ascii_only s.
Proof.
  split.
  - intros E. apply (Buffer_from_length_aux (length s) s (le_n _)). now rewrite E.
  - apply Buffer_from_ascii.
Qed.

(** X1.  The text that the generated module decodes is the UTF-8 byte
    sequence of the compiled bundle, one code unit per byte, which is never
    shorter than the bundle; it is the bundle itself exactly when the
    bundle has no code unit outside ASCII. *)
Theorem round_trip_is_exact_iff_ascii (compiledReact : jsstr) :
  wf_jsstr compiledReact ->
  decode_chunks (encode_chunks compiledReact) = Some (Buffer_from compiledReact)
  /\ (length compiledReact <= length (Buffer_from compiledReact))%nat
  /\ (decode_chunks (encode_chunks compiledReact) = Some compiledReact
      <-> ascii_only compiledReact).
Proof.
  intros Hwf. rewrite (round_trip_bytes _ Hwf).
  split; [reflexivity|].
  split; [apply (Buffer_from_length_aux (length compiledReact) _ (le_n _))|].
  rewrite <- Buffer_from_fixed. split; [now intros [= E]|now intros ->].
Qed.

Lemma round_trip_is_exact_iff_ascii_witness :
  decode_chunks (encode_chunks (js "window.ReactAppComponent = App;"))
  = Some (js "window.ReactAppComponent = App;").
Proof.
  assert (Hascii : ascii_only (js "window.ReactAppComponent = App;"))
    by (unfold ascii_only; vm_compute; repeat constructor).
  pose proof (ascii_only_wf _ Hascii) as Hwf.
  destruct (round_trip_is_exact_iff_ascii _ Hwf) as (_ & _ & Hiff).
  exact (proj2 Hiff Hascii).
Defined.

(** X2.  The chunk loop loses nothing and adds nothing: the chunks joined
    in index order are the encoded text, and there is no chunk only for the
    empty bundle. *)
Theorem chunks_concatenate_to_the_encoded_text (compiledReact : jsstr) :
  concat (encode_chunks compiledReact) = base64_encode (Buffer_from compiledReact)
  /\ (encode_chunks compiledReact = [] <-> compiledReact = []).
Proof.
  split; [apply concat_split_chunks|]. unfold encode_chunks. split.
  - intros E. destruct (base64_encode (Buffer_from compiledReact)) as [|c e] eqn:Eb.
    + exact (proj1 (Buffer_from_nil_iff _) (proj1 (base64_encode_nil_iff _) Eb)).
    + rewrite split_chunks_cons in E. discriminate E.
  - intros ->. apply split_chunks_nil.
Qed.

(** ** Decimal numerals denote their number *)

Lemma decimal_value_app digits digit :
  decimal_value (digits ++ [digit]) = 10 * decimal_value digits + (digit - 48).
Proof. unfold decimal_value. now rewrite fold_left_app. Qed.

Lemma decimal_value_decimal n : decimal_value (decimal n) = n.
Proof.
  funelim (decimal n).
  - unfold decimal_value. cbn [fold_left]. lia.
  - rewrite decimal_value_app, H. div_lia.
Qed.

Lemma decimal_inj m n : decimal m = decimal n -> m = n.
Proof.
  intros E. rewrite <- (decimal_value_decimal m), <- (decimal_value_decimal n). now rewrite E.
Qed.

(** ** Lists made with the index *)

Lemma nth_error_map_indexed_from {A B} (f : A -> nat -> B) xs :
  forall i j,
    nth_error (map_indexed_from i f xs) j
    = option_map (fun x => f x (i + j)%nat) (nth_error xs j).
Proof.
  induction xs as [|x rest IH]; intros i [|j]; cbn [map_indexed_from nth_error option_map];
    try reflexivity.
  - now rewrite Nat.add_0_r.
  - rewrite IH. now replace (S i + j)%nat with (i + S j)%nat by lia.
Qed.

(** ** The render lifecycle *)

Section Lifecycle.
Import Bridge.

Ltac unfold_eff :=
  unfold bind, ret, throw, emit, get, modify, of_outcome, try_catch in *.

(** Runs a computation of the bridge as far as its constructors allow. *)
Ltac bridge_red :=
  cbv beta iota zeta delta
    [bind ret throw emit get modify of_outcome try_catch final trace outcome
     renderedCallback_try mount COMPILED_REACT_FUNC define_process attachShadow appendChild
     template_literal_value
     set_this set_page this page _hasRendered _reactInstance _reactDOMInstance _reactRoot
     window_process window_ReactAppComponent container negb andb app].

Lemma renderedCallback_rendered g h w :
  _hasRendered (this w) = true ->
  renderedCallback g h w = mkRun w [log_already_rendered] (Returned tt).
Proof.
  intros H. unfold renderedCallback, bind, get, emit. now rewrite H.
Qed.

(** *** The [catch] block *)

Lemma property_of_cases error name :
  (exists value, property_of error name = Returned value
                 /\ forall v, error = thrown_value v -> v <> VNull /\ v <> VUndefined)
  \/ (exists v e, error = thrown_value v /\ (v = VNull \/ v = VUndefined)
                  /\ property_of error name = Thrown (error_object e)
                  /\ err_name e = js "TypeError").
Proof.
  destruct error as [e|v].
  - left. eexists. split; [reflexivity|]. intros v H. discriminate H.
  - destruct v;
      try (left; eexists; split; [reflexivity|];
           intros v' H; injection H as <-; split; intros H'; discriminate H').
    + right. eexists _, _. split; [reflexivity|]. split; [now right|]. split; reflexivity.
    + right. eexists _, _. split; [reflexivity|]. split; [now left|]. split; reflexivity.
Qed.

Lemma renderedCallback_catch_run error w :
  renderedCallback_catch error w =
  match property_of error (js "message"), property_of error (js "stack") with
  | Returned message, Returned stack =>
      mkRun w [error_rendering error; error_message message; error_stack stack] (Returned tt)
  | Returned message, Thrown e =>
      mkRun w [error_rendering error; error_message message] (Thrown e)
  | Thrown e, _ => mkRun w [error_rendering error] (Thrown e)
  end.
Proof.
  unfold renderedCallback_catch. unfold_eff.
  destruct (property_of error (js "message")), (property_of error (js "stack")); reflexivity.
Qed.

(** The [catch] block leaves the instance and the page as they are and
    only reports; it returns unless the caught value is [null] or
    [undefined]. *)
Lemma renderedCallback_catch_cases error w :
  let r := renderedCallback_catch error w in
  final r = w
  /\ (exists reports, trace r = error_rendering error :: reports
        /\ Forall (fun ev => exists v, ev = error_message v \/ ev = error_stack v) reports)
  /\ ((outcome r = Returned tt
       /\ forall v, error = thrown_value v -> v <> VNull /\ v <> VUndefined)
      \/ exists v e, error = thrown_value v /\ (v = VNull \/ v = VUndefined)
                     /\ trace r = [error_rendering error]
                     /\ outcome r = Thrown (error_object e)
                     /\ err_name e = js "TypeError").
Proof.
  cbv zeta. rewrite renderedCallback_catch_run.
  destruct (property_of_cases error (js "message")) as [(m & Hm & Hok)|(v & e & -> & Hv & Hm & He)];
    rewrite Hm.
  - destruct (property_of_cases error (js "stack")) as [(s & Hs & _)|(v & e & -> & Hv & _)].
    + rewrite Hs. cbn [final trace outcome]. split; [reflexivity|]. split.
      * eexists. split; [reflexivity|]. repeat constructor; eauto.
      * left. auto.
    + exfalso. destruct (Hok v eq_refl) as [H1 H2]. destruct Hv; contradiction.
  - cbn [final trace outcome]. split; [reflexivity|]. split.
    + eexists. split; [reflexivity|]. constructor.
    + right. exists v, e. auto.
Qed.

Lemma count_app p t1 t2 : count p (t1 ++ t2) = (count p t1 + count p t2)%nat.
Proof. unfold count. now rewrite List.filter_app, length_app. Qed.

Lemma count_repeat_none p e n : p e = false -> count p (repeat e n) = 0%nat.
Proof.
  intros H. unfold count. induction n as [|n IH]; [reflexivity|].
  cbn [repeat List.filter]. now rewrite H.
Qed.

(** What the [catch] block adds to a trace: reports, and no call. *)
Lemma renderedCallback_catch_trace error w :
  let t := trace (renderedCallback_catch error w) in
  ~ In log_rendered t
  /\ (forall c, ~ In (called c) t)
  /\ (forall p, (forall e, p (error_rendering e) = false) ->
                (forall v, p (error_message v) = false) ->
                (forall v, p (error_stack v) = false) -> count p t = 0%nat)
  /\ existsb reports_failure t = true.
Proof.
  cbv zeta. destruct (renderedCallback_catch_cases error w) as (_ & (reports & -> & Hreports) & _).
  assert (Hin : forall ev, In ev reports -> exists v, ev = error_message v \/ ev = error_stack v).
  { apply List.Forall_forall. exact Hreports. }
  split; [|split; [|split]].
  - intros [H|H]; [discriminate H|]. destruct (Hin _ H) as [v [Hv|Hv]]; discriminate Hv.
  - intros c [H|H]; [discriminate H|]. destruct (Hin _ H) as [v [Hv|Hv]]; discriminate Hv.
  - intros p Hr Hm Hs. unfold count. cbn [List.filter]. rewrite Hr.
    clear Hin. induction Hreports as [|ev reports (v & [-> | ->]) _ IH]; [reflexivity| |];
      cbn [List.filter]; rewrite ?Hm, ?Hs; exact IH.
  - reflexivity.
Qed.

(** *** The [try] block *)

Lemma renderedCallback_try_cases g h w :
  _hasRendered (this w) = false ->
  let r := renderedCallback_try g h w in
  hd_error (trace r) = Some log_started
  /\ (truthy (React g) && truthy (ReactDOM g) = true -> In (called call_atob) (trace r))
  /\ (forall error, ~ In (error_rendering error) (trace r))
  /\ ((outcome r = Returned tt /\ _hasRendered (this (final r)) = true
       /\ In log_rendered (trace r)
       /\ count decodes (trace r) = 1%nat /\ count executes (trace r) = 1%nat
       /\ count mounts (trace r) = 1%nat)
      \/ (_hasRendered (this (final r)) = false /\ ~ In log_rendered (trace r)
          /\ ((outcome r = Returned tt /\ existsb reports_failure (trace r) = true)
              \/ exists error, outcome r = Thrown error))).
Proof.
  intros Hguard. destruct w as [[guard ri rd root] p]. cbn in Hguard. subst guard.
  cbv zeta. bridge_red.
  repeat (case_match; bridge_red);
    (split; [reflexivity|]);
    (split; [intros; try discriminate; cbn [In]; tauto|]);
    (split; [cbn [In]; intuition discriminate|]);
    first [ right; split; [reflexivity|]; split; [cbn [In]; intuition discriminate|];
            first [ left; split; reflexivity | right; eexists; reflexivity ]
          | left; cbn; intuition ].
Qed.

(** With the guard unset the hook is its [try] block, followed by the
    [catch] block when the former throws. *)
Lemma renderedCallback_unrendered g h w :
  _hasRendered (this w) = false ->
  renderedCallback g h w =
  match renderedCallback_try g h w with
  | mkRun w1 t1 (Returned a) => mkRun w1 t1 (Returned a)
  | mkRun w1 t1 (Thrown error) =>
      mkRun w1 (t1 ++ trace (renderedCallback_catch error w1))
        (outcome (renderedCallback_catch error w1))
  end.
Proof.
  intros H. unfold renderedCallback, bind, get, try_catch. rewrite H. cbn [negb app].
  destruct (renderedCallback_try g h w) as [w1 t1 [a|error]]; [reflexivity|].
  pose proof (renderedCallback_catch_cases error w1) as (Hfinal & _).
  destruct (renderedCallback_catch error w1) as [w2 t2 o2]. cbn [final trace outcome] in *.
  now subst w2.
Qed.

Lemma renderedCallback_final g h w :
  _hasRendered (this w) = false ->
  final (renderedCallback g h w) = final (renderedCallback_try g h w).
Proof.
  intros H. rewrite (renderedCallback_unrendered g h w H).
  now destruct (renderedCallback_try g h w) as [w1 t1 [a|error]].
Qed.

Lemma renderedCallback_trace g h w :
  _hasRendered (this w) = false ->
  exists reports,
    trace (renderedCallback g h w) = trace (renderedCallback_try g h w) ++ reports
    /\ ~ In log_rendered reports
    /\ (forall c, ~ In (called c) reports)
    /\ count decodes reports = 0%nat /\ count executes reports = 0%nat
    /\ count mounts reports = 0%nat.
Proof.
  intros H. rewrite (renderedCallback_unrendered g h w H).
  destruct (renderedCallback_try g h w) as [w1 t1 [a|error]]; cbn [trace].
  - exists []. rewrite app_nil_r. repeat split; auto.
  - destruct (renderedCallback_catch_trace error w1) as (H1 & H2 & H3 & _).
    eexists. split; [reflexivity|]. repeat split; auto.
Qed.

Lemma renderedCallback_cases g h w :
  _hasRendered (this w) = false ->
  let r := renderedCallback g h w in
  hd_error (trace r) = Some log_started
  /\ (truthy (React g) && truthy (ReactDOM g) = true -> In (called call_atob) (trace r))
  /\ ((outcome r = Returned tt /\ _hasRendered (this (final r)) = true
       /\ In log_rendered (trace r)
       /\ count decodes (trace r) = 1%nat /\ count executes (trace r) = 1%nat
       /\ count mounts (trace r) = 1%nat)
      \/ (_hasRendered (this (final r)) = false /\ ~ In log_rendered (trace r)
          /\ existsb reports_failure (trace r) = true
          /\ (outcome r = Returned tt
              /\ (forall v, In (error_rendering (thrown_value v)) (trace r) ->
                            v <> VNull /\ v <> VUndefined)
              \/ exists v, rejects_reading v r))).
Proof.
  intros Hguard. cbv zeta.
  pose proof (renderedCallback_try_cases g h w Hguard) as Htry. cbv zeta in Htry.
  rewrite (renderedCallback_unrendered g h w Hguard).
  destruct (renderedCallback_try g h w) as [w1 t1 o1]. cbn [final trace outcome] in Htry.
  destruct Htry as (Hhd & Hatob & Hnone & Hcases).
  destruct Hcases as [(-> & Hset & Hdone & Hcounts) | (Hunset & Hnot & Hout)].
  - cbn [final trace outcome]. split; [exact Hhd|]. split; [exact Hatob|]. left. auto.
  - destruct Hout as [(-> & Hreported) | (error & ->)]; cbn [final trace outcome].
    + split; [exact Hhd|]. split; [exact Hatob|]. right.
      split; [exact Hunset|]. split; [exact Hnot|]. split; [exact Hreported|].
      left. split; [reflexivity|]. intros v Hin. destruct (Hnone _ Hin).
    + destruct (renderedCallback_catch_trace error w1) as (Hnot' & _ & _ & Hreported).
      destruct (renderedCallback_catch_cases error w1) as (_ & (reports & Ht & Hreports) & Hout).
      split; [destruct t1; [discriminate Hhd|exact Hhd]|].
      split; [intros Hlibs; apply in_or_app; left; auto|].
      right. split; [exact Hunset|].
      split; [intros Hin; apply in_app_or in Hin; tauto|].
      split; [rewrite existsb_app, Hreported; apply orb_true_r|].
      destruct Hout as [(Hout & Hok) | (v & e & -> & Hv & Htrace & Hout & He)].
      * left. split; [exact Hout|]. intros v Hin. apply in_app_or in Hin.
        destruct Hin as [Hin|Hin]; [destruct (Hnone _ Hin)|].
        rewrite Ht in Hin. destruct Hin as [Hin|Hin].
        -- injection Hin as ->. now apply Hok.
        -- exfalso. assert (Hin' : forall ev, In ev reports ->
                                     exists v, ev = error_message v \/ ev = error_stack v)
             by (apply List.Forall_forall; exact Hreports).
           destruct (Hin' _ Hin) as [v' [Hv'|Hv']]; discriminate Hv'.
      * right. exists v. split; [exact Hv|]. split.
        -- exists t1. now rewrite Htrace.
        -- exists e. auto.
Qed.

Lemma invocation_run g h w :
  let r := try_catch (renderedCallback g h)
             (fun reason => emit (unhandled_rejection reason)) w in
  final r = final (renderedCallback g h w)
  /\ outcome r = Returned tt
  /\ (forall p, (forall reason, p (unhandled_rejection reason) = false) ->
                count p (trace r) = count p (trace (renderedCallback g h w)))
  /\ (outcome (renderedCallback g h w) = Returned tt ->
      trace r = trace (renderedCallback g h w)).
Proof.
  cbv zeta. unfold try_catch, emit.
  destruct (renderedCallback g h w) as [w1 t1 [[]|reason]]; cbn [final trace outcome].
  - repeat split; reflexivity.
  - split; [reflexivity|]. split; [reflexivity|]. split.
    + intros p Hp. rewrite count_app. unfold count at 2. cbn [List.filter].
      rewrite Hp. cbn [length]. lia.
    + intros H. discriminate H.
Qed.

Lemma rendered_n_rendered g hs w :
  _hasRendered (this w) = true ->
  rendered_n g hs w = mkRun w (repeat log_already_rendered (length hs)) (Returned tt).
Proof.
  intros H. induction hs as [|h hs IH]; [reflexivity|].
  cbn [rendered_n]. unfold bind, try_catch. now rewrite renderedCallback_rendered, IH.
Qed.

(** C2.  When the first invocation of the render hook on an instance
    mounts, [N] invocations decode, execute and mount exactly once, the
    other [N - 1] only log that the component is already rendered, and the
    instance and the page are left as the first invocation left them,
    whatever the engine and React would do on the later occasions. *)
Theorem mount_happens_once (g : Generated) (h : Host) (hs : list Host) (w : World) :
  _hasRendered (this w) = false ->
  _hasRendered (this (final (renderedCallback g h w))) = true ->
  let once := renderedCallback g h w in
  let all := rendered_n g (h :: hs) w in
  final all = final once
  /\ trace all = trace once ++ repeat log_already_rendered (length hs)
  /\ outcome all = Returned tt
  /\ count decodes (trace all) = 1%nat
  /\ count executes (trace all) = 1%nat
  /\ count mounts (trace all) = 1%nat.
Proof.
  intros Hbefore Hafter once all. subst once all.
  destruct (renderedCallback_cases g h w Hbefore) as (_ & _ & Hcases).
  destruct Hcases as [(Hout & _ & _ & Hd & He & Hm) | (Hno & _)]; [|congruence].
  destruct (renderedCallback g h w) as [w1 t1 o1] eqn:E.
  cbn [final trace outcome] in *. subst o1.
  assert (Eall : rendered_n g (h :: hs) w
                 = mkRun w1 (t1 ++ repeat log_already_rendered (length hs)) (Returned tt)).
  { cbn [rendered_n]. unfold bind, try_catch. rewrite E.
    now rewrite rendered_n_rendered by assumption. }
  rewrite Eall. cbn [final trace outcome].
  repeat split; try reflexivity;
    rewrite count_app, count_repeat_none by reflexivity; lia.
Qed.

Import Scenario.

(** C5.  A bundle that executes [throw null] is caught by the [catch]
    block of the render hook, which reports the caught value and then reads
    its [message]: the read throws a [TypeError] out of the [catch] block,
    so the promise of the hook rejects instead of the failure being
    contained, and the message and the stack are never reported.  The guard
    stays unset. *)
Theorem null_thrown_by_the_bundle_escapes_the_hook :
  let r := renderedCallback module_throwing_null host_whose_bundle_throws_null fresh_world in
  atob (concat (chunks module_throwing_null)) = Some (js "throw null;")
  /\ trace r =
       [log_started; log_React_loaded true; log_ReactDOM_loaded true; log_decoding;
        log_process_defined true; called call_atob; called call_Function;
        called call_scriptFunc; error_rendering (thrown_value VNull)]
  /\ outcome r =
       Thrown (error_object
                 (TypeError (js "Cannot read properties of null (reading 'message')")))
  /\ _hasRendered (this (final r)) = false
  /\ trace (rendered_n module_throwing_null [host_whose_bundle_throws_null] fresh_world)
     = trace r ++
       [unhandled_rejection
          (error_object
             (TypeError (js "Cannot read properties of null (reading 'message')")))].
Proof. vm_compute. repeat split; reflexivity. Qed.

(** C10.  With a bundle that leaves [window.process] alone, the object the
    bridge installs ends up on [window] only when the invocation attempts a
    mount (guard unset, both libraries present) and [window.process] is not
    already there, that is falsy; otherwise [window.process] is exactly what
    it was, in particular any object the page had defined. *)
Theorem process_is_installed_only_when_absent (g : Generated) (h : Host) (w : World) :
  (forall body scriptFunc react dom p,
     new_Function h body = Returned scriptFunc ->
     window_process (fst (scriptFunc react dom p)) = window_process p) ->
  let r := renderedCallback g h w in
  window_process (page (final r)) =
    (if negb (_hasRendered (this w)) && truthy (React g) && truthy (ReactDOM g)
        && negb (truthy (window_process (page w)))
     then default_process
     else window_process (page w))
  /\ (forall fields, window_process (page w) = VObj fields ->
                     window_process (page (final r)) = VObj fields).
Proof.
  intros Hscript. cbv zeta.
  assert (Hmain : window_process (page (final (renderedCallback g h w))) =
    (if negb (_hasRendered (this w)) && truthy (React g) && truthy (ReactDOM g)
        && negb (truthy (window_process (page w)))
     then default_process
     else window_process (page w))).
  { destruct (_hasRendered (this w)) eqn:Hguard.
    { now rewrite renderedCallback_rendered. }
    rewrite renderedCallback_final by assumption.
    destruct w as [[guard ri rd root] p]. cbn in Hguard. subst guard. bridge_red.
    repeat (case_match; bridge_red);
      repeat match goal with
        | H : new_Function h ?b = Returned ?f, E : ?f ?x ?y ?q = (?q', _) |- _ =>
            let H' := fresh in
            pose proof (Hscript b f x y q H) as H'; rewrite E in H'; cbn in H';
            clear E
        end;
      cbn in *; try congruence; try reflexivity. }
  split; [exact Hmain|].
  intros fields Hobj. rewrite Hmain, Hobj. cbn [truthy negb]. now rewrite andb_false_r.
Qed.


Lemma mount_happens_once_witness :
  _hasRendered (this fresh_world) = false
  /\ _hasRendered (this (final (renderedCallback generated_module working_host fresh_world))) = true
  /\ count decodes
       (trace (rendered_n generated_module
                 [working_host; host_whose_render_throws; working_host] fresh_world)) = 1%nat.
Proof.
  assert (H1 : _hasRendered (this fresh_world) = false) by reflexivity.
  assert (H2 : _hasRendered (this (final (renderedCallback generated_module working_host
                                            fresh_world))) = true)
    by (vm_compute; reflexivity).
  split; [exact H1|]. split; [exact H2|].
  destruct (mount_happens_once generated_module working_host
              [host_whose_render_throws; working_host] fresh_world H1 H2)
    as (_ & _ & _ & Hdecodes & _).
  exact Hdecodes.
Defined.

Lemma process_is_installed_only_when_absent_witness :
  window_process
    (page (final (renderedCallback generated_module working_host
                    (mkWorld new_instance
                       (mkPage (VObj [(js "env", VObj [])]) VUndefined (Some None))))))
  = VObj [(js "env", VObj [])].
Proof.
  refine (proj2 (process_is_installed_only_when_absent generated_module working_host
                   (mkWorld new_instance
                      (mkPage (VObj [(js "env", VObj [])]) VUndefined (Some None))) _)
            [(js "env", VObj [])] eq_refl).
  intros body scriptFunc react dom p H. injection H as <-. reflexivity.
Defined.

(** *** Teardown, and what a mount leaves behind *)

Lemma disconnectedCallback_run h w :
  disconnectedCallback h w =
  mkRun w
    (match _hasRendered (this w), _reactRoot (this w) with
     | true, Some root =>
         called call_unmount ::
         match unmount h root with
         | Returned _ => [log_unmounted]
         | Thrown error => [error_unmounting error]
         end
     | _, _ => []
     end)
    (Returned tt).
Proof.
  destruct w as [[guard ri rd root] p]. unfold disconnectedCallback. bridge_red.
  destruct guard; [|reflexivity]. destruct root as [root|]; [|reflexivity].
  bridge_red. destruct (unmount h root) as [[]|e]; reflexivity.
Qed.

(** X3.  [disconnectedCallback] never throws and changes neither the
    instance nor the page; it calls [unmount] exactly when the guard is set
    and a root is recorded, and an error it reports is the one [unmount]
    threw. *)
Theorem teardown_unmounts_only_a_rendered_root (h : Host) (w : World) :
  let r := disconnectedCallback h w in
  outcome r = Returned tt
  /\ final r = w
  /\ (In (called call_unmount) (trace r) <->
      _hasRendered (this w) = true /\ is_Some (_reactRoot (this w)))
  /\ (forall error, In (error_unmounting error) (trace r) ->
        exists root, _reactRoot (this w) = Some root /\ unmount h root = Thrown error).
Proof.
  cbv zeta. rewrite disconnectedCallback_run. cbn [outcome final trace].
  split; [reflexivity|]. split; [reflexivity|].
  destruct (_hasRendered (this w)), (_reactRoot (this w)) as [root|]; cbn [In].
  - split; [split; [intros _; eauto|auto]|].
    intros error [H|H]; [discriminate H|]. exists root. split; [reflexivity|].
    destruct (unmount h root); destruct H as [H|[]]; [discriminate H|congruence].
  - split; [split; [intros []|intros [_ [? H]]; discriminate H]|intros ? []].
  - split; [split; [intros []|intros [H _]; discriminate H]|intros ? []].
  - split; [split; [intros []|intros [H _]; discriminate H]|intros ? []].
Qed.

(** X4.  Tearing down does not reset the guard: when a rendered
    component is disconnected and then rendered again, its root has been
    unmounted and the render hook only logs that the component is already
    rendered; nothing is decoded or mounted, and the instance and the page
    are as before. *)
Theorem reconnected_component_is_not_mounted_again (g : Generated) (h h' : Host)
  (w : World) (root : N) :
  _hasRendered (this w) = true ->
  _reactRoot (this w) = Some root ->
  let r := (disconnectedCallback h ;; renderedCallback g h') w in
  outcome r = Returned tt
  /\ final r = w
  /\ trace r = trace (disconnectedCallback h w) ++ [log_already_rendered]
  /\ hd_error (trace r) = Some (called call_unmount)
  /\ count mounts (trace r) = 0%nat
  /\ count decodes (trace r) = 0%nat.
Proof.
  intros Hguard Hroot. cbv zeta. unfold bind.
  rewrite disconnectedCallback_run, Hguard, Hroot.
  rewrite (renderedCallback_rendered g h' w Hguard).
  cbn [outcome final trace app].
  destruct (unmount h root) as [[]|e]; repeat split; reflexivity.
Qed.

Lemma reconnected_component_is_not_mounted_again_witness :
  count mounts
    (trace ((disconnectedCallback working_host ;; renderedCallback generated_module working_host)
              (mkWorld (mkInstance true (VObj []) (VObj []) (Some 1))
                 (mkPage VUndefined (VFun (js "AppWrapper"))
                    (Some (Some [StyleElement (js "body{}"); DivElement]))))))
  = 0%nat.
Proof.
  destruct (reconnected_component_is_not_mounted_again generated_module working_host
              working_host
              (mkWorld (mkInstance true (VObj []) (VObj []) (Some 1))
                 (mkPage VUndefined (VFun (js "AppWrapper"))
                    (Some (Some [StyleElement (js "body{}"); DivElement]))))
              1 eq_refl eq_refl) as (_ & _ & _ & _ & Hmounts & _).
  exact Hmounts.
Defined.

(** X5.  When a library is absent, the render hook records the two
    imports on the instance, reports on the console, and does nothing else:
    the page is untouched, nothing is decoded, no script is run, and the
    guard stays unset. *)
Theorem absent_library_leaves_the_page_alone (g : Generated) (h : Host) (w : World) :
  _hasRendered (this w) = false ->
  truthy (React g) && truthy (ReactDOM g) = false ->
  renderedCallback g h w =
  mkRun
    (mkWorld (mkInstance false (React g) (ReactDOM g) (_reactRoot (this w))) (page w))
    [log_started; log_React_loaded (truthy (React g));
     log_ReactDOM_loaded (truthy (ReactDOM g));
     error_not_available; error_React (React g); error_ReactDOM (ReactDOM g)]
    (Returned tt).
Proof.
  intros Hguard Hlibs. rewrite (renderedCallback_unrendered g h w Hguard).
  destruct w as [[guard ri rd root] p]. cbn in Hguard. subst guard.
  bridge_red. fold (truthy (React g) && truthy (ReactDOM g)). rewrite Hlibs. reflexivity.
Qed.

Lemma absent_library_leaves_the_page_alone_witness :
  page (final (renderedCallback (mkGenerated VUndefined (VObj []) [] []) working_host
                 fresh_world))
  = page fresh_world.
Proof.
  rewrite (absent_library_leaves_the_page_alone (mkGenerated VUndefined (VObj []) [] [])
             working_host fresh_world eq_refl eq_refl).
  reflexivity.
Defined.

(** X6.  When the render hook sets the guard, the shadow root of the
    container holds one style element followed by one [div]; the text of
    the style element is the value of the template literal that holds the
    compiled styles, which is the compiled styles themselves when they have
    no backslash, backtick, carriage return or [${]; the bundle has
    published a truthy [ReactAppComponent], the root recorded on the
    instance is the one [createRoot] returned and the element rendered into
    it is the one [createElement] made; a teardown then starts by
    unmounting. *)
Theorem successful_mount_builds_the_shadow_tree (g : Generated) (h : Host) (w : World) :
  _hasRendered (this w) = false ->
  let r := renderedCallback g h w in
  _hasRendered (this (final r)) = true ->
  (exists textContent,
     template_literal_value h (COMPILED_STYLES g) = Returned textContent
     /\ container (page (final r)) = Some (Some [StyleElement textContent; DivElement])
     /\ (plain_template_text (COMPILED_STYLES g) = true -> textContent = COMPILED_STYLES g))
  /\ _reactInstance (this (final r)) = React g
  /\ _reactDOMInstance (this (final r)) = ReactDOM g
  /\ truthy (window_ReactAppComponent (page (final r))) = true
  /\ exists app root,
       createElement h (React g) (window_ReactAppComponent (page (final r))) = Returned app
       /\ createRoot h (ReactDOM g) = Returned root
       /\ render h root app = Returned tt
       /\ _reactRoot (this (final r)) = Some root
       /\ forall h', hd_error (trace (disconnectedCallback h' (final r)))
                     = Some (called call_unmount).
Proof.
  intros Hguard. cbv zeta. rewrite (renderedCallback_final g h w Hguard).
  destruct w as [[guard ri rd root] p]. cbn in Hguard. subst guard.
  unfold template_literal_value. bridge_red.
  repeat (case_match; bridge_red); intros Hdone; try discriminate Hdone;
    (split; [eexists; split; [reflexivity|]; split; [reflexivity|];
             intros Hplain; first [reflexivity | discriminate Hplain]|]);
    (split; [reflexivity|]); (split; [reflexivity|]);
    (split; [assumption|]);
    match goal with
    | Happ : createElement h _ _ = Returned ?app, Hroot : createRoot h _ = Returned ?root,
      Hrender : render h ?root ?app = Returned ?u |- _ =>
        exists app, root; destruct u;
        (split; [exact Happ|]); (split; [reflexivity|]); (split; [exact Hrender|]);
        (split; [reflexivity|]);
        intros h'; rewrite disconnectedCallback_run; reflexivity
    end.
Qed.

Lemma successful_mount_builds_the_shadow_tree_witness :
  container (page (final (renderedCallback generated_module working_host fresh_world)))
  = Some (Some [StyleElement (js "body{}"); DivElement]).
Proof.
  assert (Hdone : _hasRendered (this (final (renderedCallback generated_module working_host
                                               fresh_world))) = true)
    by (vm_compute; reflexivity).
  destruct (successful_mount_builds_the_shadow_tree generated_module working_host
              fresh_world eq_refl Hdone) as ((textContent & _ & Hshadow & Hplain) & _).
  rewrite Hshadow, (Hplain eq_refl). reflexivity.
Defined.

(** With a backslash in the compiled styles, the style element holds what
    the engine makes of the escape. *)
Example escape_in_the_styles_is_cooked :
  container (page (final (renderedCallback module_with_escaped_styles host_cooking_escapes
                            fresh_world)))
  = Some (Some [StyleElement (js "a::after{content:'" ++ [10] ++ js "'}"); DivElement]).
Proof. vm_compute. reflexivity. Qed.

Lemma attached_shadow_stays g h w :
  _hasRendered (this w) = false ->
  let r := renderedCallback g h w in
  In (called call_attachShadow) (trace r) ->
  exists children, container (page (final r)) = Some (Some children).
Proof.
  intros Hguard. cbv zeta. rewrite (renderedCallback_final g h w Hguard).
  destruct (renderedCallback_trace g h w Hguard) as (reports & -> & _ & Hcalls & _).
  intros Hin. apply in_app_or in Hin. destruct Hin as [Hin|Hin]; [|destruct (Hcalls _ Hin)].
  revert Hin.
  destruct w as [[guard ri rd root] p]. cbn in Hguard. subst guard.
  bridge_red.
  repeat (case_match; bridge_red); cbn [In]; intros Hin;
    try (exfalso; intuition discriminate); subst; eauto.
Qed.

Lemma retry_with_attached_shadow g h w children :
  leaves_the_container_alone h ->
  _hasRendered (this w) = false ->
  container (page w) = Some (Some children) ->
  let r := renderedCallback g h w in
  _hasRendered (this (final r)) = false
  /\ container (page (final r)) = Some (Some children)
  /\ count mounts (trace r) = 0%nat.
Proof.
  intros Hscript Hguard Hshadow. cbv zeta. rewrite (renderedCallback_final g h w Hguard).
  destruct (renderedCallback_trace g h w Hguard) as (reports & -> & _ & _ & _ & _ & Hnone).
  rewrite count_app, Hnone, Nat.add_0_r.
  destruct w as [[guard ri rd root] [wp wc c]]. cbn in Hguard, Hshadow. subst guard c.
  bridge_red.
  repeat (case_match; bridge_red);
    repeat match goal with
      | H : new_Function h ?b = Returned ?f, E : ?f ?x ?y ?q = (?q', _) |- _ =>
          let H' := fresh in
          pose proof (Hscript b f x y q H) as H'; rewrite E in H'; cbn in H';
          clear E
      end;
    subst; cbn in *; try congruence; repeat split; try reflexivity; try congruence.
Qed.

(** X7.  A mount that fails after the shadow root was attached cannot be
    repeated: the container keeps its shadow root, so every later
    invocation of the render hook (with bundles that leave the container
    alone) fails again before rendering, and the guard is never set. *)
Theorem failure_after_attaching_is_permanent (g : Generated) (h : Host) (hs : list Host)
  (w : World) :
  _hasRendered (this w) = false ->
  let first := renderedCallback g h w in
  In (called call_attachShadow) (trace first) ->
  _hasRendered (this (final first)) = false ->
  Forall leaves_the_container_alone hs ->
  let retries := rendered_n g hs (final first) in
  _hasRendered (this (final retries)) = false
  /\ count mounts (trace retries) = 0%nat
  /\ outcome retries = Returned tt.
Proof.
  intros Hguard first Hattached Hfailed Hhosts.
  destruct (attached_shadow_stays g h w Hguard Hattached) as [children Hshadow].
  fold first in Hshadow. clearbody first. clear Hattached Hguard w h.
  revert Hfailed Hshadow. generalize (final first). clear first.
  induction Hhosts as [|h hs Hh _ IH]; intros w Hguard Hshadow; cbv zeta.
  - cbn [rendered_n]. unfold ret. cbn [final trace outcome]. auto.
  - cbn [rendered_n]. unfold bind.
    destruct (retry_with_attached_shadow g h w children Hh Hguard Hshadow)
      as (Hguard' & Hshadow' & Hmounts).
    pose proof (invocation_run g h w) as (Hfinal & Hout & Hcount & _).
    destruct (try_catch (renderedCallback g h)
                (fun reason => emit (unhandled_rejection reason)) w) as [w1 t1 o1].
    cbn [final trace outcome] in *. subst o1 w1.
    specialize (IH _ Hguard' Hshadow'). cbv zeta in IH.
    destruct (rendered_n g hs (final (renderedCallback g h w))) as [w2 t2 o2].
    cbn [final trace outcome] in *.
    destruct IH as (IHguard & IHmounts & IHout).
    split; [exact IHguard|]. split; [|exact IHout].
    rewrite count_app, (Hcount mounts) by reflexivity. lia.
Qed.

Lemma failure_after_attaching_is_permanent_witness :
  _hasRendered
    (this (final (rendered_n generated_module [working_host; working_host]
                    (final (renderedCallback generated_module host_whose_render_throws
                              fresh_world)))))
  = false.
Proof.
  assert (Hattached : In (called call_attachShadow)
                        (trace (renderedCallback generated_module host_whose_render_throws
                                  fresh_world)))
    by (vm_compute; auto 30).
  assert (Hfailed : _hasRendered (this (final (renderedCallback generated_module
                                                 host_whose_render_throws fresh_world)))
                    = false)
    by (vm_compute; reflexivity).
  assert (Hhosts : Forall leaves_the_container_alone [working_host; working_host]).
  { repeat constructor; intros body scriptFunc react dom p H; injection H as <-;
      reflexivity. }
  exact (proj1 (failure_after_attaching_is_permanent generated_module
                  host_whose_render_throws [working_host; working_host] fresh_world
                  eq_refl Hattached Hfailed Hhosts)).
Defined.

End Lifecycle.

(** ** The generator *)

Section Generator.
Import Build.

(** The temporary directory of the application compile is gone when the
    stage resolves and is still there when it rejects. *)
Lemma compileReactComponents_temp_build env d :
  let r := compileReactComponents env d in
  match outcome r with
  | Returned _ => temp_build (final r) = None
  | Thrown _ => is_Some (temp_build (final r))
  end.
Proof.
  destruct d as [s tb tc tp ru rd o]. unfold compileReactComponents. eff_red.
  destruct tb; eff_red; destruct (webpack_react env); eff_red;
    repeat (case_match; eff_red); eauto.
Qed.

Lemma compileReactComponents_rejects env d error :
  webpack_react env = wp_err error \/ webpack_react env = wp_has_errors error ->
  outcome (compileReactComponents env d) = Thrown error.
Proof.
  destruct d as [s tb tc tp ru rd o]. unfold compileReactComponents.
  intros [-> | ->]; destruct tb; reflexivity.
Qed.


(** The temporary directory of the stylesheet compile, likewise. *)
Lemma compileStyles_temp_css_build env d :
  let r := compileStyles env d in
  match outcome r with
  | Returned _ => temp_css_build (final r) = None
  | Thrown _ => is_Some (temp_css_build (final r))
  end.
Proof.
  destruct d as [s tb tc tp ru rd o]. unfold compileStyles. eff_red.
  destruct tc; eff_red; destruct (webpack_css env); eff_red;
    repeat (case_match; eff_red); eauto.

Qed.

(** C7, at the failing inputs.  From a clean checkout: when webpack reports
    that the application does not compile, [compileReactComponents] rejects
    and leaves [temp-build] behind with the entry file in it; when webpack
    writes no [compiled-react.js], reading it fails and [temp-build] is left
    behind as well; and a failing stylesheet compile leaves [temp-css-build]
    behind. *)
Theorem temp_dirs_are_left_behind_on_failure :
  temp_build Scenario.clean_disk = None
  /\ temp_css_build Scenario.clean_disk = None
  /\ (let r := compileReactComponents Scenario.env_with_compile_error Scenario.clean_disk in
      outcome r = Thrown (Error (js "Module not found"))
      /\ temp_build (final r) = Some {[ js "lwc-entry.js" := entryContent ]})
  /\ (let r := compileReactComponents Scenario.env_emitting_nothing Scenario.clean_disk in
      outcome r = Thrown (ENOENT (js "/repo/temp-build/compiled-react.js"))
      /\ temp_build (final r) = Some {[ js "lwc-entry.js" := entryContent ]})
  /\ (let r := compileStyles Scenario.env_with_compile_error Scenario.clean_disk in
      outcome r = Thrown (Error (js "Module not found"))
      /\ temp_css_build (final r)
         = Some {[ js "css-entry.js"
                   := join newline (map css_import (findCSSFiles Scenario.source_tree)) ]}).
Proof.
  split; [reflexivity|]. split; [reflexivity|].
  split; [|split]; cbv zeta; split; vm_compute; reflexivity.
Qed.


(** The traversal: the stylesheets of a directory are those of its entries
    in the order [readdirSync] lists them, a subdirectory contributing all
    of its own at its place. *)
Lemma findCSSFiles_at_traversal :
  forall n dir fileList,
    findCSSFiles_at dir n fileList =
    fileList ++ match n with
                | File _ => []
                | Dir files => flat_map (css_files_of_entry dir) files
                end.
Proof.
  fix IH 1. intros [content|files] dir fileList; cbn [findCSSFiles_at].
  - now rewrite app_nil_r.
  - revert fileList. induction files as [|[file stat] rest IHrest]; intros fileList.
    + now rewrite app_nil_r.
    + cbn [flat_map]. rewrite IHrest. unfold css_files_of_entry at 2. cbn [fst snd].
      pose proof (IH stat (dir ++ [file])) as IHstat.
      destruct stat as [text|sub].
      * destruct (endsWith file (js ".css")); [|now rewrite app_nil_l].
        now rewrite <- app_assoc.
      * rewrite (IHstat fileList), (IHstat []). cbn [app]. now rewrite <- app_assoc.
Qed.






Lemma with_component_dir_lookup name o : is_Some (with_component_dir name o !! name).
Proof.
  unfold with_component_dir. destruct o as [[lwc|]|].
  - destruct (lwc !! name) eqn:E; [now rewrite E|]. rewrite lookup_insert_eq. eauto.
  - rewrite lookup_singleton_eq. eauto.
  - rewrite lookup_singleton_eq. eauto.
Qed.

Lemma createOutputDirectory_run g d :
  createOutputDirectory g d =
  mkRun (set_output (Some (Some (with_component_dir (componentName g) (output d)))) d)
    [] (Returned tt).
Proof.
  destruct d as [s tb tc tp ru rd o]. unfold createOutputDirectory, with_component_dir.
  eff_red. destruct o as [[lwc|]|]; eff_red.
  - destruct (lwc !! componentName g); reflexivity.
  - rewrite lookup_empty. reflexivity.
  - rewrite lookup_empty. reflexivity.
Qed.

Lemma ensure_component_dir_run name d :
  ensure_component_dir name d =
  mkRun (set_output (Some (Some (with_component_dir name (output d)))) d) [] (Returned tt).
Proof.
  destruct d as [s tb tc tp ru rd o]. unfold ensure_component_dir, with_component_dir.
  eff_red. destruct o as [[lwc|]|]; eff_red.
  - destruct (lwc !! name); reflexivity.
  - rewrite lookup_empty. reflexivity.
  - rewrite lookup_empty. reflexivity.
Qed.

Lemma write_component_file_run component file content d lwc files :
  output d = Some (Some lwc) ->
  lwc !! component = Some files ->
  write_component_file component file content d =
  mkRun (set_output (Some (Some (<[component := <[file := content]> files]> lwc))) d)
    [] (Returned tt).
Proof.
  intros Ho Hc. destruct d as [s tb tc tp ru rd o]. cbn [output] in Ho. subst o.
  unfold write_component_file. eff_red. now rewrite Hc.
Qed.

(** The four files of an auxiliary component whose library resource is
    missing. *)
Lemma generateReactLWCComponent_missing env d :
  react_umd d = None ->
  exists files0,
    generateReactLWCComponent env d =
    mkRun
      (set_output
         (Some (Some
            (<[js "react" :=
                 <[js "react.js-meta.xml" := metaContent]>
                   (<[js "react.css" := react_cssContent]>
                      (<[js "react.html" := react_htmlContent]>
                         (<[js "react.js" := react_jsContent react_stub]> files0)))]>
               (with_component_dir (js "react") (output d))))) d)
      [warn_react_not_found] (Returned tt).
Proof.
  intros Hmissing.
  destruct (with_component_dir_lookup (js "react") (output d)) as [files0 Hfiles0].
  exists files0.
  unfold generateReactLWCComponent. eff_red. rewrite ensure_component_dir_run.
  destruct d as [s tb tc tp ru rd o]. cbn [react_umd output] in *. subst ru.
  unfold generateReactJSFile. eff_red.
  erewrite write_component_file_run by (reflexivity || eassumption). eff_red.
  erewrite write_component_file_run by (reflexivity || apply lookup_insert_eq). eff_red.
  erewrite write_component_file_run by (reflexivity || apply lookup_insert_eq). eff_red.
  erewrite write_component_file_run by (reflexivity || apply lookup_insert_eq). eff_red.
  rewrite !insert_insert_eq. reflexivity.
Qed.

Lemma generateReactDOMLWCComponent_missing env d :
  react_dom_umd d = None ->
  exists files0,
    generateReactDOMLWCComponent env d =
    mkRun
      (set_output
         (Some (Some
            (<[js "reactdom" :=
                 <[js "reactdom.js-meta.xml" := metaContent]>
                   (<[js "reactdom.css" := reactdom_cssContent]>
                      (<[js "reactdom.html" := reactdom_htmlContent]>
                         (<[js "reactdom.js" := reactdom_jsContent reactdom_stub]> files0)))]>
               (with_component_dir (js "reactdom") (output d))))) d)
      [warn_reactdom_not_found] (Returned tt).
Proof.
  intros Hmissing.
  destruct (with_component_dir_lookup (js "reactdom") (output d)) as [files0 Hfiles0].
  exists files0.
  unfold generateReactDOMLWCComponent. eff_red. rewrite ensure_component_dir_run.
  destruct d as [s tb tc tp ru rd o]. cbn [react_dom_umd output] in *. subst rd.
  unfold generateReactDOMJSFile. eff_red.
  erewrite write_component_file_run by (reflexivity || eassumption). eff_red.
  erewrite write_component_file_run by (reflexivity || apply lookup_insert_eq). eff_red.
  erewrite write_component_file_run by (reflexivity || apply lookup_insert_eq). eff_red.
  erewrite write_component_file_run by (reflexivity || apply lookup_insert_eq). eff_red.
  rewrite !insert_insert_eq. reflexivity.
Qed.

Lemma react_jsContent_stub :
  react_jsContent react_stub =
  js "// Execute the React library code
// React library not found

// Export React instance
export default window.React;".
Proof. vm_compute. reflexivity. Qed.

Lemma reactdom_jsContent_stub :
  reactdom_jsContent reactdom_stub =
  js "// Execute the ReactDOM library code
// ReactDOM library not found

// Export ReactDOM instance
export default window.ReactDOM;".
Proof. vm_compute. reflexivity. Qed.

(** C8.  When the library resource of an auxiliary component is missing,
    its generation returns a success result, warns that the library was not
    found, and leaves in the component directory a script with the
    placeholder comment [// React library not found] (for the other
    component, [// ReactDOM library not found]) in the place of the library
    source: the header comment, the placeholder, and the export. *)
Theorem missing_library_gives_stub (env : Env) (g : Generator) (d : Disk) :
  (react_umd d = None ->
   let r := generateReactImport env g d in
   outcome r = Returned (success_true (outputDir g) (js "react"))
   /\ In warn_react_not_found (trace r)
   /\ component_file (final r) (js "react") (js "react.js")
      = Some (js "// Execute the React library code
// React library not found

// Export React instance
export default window.React;"))
  /\ (react_dom_umd d = None ->
      let r := generateReactDOMImport env g d in
      outcome r = Returned (success_true (outputDir g) (js "reactdom"))
      /\ In warn_reactdom_not_found (trace r)
      /\ component_file (final r) (js "reactdom") (js "reactdom.js")
         = Some (js "// Execute the ReactDOM library code
// ReactDOM library not found

// Export ReactDOM instance
export default window.ReactDOM;")).
Proof.
  rewrite <- react_jsContent_stub, <- reactdom_jsContent_stub.
  split; intros Hmissing; cbv zeta.
  - unfold generateReactImport. eff_red. rewrite createOutputDirectory_run.
    destruct (generateReactLWCComponent_missing env
                (set_output (Some (Some (with_component_dir (componentName g) (output d)))) d))
      as [files0 Hrun]; [destruct d; exact Hmissing|].
    rewrite Hrun. destruct d as [s tb tc tp ru rd o]. eff_red.
    split; [reflexivity|]. split; [cbn [app In]; auto|].
    unfold component_file. eff_red. rewrite lookup_insert_eq.
    rewrite !lookup_insert_ne by discriminate. apply lookup_insert_eq.
  - unfold generateReactDOMImport. eff_red. rewrite createOutputDirectory_run.
    destruct (generateReactDOMLWCComponent_missing env
                (set_output (Some (Some (with_component_dir (componentName g) (output d)))) d))
      as [files0 Hrun]; [destruct d; exact Hmissing|].
    rewrite Hrun. destruct d as [s tb tc tp ru rd o]. eff_red.
    split; [reflexivity|]. split; [cbn [app In]; auto|].
    unfold component_file. eff_red. rewrite lookup_insert_eq.
    rewrite !lookup_insert_ne by discriminate. apply lookup_insert_eq.
Qed.

Lemma missing_library_gives_stub_witness :
  component_file
    (final (generateReactImport (Scenario.env_compiling_to (js "x") false)
              Scenario.default_generator Scenario.clean_disk))
    (js "react") (js "react.js")
  = Some (js "// Execute the React library code
// React library not found

// Export React instance
export default window.React;")
  /\ component_file
       (final (generateReactDOMImport (Scenario.env_compiling_to (js "x") false)
                 Scenario.default_generator Scenario.clean_disk))
       (js "reactdom") (js "reactdom.js")
     = Some (js "// Execute the ReactDOM library code
// ReactDOM library not found

// Export ReactDOM instance
export default window.ReactDOM;").
Proof.
  destruct (missing_library_gives_stub (Scenario.env_compiling_to (js "x") false)
              Scenario.default_generator Scenario.clean_disk) as [Hreact Hdom].
  split.
  - exact (proj2 (proj2 (Hreact eq_refl))).
  - exact (proj2 (proj2 (Hdom eq_refl))).
Defined.

(** *** The chunk files *)

Lemma chunkFileName_inj g i j : chunkFileName g i = chunkFileName g j -> i = j.
Proof.
  unfold chunkFileName. intros E. apply app_inv_head in E. apply app_inv_head in E.
  apply app_inv_tail in E. apply decimal_inj in E. lia.
Qed.

Lemma chunkFileName_not_main g i : chunkFileName g i <> componentName g ++ js ".js".
Proof. unfold chunkFileName. intros E. apply app_inv_head in E. discriminate E. Qed.

Lemma write_files_notin writes : forall files file,
  ~ In file (map fst writes) -> write_files writes files !! file = files !! file.
Proof.
  unfold write_files.
  induction writes as [|[k v] rest IH]; intros files file Hnot; [reflexivity|].
  cbn [fold_left fst snd map In] in *. rewrite IH by tauto.
  apply lookup_insert_ne. tauto.
Qed.

Lemma write_files_in writes : forall files file content,
  NoDup (map fst writes) -> In (file, content) writes ->
  write_files writes files !! file = Some content.
Proof.
  unfold write_files.
  induction writes as [|[k v] rest IH]; intros files file content Hnd Hin; [destruct Hin|].
  cbn [fold_left fst snd map] in *. inversion Hnd as [|? ? Hk Hrest]; subst.
  destruct Hin as [[= -> ->]|Hin].
  - fold (write_files rest (<[file := content]> files)).
    rewrite write_files_notin by now rewrite <- list_elem_of_In.
    apply lookup_insert_eq.
  - now apply IH.
Qed.

Lemma set_output_same d : set_output (output d) d = d.
Proof. now destruct d. Qed.

Lemma for_each_write_run component writes : forall d lwc files,
  output d = Some (Some lwc) ->
  lwc !! component = Some files ->
  for_each (fun '(file, content) => write_component_file component file content) writes d =
  mkRun (set_output (Some (Some (<[component := write_files writes files]> lwc))) d)
    [] (Returned tt).
Proof.
  induction writes as [|[k v] rest IH]; intros d lwc files Ho Hc.
  - cbn [for_each]. unfold write_files. cbn [fold_left].
    rewrite insert_id by assumption. rewrite <- Ho, set_output_same. reflexivity.
  - cbn [for_each]. unfold bind.
    rewrite (write_component_file_run _ _ _ _ _ _ Ho Hc).
    erewrite IH; [|reflexivity|apply lookup_insert_eq].
    rewrite insert_insert_eq. destruct d; reflexivity.
Qed.

Lemma chunk_files_names g chunks count : forall i,
  map fst (map_indexed_from i
             (fun chunk index => (chunkFileName g index, chunkContent count chunk index))
             chunks)
  = map (chunkFileName g) (seq i (length chunks)).
Proof.
  induction chunks as [|c rest IH]; intros i; cbn; [reflexivity|]. now rewrite IH.
Qed.

Lemma chunk_file_names_NoDup g n : forall i, NoDup (map (chunkFileName g) (seq i n)).
Proof.
  induction n as [|n IH]; intros i; cbn [seq map]; constructor; [|apply IH].
  rewrite list_elem_of_In. intros Hin. apply in_map_iff in Hin as (j & E & Hj).
  apply chunkFileName_inj in E. apply in_seq in Hj. lia.
Qed.

(** *** What the compile stages leave alone *)

Lemma compileReactComponents_frame env d :
  let r := compileReactComponents env d in
  src (final r) = src d
  /\ temp_css_build (final r) = temp_css_build d
  /\ templates (final r) = templates d
  /\ react_umd (final r) = react_umd d
  /\ react_dom_umd (final r) = react_dom_umd d
  /\ output (final r) = output d.
Proof.
  destruct d as [s tb tc tp ru rd o]. unfold compileReactComponents. eff_red.
  destruct tb; eff_red; destruct (webpack_react env); eff_red;
    repeat (case_match; eff_red); repeat split; reflexivity.
Qed.

Lemma compileStyles_frame env d :
  let r := compileStyles env d in
  (src (final r) = src d \/ src (final r) = meanwhile env (src d))
  /\ temp_build (final r) = temp_build d
  /\ templates (final r) = templates d
  /\ react_umd (final r) = react_umd d
  /\ react_dom_umd (final r) = react_dom_umd d
  /\ output (final r) = output d.
Proof.
  destruct d as [s tb tc tp ru rd o]. unfold compileStyles. eff_red.
  destruct tc; eff_red; destruct (webpack_css env); eff_red;
    repeat (case_match; eff_red); repeat split; auto.
Qed.

Lemma generateJavaScriptFile_run env g d d1 d2 t1 t2 template compiledReact compiledStyles
  lwc files :
  templates d !! js "lwcWrapper.js" = Some template ->
  compileReactComponents env d = mkRun d1 t1 (Returned compiledReact) ->
  compileStyles env d1 = mkRun d2 t2 (Returned compiledStyles) ->
  output d = Some (Some lwc) ->
  lwc !! componentName g = Some files ->
  let chunks := encode_chunks compiledReact in
  generateJavaScriptFile env g d =
  mkRun
    (set_output
       (Some (Some
          (<[componentName g :=
               <[componentName g ++ js ".js" :=
                   main_script env g template compiledStyles chunks]>
                 (write_files (chunk_files g chunks) files)]> lwc))) d2)
    (t1 ++ t2 ++ [log_splitting (length chunks); log_generated_files (length chunks)])
    (Returned tt).
Proof.
  intros Htemplate Hreact Hstyles Houtput Hdir chunks.
  assert (Houtput2 : output d2 = Some (Some lwc)).
  { pose proof (compileReactComponents_frame env d) as H1.
    pose proof (compileStyles_frame env d1) as H2.
    rewrite Hreact in H1. rewrite Hstyles in H2. cbn [final] in H1, H2.
    destruct H1 as (_ & _ & _ & _ & _ & H1). destruct H2 as (_ & _ & _ & _ & _ & H2).
    congruence. }
  unfold generateJavaScriptFile, getTemplate.
  destruct d as [s tb tc tp ru rd o]. cbn [templates] in Htemplate.
  eff_red. rewrite Htemplate. eff_red. rewrite Hreact. eff_red. rewrite Hstyles. eff_red.
  fold (encode_chunks compiledReact). fold chunks.
  fold (chunk_files g chunks).
  rewrite (for_each_write_run _ _ _ _ _ Houtput2 Hdir). eff_red.
  erewrite write_component_file_run; [|reflexivity|apply lookup_insert_eq].
  eff_red. rewrite insert_insert_eq. destruct d2. reflexivity.
Qed.

(** *** [generate], case by case *)

Lemma getTemplate_run env templateName d :
  getTemplate env templateName d =
  match templates d !! templateName with
  | Some text => mkRun d [] (Returned text)
  | None =>
      mkRun d []
        (Thrown (Error (js "Template file not found: " ++ __dirname env
                          ++ js "/templates/" ++ templateName)))
  end.
Proof.
  destruct d as [s tb tc tp ru rd o]. unfold getTemplate. eff_red.
  now destruct (tp !! templateName).
Qed.

Lemma generate_from_template_run env g templateName extension d lwc files :
  output d = Some (Some lwc) ->
  lwc !! componentName g = Some files ->
  generate_from_template env g templateName extension d =
  match templates d !! templateName with
  | Some template =>
      mkRun
        (set_output
           (Some (Some
              (<[componentName g :=
                   <[componentName g ++ extension :=
                       replace_all env (js "{{COMPONENT_NAME}}") (componentName g) template]>
                     files]> lwc))) d)
        [] (Returned tt)
  | None =>
      mkRun d []
        (Thrown (Error (js "Template file not found: " ++ __dirname env
                          ++ js "/templates/" ++ templateName)))
  end.
Proof.
  intros Ho Hc. unfold generate_from_template, bind. rewrite getTemplate_run.
  destruct (templates d !! templateName) as [template|]; [|reflexivity].
  rewrite (write_component_file_run _ _ _ _ _ _ Ho Hc). reflexivity.
Qed.

(** What [generateJavaScriptFile] does in a component directory that
    exists, case by case. *)
Lemma generateJavaScriptFile_cases env g d lwc files :
  output d = Some (Some lwc) ->
  lwc !! componentName g = Some files ->
  let r1 := compileReactComponents env d in
  let r2 := compileStyles env (final r1) in
  generateJavaScriptFile env g d =
  match templates d !! js "lwcWrapper.js" with
  | None =>
      mkRun d []
        (Thrown (Error (js "Template file not found: " ++ __dirname env
                          ++ js "/templates/" ++ js "lwcWrapper.js")))
  | Some template =>
      match outcome r1 with
      | Thrown error => mkRun (final r1) (trace r1) (Thrown error)
      | Returned compiledReact =>
          match outcome r2 with
          | Thrown error => mkRun (final r2) (trace r1 ++ trace r2) (Thrown error)
          | Returned compiledStyles =>
              let chunks := encode_chunks compiledReact in
              mkRun
                (set_output
                   (Some (Some
                      (<[componentName g :=
                           <[componentName g ++ js ".js" :=
                               main_script env g template compiledStyles chunks]>
                             (write_files (chunk_files g chunks) files)]> lwc)))
                   (final r2))
                (trace r1 ++ trace r2
                   ++ [log_splitting (length chunks); log_generated_files (length chunks)])
                (Returned tt)
          end
      end
  end.
Proof.
  intros Ho Hc r1 r2.
  destruct (templates d !! js "lwcWrapper.js") as [template|] eqn:Htemplate.
  - destruct r1 as [d1 t1 [compiledReact|error]] eqn:E1; cbn [outcome final trace].
    + subst r2. cbn [final].
      destruct (compileStyles env d1) as [d2 t2 [compiledStyles|error]] eqn:E2;
        cbn [outcome final trace].
      * exact (generateJavaScriptFile_run env g d d1 d2 t1 t2 template compiledReact
                 compiledStyles lwc files Htemplate E1 E2 Ho Hc).
      * unfold generateJavaScriptFile, bind. rewrite getTemplate_run, Htemplate.
        subst r1. rewrite E1, E2. reflexivity.
    + unfold generateJavaScriptFile, bind. rewrite getTemplate_run, Htemplate.
      subst r1. rewrite E1. now rewrite app_nil_r || reflexivity.
  - unfold generateJavaScriptFile, bind. now rewrite getTemplate_run, Htemplate.
Qed.

(** [generate] is its [try] block run to its end, followed by the logs and
    the success result, or by the [catch] block. *)
Lemma generate_run env g d :
  generate env g d =
  match (generateJavaScriptFile env g ;; generateHTMLFile env g ;;
         generateMetaFile env g ;; generateCSSFile env g)
          (set_output (Some (Some (with_component_dir (componentName g) (output d)))) d) with
  | mkRun d' t' (Returned _) =>
      mkRun d'
        (t' ++ [log_wrapper_generated (componentName g); log_output_directory (outputDir g);
                log_component_name (componentName g); log_react_component])
        (Returned (success_true (outputDir g) (componentName g)))
  | mkRun d' t' (Thrown error) =>
      mkRun d' (t' ++ [error_generating_wrapper (err_message error)])
        (Returned (success_false (err_message error)))
  end.
Proof.
  unfold generate, try_catch, bind, emit, ret. rewrite createOutputDirectory_run.
  set (d0 := set_output _ d).
  destruct (generateJavaScriptFile env g d0) as [dj tj [[]|e]];
    [|cbn [app]; reflexivity].
  destruct (generateHTMLFile env g dj) as [dh th [[]|e]];
    [|cbn [app]; reflexivity].
  destruct (generateMetaFile env g dh) as [dm tm [[]|e]];
    [|cbn [app]; reflexivity].
  destruct (generateCSSFile env g dm) as [dc tc [[]|e]];
    cbn [app]; rewrite <- ?app_assoc; reflexivity.
Qed.

Lemma bind_run {St Ev Ex A B} (m : Eff St Ev Ex A) (k : A -> Eff St Ev Ex B) s :
  bind m k s =
  match m s with
  | mkRun s1 t1 (Returned a) =>
      match k a s1 with
      | mkRun s2 t2 o => mkRun s2 (t1 ++ t2) o
      end
  | mkRun s1 t1 (Thrown e) => mkRun s1 t1 (Thrown e)
  end.
Proof. reflexivity. Qed.

Lemma stages_keep_templates env d :
  templates (final (compileReactComponents env d)) = templates d
  /\ templates (final (compileStyles env (final (compileReactComponents env d)))) = templates d.
Proof.
  pose proof (compileReactComponents_frame env d) as (_ & _ & H1 & _).
  pose proof (compileStyles_frame env (final (compileReactComponents env d)))
    as (_ & _ & H2 & _).
  split; congruence.
Qed.

(** What [generate] does, case by case: the first stage that fails decides
    the result, and what was written before it stays. *)
Lemma generate_cases env g d :
  let name := componentName g in
  let lwc0 := with_component_dir name (output d) in
  let files0 := default ∅ (lwc0 !! name) in
  let d0 := set_output (Some (Some lwc0)) d in
  let r1 := compileReactComponents env d0 in
  let r2 := compileStyles env (final r1) in
  let failed d' t' error :=
    mkRun d' (t' ++ [error_generating_wrapper (err_message error)])
      (Returned (success_false (err_message error))) in
  let written files := set_output (Some (Some (<[name := files]> lwc0))) (final r2) in
  let from_template template :=
    replace_all env (js "{{COMPONENT_NAME}}") name template in
  generate env g d =
  match templates d !! js "lwcWrapper.js" with
  | None => failed d0 [] (template_missing env (js "lwcWrapper.js"))
  | Some template =>
      match outcome r1 with
      | Thrown error => failed (final r1) (trace r1) error
      | Returned compiledReact =>
          match outcome r2 with
          | Thrown error => failed (final r2) (trace r1 ++ trace r2) error
          | Returned compiledStyles =>
              let chunks := encode_chunks compiledReact in
              let t :=
                trace r1 ++ trace r2
                  ++ [log_splitting (length chunks); log_generated_files (length chunks)] in
              let files1 :=
                <[name ++ js ".js" := main_script env g template compiledStyles chunks]>
                  (write_files (chunk_files g chunks) files0) in
              match templates d !! js "lwcWrapper.html" with
              | None => failed (written files1) t (template_missing env (js "lwcWrapper.html"))
              | Some html =>
                  let files2 := <[name ++ js ".html" := from_template html]> files1 in
                  match templates d !! js "lwcWrapper-meta.xml" with
                  | None =>
                      failed (written files2) t
                        (template_missing env (js "lwcWrapper-meta.xml"))
                  | Some meta =>
                      let files3 :=
                        <[name ++ js ".js-meta.xml" := from_template meta]> files2 in
                      match templates d !! js "lwcWrapper.css" with
                      | None =>
                          failed (written files3) t
                            (template_missing env (js "lwcWrapper.css"))
                      | Some css =>
                          mkRun
                            (written (<[name ++ js ".css" := from_template css]> files3))
                            (t ++ [log_wrapper_generated name;
                                   log_output_directory (outputDir g);
                                   log_component_name name; log_react_component])
                            (Returned (success_true (outputDir g) name))
                      end
                  end
              end
          end
      end
  end.
Proof.
  cbv zeta.
  destruct (with_component_dir_lookup (componentName g) (output d)) as [files0 H0].
  set (lwc0 := with_component_dir (componentName g) (output d)) in *.
  rewrite H0. cbn [default from_option id].
  set (d0 := set_output (Some (Some lwc0)) d).
  assert (Ho : output d0 = Some (Some lwc0)) by (destruct d; reflexivity).
  assert (Ht : templates d0 = templates d) by (destruct d; reflexivity).
  destruct (stages_keep_templates env d0) as [Ht1 Ht2]. rewrite Ht in Ht1, Ht2.
  rewrite generate_run. fold lwc0. fold d0.
  rewrite bind_run, (generateJavaScriptFile_cases env g d0 lwc0 files0 Ho H0), Ht.
  set (r1 := compileReactComponents env d0) in *.
  set (r2 := compileStyles env (final r1)) in *.
  destruct (templates d !! js "lwcWrapper.js") as [template|]; [|reflexivity].
  destruct (outcome r1) as [compiledReact|e1]; [|reflexivity].
  destruct (outcome r2) as [compiledStyles|e2]; [|reflexivity].
  cbv beta iota zeta.
  rewrite bind_run. unfold generateHTMLFile.
  erewrite generate_from_template_run; [|reflexivity|apply lookup_insert_eq].
  cbn [templates set_output]. rewrite Ht2.
  destruct (templates d !! js "lwcWrapper.html") as [html|];
    [|now rewrite app_nil_r].
  cbv beta iota zeta. rewrite insert_insert_eq.
  rewrite bind_run. unfold generateMetaFile.
  erewrite generate_from_template_run; [|reflexivity|apply lookup_insert_eq].
  cbn [templates set_output]. rewrite Ht2.
  destruct (templates d !! js "lwcWrapper-meta.xml") as [meta|];
    [|now rewrite !app_nil_r].
  cbv beta iota zeta. rewrite insert_insert_eq.
  unfold generateCSSFile.
  erewrite generate_from_template_run; [|reflexivity|apply lookup_insert_eq].
  cbn [templates set_output]. rewrite Ht2.
  destruct (templates d !! js "lwcWrapper.css") as [css|];
    [|now rewrite !app_nil_r].
  rewrite insert_insert_eq, !app_nil_r.
  destruct (final r2). reflexivity.
Qed.


Ltac generate_fails Hgen :=
  rewrite Hgen; cbn [outcome trace];
  split; [eauto|];
  split;
    [split;
       [discriminate
       |intros (Hall & [? ?] & [? ?]); try congruence;
        repeat match goal with
          | E : templates _ !! ?t = None |- _ =>
              let H := fresh in
              assert (H : is_Some (@None jsstr));
              [rewrite <- E; apply Hall; cbn [In]; tauto|destruct H; discriminate]
          end]
    |intros ? [= <-]; apply in_or_app; right; left; reflexivity].

(** [generate] never rejects, and when it reports success. *)
Lemma generate_outcome (env : Env) (g : Generator) (d : Disk) :
  let d0 := final (createOutputDirectory g d) in
  let r1 := compileReactComponents env d0 in
  let r2 := compileStyles env (final r1) in
  let r := generate env g d in
  (exists result, outcome r = Returned result)
  /\ (outcome r = Returned (success_true (outputDir g) (componentName g)) <->
      (forall templateName,
         In templateName [js "lwcWrapper.js"; js "lwcWrapper.html";
                          js "lwcWrapper-meta.xml"; js "lwcWrapper.css"] ->
         is_Some (templates d !! templateName))
      /\ (exists compiledReact, outcome r1 = Returned compiledReact)
      /\ (exists compiledStyles, outcome r2 = Returned compiledStyles))
  /\ (forall error,
        outcome r = Returned (success_false error) ->
        In (error_generating_wrapper error) (trace r)).
Proof.
  cbv zeta. rewrite createOutputDirectory_run. cbn [final].
  pose proof (generate_cases env g d) as Hgen. cbv zeta in Hgen.
  set (r1 := compileReactComponents env _) in *.
  set (r2 := compileStyles env (final r1)) in *.
  destruct (templates d !! js "lwcWrapper.js") as [template|] eqn:Ejs;
    [|generate_fails Hgen].
  destruct (outcome r1) as [compiledReact|e1] eqn:E1; [|generate_fails Hgen].
  destruct (outcome r2) as [compiledStyles|e2] eqn:E2; [|generate_fails Hgen].
  destruct (templates d !! js "lwcWrapper.html") as [html|] eqn:Ehtml;
    [|generate_fails Hgen].
  destruct (templates d !! js "lwcWrapper-meta.xml") as [meta|] eqn:Emeta;
    [|generate_fails Hgen].
  destruct (templates d !! js "lwcWrapper.css") as [css|] eqn:Ecss;
    [|generate_fails Hgen].
  rewrite Hgen. cbn [outcome trace].
  split; [eauto|]. split; [|discriminate].
  split; [intros _|reflexivity].
  split; [|eauto].
  intros templateName [<-|[<-|[<-|[<-|[]]]]]; eauto.
Qed.

(** X8.  [generate] never rejects.  It reports success exactly when the
    four templates exist and both compile stages resolve (the stylesheet
    compile being run on what the application compile left); otherwise the
    result carries the message of the error, which is also written to the
    console. *)
Theorem generate_succeeds_iff (env : Env) (g : Generator) (d : Disk) :
  let d0 := final (createOutputDirectory g d) in
  let r1 := compileReactComponents env d0 in
  let r2 := compileStyles env (final r1) in
  let r := generate env g d in
  (exists result, outcome r = Returned result)
  /\ (outcome r = Returned (success_true (outputDir g) (componentName g)) <->
      (forall templateName,
         In templateName [js "lwcWrapper.js"; js "lwcWrapper.html";
                          js "lwcWrapper-meta.xml"; js "lwcWrapper.css"] ->
         is_Some (templates d !! templateName))
      /\ (exists compiledReact, outcome r1 = Returned compiledReact)
      /\ (exists compiledStyles, outcome r2 = Returned compiledStyles))
  /\ (forall error,
        outcome r = Returned (success_false error) ->
        In (error_generating_wrapper error) (trace r)).
Proof. exact (generate_outcome env g d). Qed.

Lemma generate_succeeds_iff_witness :
  outcome (generate (Scenario.env_compiling_to (js "x") false) Scenario.default_generator
             Scenario.clean_disk)
  = Returned (success_true (js "./dist") (js "appInterop")).
Proof.
  destruct (generate_succeeds_iff (Scenario.env_compiling_to (js "x") false)
              Scenario.default_generator Scenario.clean_disk) as (_ & Hiff & _).
  apply (proj2 Hiff). split; [|split].
  - intros templateName [<-|[<-|[<-|[<-|[]]]]]; vm_compute; eauto.
  - exists (js "x"). vm_compute. reflexivity.
  - exists (js "a{}" ++ newline ++ js "b{}" ++ newline ++ js "i{}" ++ newline).
    vm_compute. reflexivity.
Defined.

Lemma compiledReactFunc_nil :
  compiledReactFunc [] =
  js "
      // Concatenate all base64 chunks
      const encodedCode = ;
      
      // Decode base64 encoded React bundle
      const decodedCode = atob(encodedCode);
      
      // Execute the decoded code
      const scriptFunc = new Function('React', 'ReactDOM', decodedCode);
      scriptFunc(this._reactInstance, this._reactDOMInstance);
    ".
Proof. vm_compute. reflexivity. Qed.

(** C4.  A compiled bundle of length zero is not rejected.  Whenever the
    four templates exist, the application compile resolves with the empty
    text and the stylesheet compile resolves, [generate] reports success:
    the chunk set is empty, no chunk file is written, and the main script
    that is written has no import and reads [const encodedCode = ;], which
    is not a statement of the language. *)
Theorem empty_bundle_is_reported_as_success (env : Env) (g : Generator) (d : Disk)
  (template html meta css compiledStyles : jsstr) :
  templates d !! js "lwcWrapper.js" = Some template ->
  templates d !! js "lwcWrapper.html" = Some html ->
  templates d !! js "lwcWrapper-meta.xml" = Some meta ->
  templates d !! js "lwcWrapper.css" = Some css ->
  let r1 := compileReactComponents env (final (createOutputDirectory g d)) in
  outcome r1 = Returned [] ->
  outcome (compileStyles env (final r1)) = Returned compiledStyles ->
  let r := generate env g d in
  encode_chunks [] = []
  /\ outcome r = Returned (success_true (outputDir g) (componentName g))
  /\ In (log_splitting 0) (trace r)
  /\ (forall index,
        component_file (final r) (componentName g) (chunkFileName g index)
        = component_file d (componentName g) (chunkFileName g index))
  /\ component_file (final r) (componentName g) (componentName g ++ js ".js")
     = Some (newline ++
             replace_all env (js "{{COMPILED_STYLES}}") compiledStyles
               (replace_all env (js "{{COMPILED_REACT_FUNC}}")
                  (js "
      // Concatenate all base64 chunks
      const encodedCode = ;
      
      // Decode base64 encoded React bundle
      const decodedCode = atob(encodedCode);
      
      // Execute the decoded code
      const scriptFunc = new Function('React', 'ReactDOM', decodedCode);
      scriptFunc(this._reactInstance, this._reactDOMInstance);
    ")
                  (replace_all env (js "{{REACT_COMPONENT_NAME}}") (reactComponentName g)
                     (replace_all env (js "{{COMPONENT_NAME}}") (componentName g)
                        template)))).
Proof.
  intros Hjs Hhtml Hmeta Hcss r1 Hreact Hstyles r. subst r r1.
  rewrite createOutputDirectory_run in Hreact, Hstyles. cbn [final] in Hreact, Hstyles.
  assert (Hnone : encode_chunks [] = []) by apply split_chunks_nil.
  split; [exact Hnone|].
  rewrite <- compiledReactFunc_nil.
  rewrite generate_cases. cbv zeta.
  rewrite Hjs, Hreact, Hstyles, Hhtml, Hmeta, Hcss, Hnone.
  cbn [outcome trace final length].
  split; [reflexivity|].
  split; [rewrite !in_app_iff; cbn [In]; tauto|].
  unfold component_file. cbn [output set_output]. rewrite lookup_insert_eq.
  split.
  - intros index.
    rewrite !lookup_insert_ne
      by (unfold chunkFileName; intros E; apply app_inv_head in E; discriminate E).
    unfold chunk_files, map_indexed. cbn [map_indexed_from write_files fold_left].
    unfold with_component_dir. destruct (output d) as [[lwc|]|].
    + destruct (lwc !! componentName g) eqn:E; rewrite ?lookup_insert_eq, ?E; cbn [default from_option id]; [reflexivity|].
      apply lookup_empty.
    + rewrite lookup_singleton_eq. cbn [default from_option id]. apply lookup_empty.
    + rewrite lookup_singleton_eq. cbn [default from_option id]. apply lookup_empty.
  - rewrite !lookup_insert_ne by (intros E; apply app_inv_head in E; discriminate E).
    rewrite lookup_insert_eq. reflexivity.
Qed.

Lemma empty_bundle_is_reported_as_success_witness :
  outcome (generate (Scenario.env_compiling_to [] false) Scenario.default_generator
             Scenario.clean_disk)
  = Returned (success_true (js "./dist") (js "appInterop"))
  /\ component_file
       (final (generate (Scenario.env_compiling_to [] false) Scenario.default_generator
                 Scenario.clean_disk))
       (js "appInterop") (js "appInteropChunk0.js") = None
  /\ component_file
       (final (generate (Scenario.env_compiling_to [] false) Scenario.default_generator
                 Scenario.clean_disk))
       (js "appInterop") (js "appInterop.js")
     = Some (newline ++ js "export default class appInterop { renderedCallback() { "
               ++ js "
      // Concatenate all base64 chunks
      const encodedCode = ;
      
      // Decode base64 encoded React bundle
      const decodedCode = atob(encodedCode);
      
      // Execute the decoded code
      const scriptFunc = new Function('React', 'ReactDOM', decodedCode);
      scriptFunc(this._reactInstance, this._reactDOMInstance);
    " ++ js " } }").
Proof.
  destruct (empty_bundle_is_reported_as_success
              (Scenario.env_compiling_to [] false) Scenario.default_generator
              Scenario.clean_disk Scenario.wrapper_template
              (js "<template></template>") (js "<xml/>") (js "")
              (js "a{}" ++ newline ++ js "b{}" ++ newline ++ js "i{}" ++ newline))
    as (_ & Hsuccess & _ & Hchunks & Hmain);
    try (vm_compute; reflexivity).
  split; [exact Hsuccess|]. split.
  - exact (Hchunks 0%nat).
  - refine (eq_trans Hmain _). vm_compute. reflexivity.
Defined.

(** X9.  The wrapper template is read before anything is compiled: when
    [lwcWrapper.js] is missing, [generate] reports the failure with the path
    of the template, webpack is not run (no temporary directory is touched)
    and nothing but the creation of the output directories has happened. *)
Theorem missing_wrapper_template_stops_generation (env : Env) (g : Generator) (d : Disk) :
  templates d !! js "lwcWrapper.js" = None ->
  let message :=
    js "Template file not found: " ++ __dirname env ++ js "/templates/lwcWrapper.js" in
  let r := generate env g d in
  outcome r = Returned (success_false message)
  /\ trace r = [error_generating_wrapper message]
  /\ final r = final (createOutputDirectory g d)
  /\ temp_build (final r) = temp_build d
  /\ temp_css_build (final r) = temp_css_build d.
Proof.
  intros Hmissing. cbv zeta. rewrite generate_cases, createOutputDirectory_run. cbv zeta.
  rewrite Hmissing. cbn [outcome trace final app]. destruct d. repeat split; reflexivity.
Qed.

Lemma missing_wrapper_template_stops_generation_witness :
  outcome (generate (Scenario.env_compiling_to (js "x") false) Scenario.default_generator
             Scenario.disk_without_templates)
  = Returned (success_false
                (js "Template file not found: /repo/scripts/templates/lwcWrapper.js")).
Proof.
  exact (proj1 (missing_wrapper_template_stops_generation
                  (Scenario.env_compiling_to (js "x") false) Scenario.default_generator
                  Scenario.disk_without_templates eq_refl)).
Defined.

Lemma component_file_with_component_dir name d d' component file :
  output d' = Some (Some (with_component_dir name (output d))) ->
  component_file d' component file = component_file d component file.
Proof.
  intros Ho. unfold component_file. rewrite Ho. unfold with_component_dir.
  destruct (output d) as [[lwc|]|].
  - destruct (lwc !! name) eqn:E; [reflexivity|].
    destruct (decide (component = name)) as [->|Hne].
    + now rewrite lookup_insert_eq, E, lookup_empty.
    + now rewrite lookup_insert_ne by congruence.
  - destruct (decide (component = name)) as [->|Hne].
    + now rewrite lookup_singleton_eq, lookup_empty.
    + now rewrite lookup_singleton_ne by congruence.
  - destruct (decide (component = name)) as [->|Hne].
    + now rewrite lookup_singleton_eq, lookup_empty.
    + now rewrite lookup_singleton_ne by congruence.
Qed.

Lemma compileReactComponents_rejects_run env d error :
  webpack_react env = wp_err error \/ webpack_react env = wp_has_errors error ->
  compileReactComponents env d =
  mkRun
    (set_temp_build
       (Some (<[js "lwc-entry.js" := entryContent]> (default ∅ (temp_build d)))) d)
    [error_webpack_failed error] (Thrown error).
Proof.
  destruct d as [s tb tc tp ru rd o]. unfold compileReactComponents.
  intros [-> | ->]; destruct tb; reflexivity.
Qed.

(** X10.  When webpack fails on the application, [generate] reports the
    message of webpack's error; no file of the output has been written or
    changed, the stylesheet compile has not been started, and the entry
    module is left in [temp-build]. *)
Theorem failed_compile_writes_no_component_file (env : Env) (g : Generator) (d : Disk)
  (error : JsError) :
  is_Some (templates d !! js "lwcWrapper.js") ->
  webpack_react env = wp_err error \/ webpack_react env = wp_has_errors error ->
  let r := generate env g d in
  outcome r = Returned (success_false (err_message error))
  /\ trace r = [error_webpack_failed error; error_generating_wrapper (err_message error)]
  /\ output (final r) = output (final (createOutputDirectory g d))
  /\ (forall component file,
        component_file (final r) component file = component_file d component file)
  /\ temp_css_build (final r) = temp_css_build d
  /\ lookup_in (temp_build (final r)) (js "lwc-entry.js") = Some entryContent.
Proof.
  intros [template Htemplate] Hwebpack. cbv zeta.
  rewrite generate_cases, createOutputDirectory_run. cbv zeta.
  rewrite Htemplate, (compileReactComponents_rejects_run _ _ _ Hwebpack).
  cbn [outcome trace final app].
  destruct d as [s tb tc tp ru rd o].
  cbn [output set_output set_temp_build temp_css_build temp_build lookup_in].
  repeat split; try reflexivity.
  - intros component file.
    apply (component_file_with_component_dir (componentName g)
             (mkDisk s tb tc tp ru rd o)
             (set_temp_build _ (set_output _ (mkDisk s tb tc tp ru rd o)))).
    reflexivity.
  - apply lookup_insert_eq.
Qed.

Lemma failed_compile_writes_no_component_file_witness :
  outcome (generate Scenario.env_with_compile_error Scenario.default_generator
             Scenario.clean_disk)
  = Returned (success_false (js "Module not found")).
Proof.
  assert (Htemplate : is_Some (templates Scenario.clean_disk !! js "lwcWrapper.js"))
    by (exists Scenario.wrapper_template; vm_compute; reflexivity).
  exact (proj1 (failed_compile_writes_no_component_file Scenario.env_with_compile_error
                  Scenario.default_generator Scenario.clean_disk
                  (Error (js "Module not found")) Htemplate (or_intror eq_refl))).
Defined.

(** *** What [generateJavaScriptFile] writes and what it keeps *)

Lemma chunk_files_lookup g chunks files index chunk :
  nth_error chunks index = Some chunk ->
  write_files (chunk_files g chunks) files !! chunkFileName g index
  = Some (chunkContent (length chunks) chunk index).
Proof.
  intros Hnth. apply write_files_in.
  - unfold chunk_files, map_indexed. rewrite chunk_files_names. apply chunk_file_names_NoDup.
  - apply (nth_error_In _ index). unfold chunk_files, map_indexed.
    rewrite nth_error_map_indexed_from, Hnth. reflexivity.
Qed.

Lemma chunk_files_lookup_other g chunks files file :
  (forall index, (index < length chunks)%nat -> file <> chunkFileName g index) ->
  write_files (chunk_files g chunks) files !! file = files !! file.
Proof.
  intros Hother. apply write_files_notin.
  unfold chunk_files, map_indexed. rewrite chunk_files_names.
  intros Hin. apply in_map_iff in Hin as (index & E & Hindex). apply in_seq in Hindex.
  apply (Hother index); [lia|now symmetry].
Qed.



(** X12.  Chunk files do not overwrite each other nor the main script:
    two indices give the same file name only when they are equal, no chunk
    file has the name of the main script, and the decimal numeral of an
    index denotes that index. *)
Theorem chunk_file_names_are_distinct (g : Generator) (index index' : nat) :
  (chunkFileName g index = chunkFileName g index' <-> index = index')
  /\ chunkFileName g index <> componentName g ++ js ".js"
  /\ decimal_value (decimal (N.of_nat index)) = N.of_nat index.
Proof.
  split; [split; [apply chunkFileName_inj|now intros ->]|].
  split; [apply chunkFileName_not_main|apply decimal_value_decimal].
Qed.

(** X13.  [generateJavaScriptFile] removes no file: the other component
    directories are left as they were, and in its own directory every file
    other than the main script and the chunk files of this run keeps its
    content.  In particular a chunk file written by an earlier run for a
    larger bundle (an index at or beyond the present number of chunks)
    stays in the component directory. *)
Theorem generation_deletes_nothing (env : Env) (g : Generator) (d d1 d2 : Disk)
  (t1 t2 : list Event) (template compiledReact compiledStyles : jsstr)
  (lwc : gmap jsstr (gmap jsstr jsstr)) (files : gmap jsstr jsstr) :
  templates d !! js "lwcWrapper.js" = Some template ->
  compileReactComponents env d = mkRun d1 t1 (Returned compiledReact) ->
  compileStyles env d1 = mkRun d2 t2 (Returned compiledStyles) ->
  output d = Some (Some lwc) ->
  lwc !! componentName g = Some files ->
  let chunks := encode_chunks compiledReact in
  let r := generateJavaScriptFile env g d in
  (forall component file,
     component <> componentName g ->
     component_file (final r) component file = component_file d component file)
  /\ (forall file,
        file <> componentName g ++ js ".js" ->
        (forall index, (index < length chunks)%nat -> file <> chunkFileName g index) ->
        component_file (final r) (componentName g) file = files !! file)
  /\ (forall index,
        (length chunks <= index)%nat ->
        component_file (final r) (componentName g) (chunkFileName g index)
        = files !! chunkFileName g index).
Proof.
  intros Htemplate Hreact Hstyles Houtput Hdir chunks r. subst r.
  rewrite (generateJavaScriptFile_run env g d d1 d2 t1 t2 template compiledReact
             compiledStyles lwc files Htemplate Hreact Hstyles Houtput Hdir).
  fold chunks. cbn [final]. unfold component_file. cbn [output set_output].
  rewrite Houtput, lookup_insert_eq.
  assert (Hfile : forall file,
            file <> componentName g ++ js ".js" ->
            (forall index, (index < length chunks)%nat -> file <> chunkFileName g index) ->
            <[componentName g ++ js ".js" := main_script env g template compiledStyles chunks]>
              (write_files (chunk_files g chunks) files) !! file = files !! file).
  { intros file Hmain Hother. rewrite lookup_insert_ne by congruence.
    now apply chunk_files_lookup_other. }
  split; [|split].
  - intros component file Hne. now rewrite lookup_insert_ne by congruence.
  - exact Hfile.
  - intros index Hindex. apply Hfile; [apply chunkFileName_not_main|].
    intros j Hj E. apply chunkFileName_inj in E. lia.
Qed.

Lemma generation_deletes_nothing_witness :
  component_file
    (final (generateJavaScriptFile (Scenario.env_compiling_to (js "x") false)
              Scenario.default_generator Scenario.disk_with_stale_chunk))
    (js "appInterop") (js "appInteropChunk5.js")
  = Some (js "stale").
Proof.
  set (env := Scenario.env_compiling_to (js "x") false).
  set (d := Scenario.disk_with_stale_chunk).
  set (r1 := compileReactComponents env d).
  set (r2 := compileStyles env (final r1)).
  assert (E : encode_chunks (js "x") = [js "eA=="]).
  { apply split_chunks_one; [discriminate|]. rewrite chunkSize_eq. simpl length. lia. }
  assert (Htemplate : templates d !! js "lwcWrapper.js" = Some Scenario.wrapper_template)
    by (vm_compute; reflexivity).
  assert (Hreact : compileReactComponents env d = mkRun (final r1) (trace r1) (Returned (js "x")))
    by (vm_compute; reflexivity).
  assert (Hstyles : compileStyles env (final r1)
                    = mkRun (final r2) (trace r2)
                        (Returned (js "a{}" ++ newline ++ js "b{}" ++ newline
                                     ++ js "i{}" ++ newline)))
    by (vm_compute; reflexivity).
  assert (Houtput : output d
                    = Some (Some {[ js "appInterop"
                                    := {[ js "appInteropChunk5.js" := js "stale" ]} ]}))
    by reflexivity.
  assert (Hdir : ({[ js "appInterop" := {[ js "appInteropChunk5.js" := js "stale" ]} ]}
                    : gmap jsstr (gmap jsstr jsstr))
                   !! componentName Scenario.default_generator
                 = Some {[ js "appInteropChunk5.js" := js "stale" ]})
    by (vm_compute; reflexivity).
  destruct (generation_deletes_nothing env Scenario.default_generator d (final r1) (final r2)
              (trace r1) (trace r2) Scenario.wrapper_template (js "x")
              (js "a{}" ++ newline ++ js "b{}" ++ newline ++ js "i{}" ++ newline)
              _ _ Htemplate Hreact Hstyles Houtput Hdir)
    as (_ & _ & Hstale).
  rewrite E in Hstale. specialize (Hstale 5%nat ltac:(simpl; lia)).
  refine (eq_trans Hstale _). vm_compute. reflexivity.
Defined.

(** *** A failure after the main script is written *)

(** X14.  A failure after [generateJavaScriptFile] is not rolled back:
    when the HTML template is missing, [generate] reports the failure while
    the main script and the chunk files of this run are in the component
    directory. *)
Theorem later_failure_leaves_the_script_behind (env : Env) (g : Generator) (d : Disk)
  (template compiledReact compiledStyles : jsstr) :
  templates d !! js "lwcWrapper.js" = Some template ->
  templates d !! js "lwcWrapper.html" = None ->
  let d0 := final (createOutputDirectory g d) in
  let r1 := compileReactComponents env d0 in
  let r2 := compileStyles env (final r1) in
  outcome r1 = Returned compiledReact ->
  outcome r2 = Returned compiledStyles ->
  let chunks := encode_chunks compiledReact in
  let r := generate env g d in
  outcome r =
    Returned (success_false (js "Template file not found: " ++ __dirname env
                               ++ js "/templates/lwcWrapper.html"))
  /\ component_file (final r) (componentName g) (componentName g ++ js ".js")
     = Some (main_script env g template compiledStyles chunks)
  /\ (forall index chunk,
        nth_error chunks index = Some chunk ->
        component_file (final r) (componentName g) (chunkFileName g index)
        = Some (chunkContent (length chunks) chunk index)).
Proof.
  intros Hjs Hhtml. cbv zeta. rewrite createOutputDirectory_run. cbn [final].
  intros H1 H2. rewrite generate_cases. cbv zeta. rewrite Hjs, H1, H2, Hhtml.
  cbn [outcome final]. unfold component_file. cbn [output set_output].
  rewrite lookup_insert_eq.
  split; [reflexivity|]. split; [apply lookup_insert_eq|].
  intros index chunk Hnth.
  rewrite lookup_insert_ne by (apply not_eq_sym, chunkFileName_not_main).
  now apply chunk_files_lookup.
Qed.

Lemma later_failure_leaves_the_script_behind_witness :
  component_file
    (final (generate (Scenario.env_compiling_to (js "x") false) Scenario.default_generator
              Scenario.disk_with_script_template_only))
    (js "appInterop") (js "appInteropChunk0.js")
  = Some (chunkContent 1 (js "eA==") 0).
Proof.
  assert (E : encode_chunks (js "x") = [js "eA=="]).
  { apply split_chunks_one; [discriminate|]. rewrite chunkSize_eq. simpl length. lia. }
  assert (Hjs : templates Scenario.disk_with_script_template_only !! js "lwcWrapper.js"
                = Some Scenario.wrapper_template) by (vm_compute; reflexivity).
  assert (Hhtml : templates Scenario.disk_with_script_template_only !! js "lwcWrapper.html"
                  = None) by (vm_compute; reflexivity).
  destruct (later_failure_leaves_the_script_behind
              (Scenario.env_compiling_to (js "x") false) Scenario.default_generator
              Scenario.disk_with_script_template_only Scenario.wrapper_template (js "x")
              (js "a{}" ++ newline ++ js "b{}" ++ newline ++ js "i{}" ++ newline)
              Hjs Hhtml ltac:(vm_compute; reflexivity) ltac:(vm_compute; reflexivity))
    as (_ & _ & Hchunks).
  rewrite E in Hchunks. exact (Hchunks 0%nat (js "eA==") eq_refl).
Defined.

(** *** [createOutputDirectory] *)

(** X15.  After [createOutputDirectory] the component directory exists;
    every file found in the output before is still there with its content
    and no file has appeared; and a second call changes nothing. *)
Theorem output_directory_is_created_once (g : Generator) (d : Disk) :
  let r := createOutputDirectory g d in
  (exists lwc files,
     output (final r) = Some (Some lwc) /\ lwc !! componentName g = Some files)
  /\ (forall component file,
        component_file (final r) component file = component_file d component file)
  /\ createOutputDirectory g (final r) = mkRun (final r) [] (Returned tt).
Proof.
  cbv zeta. rewrite createOutputDirectory_run. cbn [final].
  destruct (with_component_dir_lookup (componentName g) (output d)) as [files Hfiles].
  split; [|split].
  - exists (with_component_dir (componentName g) (output d)), files.
    split; [destruct d; reflexivity|exact Hfiles].
  - intros component file.
    apply (component_file_with_component_dir (componentName g)). destruct d; reflexivity.
  - rewrite createOutputDirectory_run. f_equal.
    destruct d as [s tb tc tp ru rd o]. cbn [output set_output] in *. unfold set_output.
    cbn [src temp_build temp_css_build templates react_umd react_dom_umd].
    do 3 f_equal. unfold with_component_dir at 1. now rewrite Hfiles.
Qed.

(** *** [generateMultiple] *)

Lemma generate_returns env g d :
  exists result, outcome (generate env g d) = Returned result.
Proof.
  rewrite generate_run.
  destruct ((generateJavaScriptFile env g ;; generateHTMLFile env g ;;
             generateMetaFile env g ;; generateCSSFile env g) _) as [d' t' [[]|e]];
    cbn [outcome]; eauto.
Qed.

(** X16.  [generateMultiple] never rejects and returns one result per
    component, in the order given, a failed generation included; each
    result carries the [lwcName] and the [reactName] of its component. *)
Theorem generateMultiple_reports_every_component (this : Generator)
  (components : list (Env * Component)) (d : Disk) :
  exists results,
    outcome (generateMultiple this components d) = Returned results
    /\ map result_componentName results = map (fun c => lwcName (snd c)) components
    /\ map result_reactComponentName results = map (fun c => reactName (snd c)) components.
Proof.
  revert d. induction components as [|[env component] rest IH]; intros d.
  - exists []. repeat split.
  - cbn [generateMultiple]. rewrite bind_run.
    destruct (generate_returns env
                (new_generator (Some (lwcName component)) (Some (outputDir this))) d)
      as [result Hresult].
    destruct (generate env _ d) as [d1 t1 o1]. cbn [outcome] in Hresult. subst o1.
    rewrite bind_run.
    destruct (IH d1) as (results & Hresults & Hnames & Hreact).
    destruct (generateMultiple this rest d1) as [d2 t2 o2]. cbn [outcome] in Hresults.
    subst o2. unfold ret. cbn [outcome].
    exists (spread_result result (lwcName component) (reactName component) :: results).
    split; [reflexivity|]. cbn [map snd]. rewrite Hnames, Hreact.
    destruct result; split; reflexivity.
Qed.

(** *** The compile stages *)

(** X17.  The compile stages write nowhere but in their own temporary
    directory: the application compile leaves the source tree, the other
    temporary directory, the templates and the output as they were, and so
    does the stylesheet compile, the source tree changing during it only by
    what other processes do in the meantime. *)
Theorem compile_stages_touch_only_their_temp_dir (env : Env) (d : Disk) :
  (let r := compileReactComponents env d in
   src (final r) = src d
   /\ temp_css_build (final r) = temp_css_build d
   /\ templates (final r) = templates d
   /\ output (final r) = output d)
  /\ (let r := compileStyles env d in
      (src (final r) = src d \/ src (final r) = meanwhile env (src d))
      /\ temp_build (final r) = temp_build d
      /\ templates (final r) = templates d
      /\ output (final r) = output d).
Proof.
  split; cbv zeta.
  - pose proof (compileReactComponents_frame env d). cbv zeta in *. tauto.
  - pose proof (compileStyles_frame env d). cbv zeta in *. tauto.
Qed.

(** X18.  When webpack writes [extracted-styles.css], [compileStyles]
    resolves with its content as it is, removes the temporary directory
    with everything in it, and does not read any source stylesheet: no
    fallback is logged and the source tree is not looked at again. *)
Theorem extracted_stylesheet_is_used_as_is (env : Env) (d : Disk)
  (emitted : gmap jsstr jsstr) (text : jsstr) :
  webpack_css env = wp_done emitted ->
  emitted !! js "extracted-styles.css" = Some text ->
  compileStyles env d =
  mkRun (set_temp_css_build None d)
    [log_found_css (length (findCSSFiles (src d))); log_css_compiled]
    (Returned text).
Proof.
  intros Hwp Hemitted. destruct d as [s tb tc tp ru rd o].
  unfold compileStyles. eff_red. rewrite Hwp.
  destruct tc as [files|]; eff_red;
    rewrite (lookup_union_Some_l _ _ _ _ Hemitted); reflexivity.
Qed.

Lemma extracted_stylesheet_is_used_as_is_witness :
  outcome (compileStyles (Scenario.env_extracting_styles (js "x") (js "a{}"))
             Scenario.clean_disk)
  = Returned (js "a{}").
Proof.
  rewrite (extracted_stylesheet_is_used_as_is
             (Scenario.env_extracting_styles (js "x") (js "a{}")) Scenario.clean_disk
             {[ js "extracted-styles.css" := js "a{}" ]} (js "a{}") eq_refl
             ltac:(vm_compute; reflexivity)).
  reflexivity.
Defined.

(** *** The stylesheets that [findCSSFiles] finds *)

Lemma css_path_cons entry files path : css_path files path -> css_path (entry :: files) path.
Proof.
  intros H. destruct H as [files file content Hin Hcss|files file sub path Hin Hpath].
  - eapply css_path_file; [right; exact Hin|exact Hcss].
  - eapply css_path_dir; [right; exact Hin|exact Hpath].
Qed.

Lemma findCSSFiles_at_sound :
  forall n dir path,
    In path (findCSSFiles_at dir n []) ->
    match n with
    | File _ => False
    | Dir files => exists below, path = dir ++ below /\ css_path files below
    end.
Proof.
  fix IH 1. intros [content|files] dir path; rewrite findCSSFiles_at_traversal; cbn [app].
  - intros [].
  - induction files as [|[file stat] rest IHrest]; cbn [flat_map]; [intros []|].
    intros Hin. apply in_app_or in Hin as [Hin|Hin].
    + unfold css_files_of_entry in Hin. cbn [fst snd] in Hin.
      pose proof (IH stat (dir ++ [file]) path) as IHstat.
      destruct stat as [text|sub].
      * destruct (endsWith file (js ".css")) eqn:Hcss; [|destruct Hin].
        destruct Hin as [<-|[]]. exists [file]. split; [reflexivity|].
        eapply css_path_file; [left; reflexivity|exact Hcss].
      * destruct (IHstat Hin) as (below & -> & Hbelow).
        exists (file :: below). split; [now rewrite <- app_assoc|].
        eapply css_path_dir; [left; reflexivity|exact Hbelow].
    + destruct (IHrest Hin) as (below & -> & Hbelow).
      exists below. split; [reflexivity|now apply css_path_cons].
Qed.

Lemma findCSSFiles_at_complete files below :
  css_path files below ->
  forall dir, In (dir ++ below) (findCSSFiles_at dir (Dir files) []).
Proof.
  induction 1 as [files file content Hin Hcss|files file sub path Hin _ IH]; intros dir;
    rewrite findCSSFiles_at_traversal; cbn [app]; apply in_flat_map.
  - exists (file, File content). split; [exact Hin|].
    unfold css_files_of_entry. cbn [fst snd]. rewrite Hcss. now left.
  - exists (file, Dir sub). split; [exact Hin|].
    unfold css_files_of_entry. cbn [fst snd].
    specialize (IH (dir ++ [file])). now rewrite <- app_assoc in IH.
Qed.

(** X19.  [findCSSFiles] lists exactly the files below the directory, at
    any depth, whose name ends in [.css]; a directory with such a name is
    descended into and not listed. *)
Theorem findCSSFiles_finds_exactly_the_stylesheets (src : list (jsstr * Node))
  (path : list jsstr) :
  In path (findCSSFiles src) <-> css_path src path.
Proof.
  unfold findCSSFiles. split.
  - intros Hin. apply (findCSSFiles_at_sound (Dir src)) in Hin as (below & -> & Hbelow).
    exact Hbelow.
  - intros Hpath. exact (findCSSFiles_at_complete _ _ Hpath []).
Qed.

(** The auxiliary component [react], whatever is found at the library
    resource. *)
(** *** The auxiliary components, whatever the library resource is *)

Lemma generateReactLWCComponent_cases env d :
  let lwc0 := with_component_dir (js "react") (output d) in
  let files0 := default ∅ (lwc0 !! js "react") in
  let written files :=
    set_output
      (Some (Some
         (<[js "react" :=
              <[js "react.js-meta.xml" := metaContent]>
                (<[js "react.css" := react_cssContent]>
                   (<[js "react.html" := react_htmlContent]> files))]> lwc0))) d in
  generateReactLWCComponent env d =
  match react_umd d with
  | None =>
      mkRun (written (<[js "react.js" := react_jsContent react_stub]> files0))
        [warn_react_not_found] (Returned tt)
  | Some (File reactLibrary) =>
      mkRun (written (<[js "react.js" := react_jsContent reactLibrary]> files0))
        [log_embedded_react] (Returned tt)
  | Some (Dir _) =>
      mkRun (written files0) [error_generating_react_js (err_message EISDIR)] (Returned tt)
  end.
Proof.
  cbv zeta.
  destruct (with_component_dir_lookup (js "react") (output d)) as [files0 Hfiles0].
  rewrite Hfiles0. cbn [default from_option id].
  unfold generateReactLWCComponent. eff_red. rewrite ensure_component_dir_run.
  destruct d as [s tb tc tp ru rd o]. cbn [react_umd output] in *.
  unfold generateReactJSFile. eff_red.
  destruct ru as [[reactLibrary|entries]|]; cbn [read_node]; eff_red.
  - erewrite write_component_file_run by (reflexivity || eassumption). eff_red.
    erewrite write_component_file_run by (reflexivity || apply lookup_insert_eq). eff_red.
    erewrite write_component_file_run by (reflexivity || apply lookup_insert_eq). eff_red.
    erewrite write_component_file_run by (reflexivity || apply lookup_insert_eq). eff_red.
    rewrite !insert_insert_eq. reflexivity.
  - erewrite write_component_file_run by (reflexivity || eassumption). eff_red.
    erewrite write_component_file_run by (reflexivity || apply lookup_insert_eq). eff_red.
    erewrite write_component_file_run by (reflexivity || apply lookup_insert_eq). eff_red.
    rewrite !insert_insert_eq. reflexivity.
  - erewrite write_component_file_run by (reflexivity || eassumption). eff_red.
    erewrite write_component_file_run by (reflexivity || apply lookup_insert_eq). eff_red.
    erewrite write_component_file_run by (reflexivity || apply lookup_insert_eq). eff_red.
    erewrite write_component_file_run by (reflexivity || apply lookup_insert_eq). eff_red.
    rewrite !insert_insert_eq. reflexivity.
Qed.

Lemma generateReactDOMLWCComponent_cases env d :
  let lwc0 := with_component_dir (js "reactdom") (output d) in
  let files0 := default ∅ (lwc0 !! js "reactdom") in
  let written files :=
    set_output
      (Some (Some
         (<[js "reactdom" :=
              <[js "reactdom.js-meta.xml" := metaContent]>
                (<[js "reactdom.css" := reactdom_cssContent]>
                   (<[js "reactdom.html" := reactdom_htmlContent]> files))]> lwc0))) d in
  generateReactDOMLWCComponent env d =
  match react_dom_umd d with
  | None =>
      mkRun (written (<[js "reactdom.js" := reactdom_jsContent reactdom_stub]> files0))
        [warn_reactdom_not_found] (Returned tt)
  | Some (File reactDOMLibrary) =>
      mkRun (written (<[js "reactdom.js" := reactdom_jsContent reactDOMLibrary]> files0))
        [log_embedded_reactdom] (Returned tt)
  | Some (Dir _) =>
      mkRun (written files0) [error_generating_reactdom_js (err_message EISDIR)]
        (Returned tt)
  end.
Proof.
  cbv zeta.
  destruct (with_component_dir_lookup (js "reactdom") (output d)) as [files0 Hfiles0].
  rewrite Hfiles0. cbn [default from_option id].
  unfold generateReactDOMLWCComponent. eff_red. rewrite ensure_component_dir_run.
  destruct d as [s tb tc tp ru rd o]. cbn [react_dom_umd output] in *.
  unfold generateReactDOMJSFile. eff_red.
  destruct rd as [[reactDOMLibrary|entries]|]; cbn [read_node]; eff_red.
  - erewrite write_component_file_run by (reflexivity || eassumption). eff_red.
    erewrite write_component_file_run by (reflexivity || apply lookup_insert_eq). eff_red.
    erewrite write_component_file_run by (reflexivity || apply lookup_insert_eq). eff_red.
    erewrite write_component_file_run by (reflexivity || apply lookup_insert_eq). eff_red.
    rewrite !insert_insert_eq. reflexivity.
  - erewrite write_component_file_run by (reflexivity || eassumption). eff_red.
    erewrite write_component_file_run by (reflexivity || apply lookup_insert_eq). eff_red.
    erewrite write_component_file_run by (reflexivity || apply lookup_insert_eq). eff_red.
    rewrite !insert_insert_eq. reflexivity.
  - erewrite write_component_file_run by (reflexivity || eassumption). eff_red.
    erewrite write_component_file_run by (reflexivity || apply lookup_insert_eq). eff_red.
    erewrite write_component_file_run by (reflexivity || apply lookup_insert_eq). eff_red.
    erewrite write_component_file_run by (reflexivity || apply lookup_insert_eq). eff_red.
    rewrite !insert_insert_eq. reflexivity.
Qed.

Lemma generateReactImport_run env g d :
  generateReactImport env g d =
  match generateReactLWCComponent env (final (createOutputDirectory g d)) with
  | mkRun d' t' (Returned _) =>
      mkRun d'
        (t' ++ [log_react_lwc_generated; log_output_directory (outputDir g);
                log_component_name (js "react")])
        (Returned (success_true (outputDir g) (js "react")))
  | mkRun d' t' (Thrown error) =>
      mkRun d' (t' ++ [error_generating_react_lwc (err_message error)])
        (Returned (success_false (err_message error)))
  end.
Proof.
  unfold generateReactImport, try_catch, bind, emit, ret.
  rewrite createOutputDirectory_run. cbn [final].
  destruct (generateReactLWCComponent env _) as [d' t' [[]|e]]; reflexivity.
Qed.

Lemma generateReactDOMImport_run env g d :
  generateReactDOMImport env g d =
  match generateReactDOMLWCComponent env (final (createOutputDirectory g d)) with
  | mkRun d' t' (Returned _) =>
      mkRun d'
        (t' ++ [log_reactdom_lwc_generated; log_output_directory (outputDir g);
                log_component_name (js "reactdom")])
        (Returned (success_true (outputDir g) (js "reactdom")))
  | mkRun d' t' (Thrown error) =>
      mkRun d' (t' ++ [error_generating_reactdom_lwc (err_message error)])
        (Returned (success_false (err_message error)))
  end.
Proof.
  unfold generateReactDOMImport, try_catch, bind, emit, ret.
  rewrite createOutputDirectory_run. cbn [final].
  destruct (generateReactDOMLWCComponent env _) as [d' t' [[]|e]]; reflexivity.
Qed.

Ltac import_red Hlib :=
  rewrite createOutputDirectory_run; cbn [final];
  cbv zeta; cbn [react_umd react_dom_umd set_output]; rewrite Hlib;
  cbn [outcome trace final app In]; unfold component_file; cbn [output set_output];
  rewrite ?lookup_insert_eq.

(** X20.  When the library resource of an auxiliary component is a file,
    its generation returns a success result, logs that the library was
    embedded, and the script of the component is the header comment, a line
    feed, the text of the library, two line feeds, and the export. *)
Theorem present_library_is_embedded (env : Env) (g : Generator) (d : Disk)
  (library : jsstr) :
  (react_umd d = Some (File library) ->
   let r := generateReactImport env g d in
   outcome r = Returned (success_true (outputDir g) (js "react"))
   /\ In log_embedded_react (trace r)
   /\ component_file (final r) (js "react") (js "react.js")
      = Some (js "// Execute the React library code" ++ [10] ++ library ++ [10; 10]
              ++ js "// Export React instance" ++ [10]
              ++ js "export default window.React;"))
  /\ (react_dom_umd d = Some (File library) ->
      let r := generateReactDOMImport env g d in
      outcome r = Returned (success_true (outputDir g) (js "reactdom"))
      /\ In log_embedded_reactdom (trace r)
      /\ component_file (final r) (js "reactdom") (js "reactdom.js")
         = Some (js "// Execute the ReactDOM library code" ++ [10] ++ library ++ [10; 10]
                 ++ js "// Export ReactDOM instance" ++ [10]
                 ++ js "export default window.ReactDOM;")).
Proof.
  assert (Hreact : forall text,
            js "// Execute the React library code" ++ [10] ++ text ++ [10; 10]
              ++ js "// Export React instance" ++ [10] ++ js "export default window.React;"
            = react_jsContent text).
  { intros text. unfold react_jsContent. vm_compute (js _). reflexivity. }
  assert (Hdom : forall text,
            js "// Execute the ReactDOM library code" ++ [10] ++ text ++ [10; 10]
              ++ js "// Export ReactDOM instance" ++ [10]
              ++ js "export default window.ReactDOM;"
            = reactdom_jsContent text).
  { intros text. unfold reactdom_jsContent. vm_compute (js _). reflexivity. }
  rewrite Hreact, Hdom.
  split; intros Hlib; cbv zeta.
  - rewrite generateReactImport_run, generateReactLWCComponent_cases. import_red Hlib.
    split; [reflexivity|]. split; [auto|].
    rewrite !lookup_insert_ne by discriminate. apply lookup_insert_eq.
  - rewrite generateReactDOMImport_run, generateReactDOMLWCComponent_cases. import_red Hlib.
    split; [reflexivity|]. split; [auto|].
    rewrite !lookup_insert_ne by discriminate. apply lookup_insert_eq.
Qed.

Lemma present_library_is_embedded_witness :
  component_file
    (final (generateReactImport (Scenario.env_compiling_to (js "x") false)
              Scenario.default_generator Scenario.disk_with_libraries))
    (js "react") (js "react.js")
  = Some (js "// Execute the React library code
window.React = {};

// Export React instance
export default window.React;").
Proof.
  destruct (present_library_is_embedded (Scenario.env_compiling_to (js "x") false)
              Scenario.default_generator Scenario.disk_with_libraries
              (js "window.React = {};")) as [Hreact _].
  refine (eq_trans (proj2 (proj2 (Hreact eq_refl))) _). vm_compute. reflexivity.
Defined.

Lemma default_lookup_component_file d name file lwc :
  output d = Some (Some lwc) ->
  default ∅ (lwc !! name) !! file = component_file d name file.
Proof.
  intros Ho. unfold component_file. rewrite Ho.
  destruct (lwc !! name); [reflexivity|apply lookup_empty].
Qed.

(** The files of a component directory before an auxiliary component is
    generated, read through the two directory creations. *)
Lemma files_before_auxiliary g d name file :
  default ∅
    (with_component_dir name
       (Some (Some (with_component_dir (componentName g) (output d)))) !! name) !! file
  = component_file d name file.
Proof.
  set (dA := set_output (Some (Some (with_component_dir (componentName g) (output d)))) d).
  set (dB := set_output (Some (Some (with_component_dir name (output dA)))) dA).
  rewrite <- (component_file_with_component_dir (componentName g) d dA)
    by (destruct d; reflexivity).
  rewrite <- (component_file_with_component_dir name dA dB) by (destruct d; reflexivity).
  apply default_lookup_component_file. destruct d; reflexivity.
Qed.

(** X21.  A failure to read the library resource is swallowed: when the
    resource exists and cannot be read as a file, the error is written to
    the console, the script of the component is not written (what was
    there before, if anything, stays), the other files of the component
    are, and the generation returns a success result all the same. *)
Theorem unreadable_library_is_reported_as_success (env : Env) (g : Generator) (d : Disk)
  (entries : list (jsstr * Node)) :
  (react_umd d = Some (Dir entries) ->
   let r := generateReactImport env g d in
   outcome r = Returned (success_true (outputDir g) (js "react"))
   /\ In (error_generating_react_js (js "EISDIR: illegal operation on a directory, read"))
        (trace r)
   /\ component_file (final r) (js "react") (js "react.js")
      = component_file d (js "react") (js "react.js")
   /\ component_file (final r) (js "react") (js "react.html") = Some react_htmlContent)
  /\ (react_dom_umd d = Some (Dir entries) ->
      let r := generateReactDOMImport env g d in
      outcome r = Returned (success_true (outputDir g) (js "reactdom"))
      /\ In (error_generating_reactdom_js
               (js "EISDIR: illegal operation on a directory, read")) (trace r)
      /\ component_file (final r) (js "reactdom") (js "reactdom.js")
         = component_file d (js "reactdom") (js "reactdom.js")
      /\ component_file (final r) (js "reactdom") (js "reactdom.html")
         = Some reactdom_htmlContent).
Proof.
  split; intros Hlib; cbv zeta.
  - rewrite generateReactImport_run, generateReactLWCComponent_cases. import_red Hlib.
    split; [reflexivity|]. split; [auto|]. split.
    + rewrite !lookup_insert_ne by discriminate. apply files_before_auxiliary.
    + rewrite !lookup_insert_ne by discriminate. apply lookup_insert_eq.
  - rewrite generateReactDOMImport_run, generateReactDOMLWCComponent_cases. import_red Hlib.
    split; [reflexivity|]. split; [auto|]. split.
    + rewrite !lookup_insert_ne by discriminate. apply files_before_auxiliary.
    + rewrite !lookup_insert_ne by discriminate. apply lookup_insert_eq.
Qed.

Lemma unreadable_library_is_reported_as_success_witness :
  outcome (generateReactDOMImport (Scenario.env_compiling_to (js "x") false)
             Scenario.default_generator Scenario.disk_with_unreadable_libraries)
  = Returned (success_true (js "./dist") (js "reactdom")).
Proof.
  destruct (unreadable_library_is_reported_as_success
              (Scenario.env_compiling_to (js "x") false) Scenario.default_generator
              Scenario.disk_with_unreadable_libraries []) as [_ Hdom].
  exact (proj1 (Hdom eq_refl)).
Defined.

Lemma with_component_dir_lookup_ne name other lwc :
  other <> name ->
  with_component_dir name (Some (Some lwc)) !! other = lwc !! other.
Proof.
  intros Hne. unfold with_component_dir.
  destruct (lwc !! name); [reflexivity|]. now rewrite lookup_insert_ne by congruence.
Qed.

Lemma wrapper_directory_after_auxiliary g d auxiliary files' lwc' :
  lwc' = <[auxiliary := files']>
           (with_component_dir auxiliary
              (Some (Some (with_component_dir (componentName g) (output d))))) ->
  exists files,
    lwc' !! componentName g = Some files
    /\ (componentName g <> auxiliary ->
        forall file, files !! file = component_file d (componentName g) file).
Proof.
  intros ->. destruct (decide (componentName g = auxiliary)) as [E|Hne].
  - exists files'. rewrite E, lookup_insert_eq. split; [reflexivity|congruence].
  - destruct (with_component_dir_lookup (componentName g) (output d)) as [files Hfiles].
    exists files. rewrite lookup_insert_ne by congruence.
    rewrite with_component_dir_lookup_ne by exact Hne.
    split; [exact Hfiles|]. intros _ file.
    rewrite <- (component_file_with_component_dir (componentName g) d
                  (set_output (Some (Some (with_component_dir (componentName g) (output d)))) d))
      by (destruct d; reflexivity).
    unfold component_file. destruct d; cbn [output set_output] in *. now rewrite Hfiles.
Qed.

(** X22.  Generating an auxiliary component also makes the directory of
    the wrapper component, since it starts with [createOutputDirectory]:
    afterwards the directory named by [componentName] exists, with the
    files it had before, and empty when it was not there. *)
Theorem import_generation_makes_the_wrapper_directory (env : Env) (g : Generator)
  (d : Disk) :
  (let r := generateReactImport env g d in
   exists lwc files,
     output (final r) = Some (Some lwc)
     /\ lwc !! componentName g = Some files
     /\ (componentName g <> js "react" ->
         forall file, files !! file = component_file d (componentName g) file))
  /\ (let r := generateReactDOMImport env g d in
      exists lwc files,
        output (final r) = Some (Some lwc)
        /\ lwc !! componentName g = Some files
        /\ (componentName g <> js "reactdom" ->
            forall file, files !! file = component_file d (componentName g) file)).
Proof.
  split; cbv zeta.
  - rewrite generateReactImport_run, createOutputDirectory_run. cbn [final].
    rewrite generateReactLWCComponent_cases. cbv zeta. cbn [react_umd output set_output].
    destruct (react_umd d) as [[library|entries]|]; cbn [final];
      (eexists; edestruct (wrapper_directory_after_auxiliary g d (js "react")) as (files & H1 & H2);
       [reflexivity|]; exists files; split; [destruct d; reflexivity|]; split; [exact H1|exact H2]).
  - rewrite generateReactDOMImport_run, createOutputDirectory_run. cbn [final].
    rewrite generateReactDOMLWCComponent_cases. cbv zeta. cbn [react_dom_umd output set_output].
    destruct (react_dom_umd d) as [[library|entries]|]; cbn [final];
      (eexists; edestruct (wrapper_directory_after_auxiliary g d (js "reactdom")) as (files & H1 & H2);
       [reflexivity|]; exists files; split; [destruct d; reflexivity|]; split; [exact H1|exact H2]).
Qed.

End Generator.

(** ** The callers of the generator *)

Section Callers.
Import Build.

(** *** [cli.js] *)

Lemma compileReactComponents_starts env d :
  compileReactComponents env d =
  (compileReactComponents_until_webpack env ;;
   match webpack_react env with
   | wp_err error | wp_has_errors error =>
       emit (error_webpack_failed error) ;;
       throw error
   | wp_done emitted =>
       modify (fun d =>
         set_temp_build (Some (emitted ∪ default ∅ (temp_build d))) d) ;;
       try_catch
         (d <- get ;;
          compiledJS <-
            of_outcome (read_from (beside_dirname env (js "temp-build")) (temp_build d)
                          (js "compiled-react.js")) ;;
          modify (set_temp_build None) ;;
          emit log_react_compiled ;;
          ret compiledJS)
         (fun readError =>
            emit (error_reading_compiled readError) ;;
            throw readError)
   end) d.
Proof.
  destruct d as [s tb tc tp ru rd o].
  unfold compileReactComponents, compileReactComponents_until_webpack.
  destruct tb; destruct (webpack_react env); eff_red;
    repeat (case_match; eff_red); reflexivity.
Qed.

Lemma compileReactComponents_until_webpack_run env d :
  compileReactComponents_until_webpack env d =
  mkRun
    (set_temp_build
       (Some (<[js "lwc-entry.js" := entryContent]> (default ∅ (temp_build d)))) d)
    [] (Returned tt).
Proof.
  destruct d as [s tb tc tp ru rd o]. unfold compileReactComponents_until_webpack.
  destruct tb; reflexivity.
Qed.

Lemma generate_until_await_run env g d :
  let d0 := set_output (Some (Some (with_component_dir (componentName g) (output d)))) d in
  generate_until_await env g d =
  mkRun
    (match templates d !! js "lwcWrapper.js" with
     | Some _ =>
         set_temp_build
           (Some (<[js "lwc-entry.js" := entryContent]> (default ∅ (temp_build d)))) d0
     | None => d0
     end)
    [] (Returned tt).
Proof.
  cbv zeta. unfold generate_until_await, try_catch, bind.
  rewrite createOutputDirectory_run.
  destruct d as [s tb tc tp ru rd o]. unfold getTemplate. eff_red.
  destruct (tp !! js "lwcWrapper.js"); [|reflexivity].
  eff_red. rewrite compileReactComponents_until_webpack_run. reflexivity.
Qed.

Lemma generate_until_await_files env g d component file :
  component_file (final (generate_until_await env g d)) component file
  = component_file d component file.
Proof.
  rewrite generate_until_await_run. cbn [final].
  apply (component_file_with_component_dir (componentName g)).
  destruct d as [s tb tc tp ru rd o]. cbn [templates].
  destruct (tp !! js "lwcWrapper.js"); reflexivity.
Qed.

Lemma call_run {A} (m : Build.M A) d :
  CLI.call m d = mkRun (final (m d)) (map CLI.generator (trace (m d))) (outcome (m d)).
Proof. reflexivity. Qed.

(** X23.  [run] does not wait for the wrapper: without [--react] and
    [--reactdom] (and without [--help] and [--version]) it calls the
    asynchronous [generate()], reads [success] on the promise it gets, which
    has none, reports a failure whose error is [undefined], and exits with
    status 1.  At that moment the output directories exist and, when the
    template was found, the entry module is in [temp-build], but webpack's
    callback has not run: the generator has written nothing to the console
    and no file of the output has been written or changed; with [--all],
    the import components are not generated either. *)
Theorem cli_does_not_wait_for_the_wrapper (env : Env)
  (package_version : Outcome JsError jsstr) (args : list jsstr) (options : CLI.Options)
  (d : Disk) :
  CLI.parseArgs args = inl options ->
  CLI.help options = false ->
  CLI.version options = false ->
  CLI.generateReact options = false ->
  CLI.generateReactDOM options = false ->
  let generator := new_generator (CLI.componentName options) (CLI.outputDir options) in
  let r := CLI.run env package_version args d in
  outcome r = Returned (CLI.exited 1)
  /\ trace r =
     [if CLI.generateAll options then CLI.error_wrapper_generation_failed None
      else CLI.error_generation_failed None]
  /\ final r = final (generate_until_await env generator d)
  /\ (forall component file,
        component_file (final r) component file = component_file d component file).
Proof.
  intros Hparse Hhelp Hversion Hreact Hdom. cbv zeta.
  assert (Hrun : CLI.run env package_version args d =
                 mkRun (final (generate_until_await env
                                 (new_generator (CLI.componentName options)
                                    (CLI.outputDir options)) d))
                   [if CLI.generateAll options then CLI.error_wrapper_generation_failed None
                    else CLI.error_generation_failed None]
                   (Returned (CLI.exited 1))).
  { unfold CLI.run. rewrite Hparse, Hhelp, Hversion, Hreact, Hdom.
    unfold try_catch. destruct (CLI.generateAll options).
    - rewrite bind_run, call_run, generate_until_await_run. reflexivity.
    - rewrite bind_run, call_run, generate_until_await_run. reflexivity. }
  rewrite Hrun. cbn [outcome trace final].
  split; [reflexivity|]. split; [reflexivity|]. split; [reflexivity|].
  intros component file. apply generate_until_await_files.
Qed.

Lemma cli_does_not_wait_for_the_wrapper_witness :
  outcome (CLI.run (Scenario.env_compiling_to (js "x") false) (Returned (js "1.0.0"))
             [js "--all"; js "--name"; js "myApp"] Scenario.clean_disk)
  = Returned (CLI.exited 1).
Proof.
  exact (proj1 (cli_does_not_wait_for_the_wrapper
                  (Scenario.env_compiling_to (js "x") false) (Returned (js "1.0.0"))
                  [js "--all"; js "--name"; js "myApp"]
                  (CLI.mkOptions (Some (js "myApp")) (Some (js "./dist")) false false
                     false false true)
                  Scenario.clean_disk eq_refl eq_refl eq_refl eq_refl eq_refl)).
Defined.

Lemma is_case_positional arg a b :
  CLI.starts_with_dash arg = false ->
  CLI.starts_with_dash (js a) = true ->
  CLI.starts_with_dash (js b) = true ->
  CLI.is_case arg a b = false.
Proof.
  intros Harg Ha Hb. unfold CLI.is_case.
  assert (Hna : arg <> js a) by (intros E; rewrite E in Harg; congruence).
  assert (Hnb : arg <> js b) by (intros E; rewrite E in Harg; congruence).
  now rewrite (bool_decide_eq_false_2 _ Hna), (bool_decide_eq_false_2 _ Hnb).
Qed.

(** X24.  [parseArgs] ignores what is not an option: when no argument
    starts with [-], it returns the default options, so a component name
    given without [--name] is not used. *)
Theorem positional_arguments_are_ignored (args : list jsstr) :
  Forall (fun arg => CLI.starts_with_dash arg = false) args ->
  CLI.parseArgs args = inl CLI.default_options.
Proof.
  unfold CLI.parseArgs. generalize CLI.default_options.
  intros options. induction 1 as [|arg rest Harg _ IH]; [reflexivity|].
  cbn [CLI.parseArgs_from].
  rewrite !(is_case_positional arg) by (exact Harg || reflexivity).
  rewrite Harg. exact IH.
Qed.

Lemma positional_arguments_are_ignored_witness :
  CLI.parseArgs [js "myApp"; js "out"] = inl CLI.default_options.
Proof.
  apply positional_arguments_are_ignored. repeat constructor.
Defined.

(** *** [generate-single.js] *)

Lemma generate_result_shape env g d :
  outcome (generate env g d) = Returned (success_true (outputDir g) (componentName g))
  \/ exists error, outcome (generate env g d) = Returned (success_false error).
Proof.
  rewrite generate_run.
  destruct ((generateJavaScriptFile env g ;; generateHTMLFile env g ;;
             generateMetaFile env g ;; generateCSSFile env g) _) as [d' t' [[]|e]];
    cbn [outcome]; eauto.
Qed.

Lemma componentName_of_nonempty args : CLI.componentName_of args <> [].
Proof.
  unfold CLI.componentName_of.
  destruct (CLI.indexOf args (js "--componentName")) as [i|]; [|discriminate].
  destruct (nth_error args (i + 1)) as [[|c name]|]; discriminate.
Qed.

Lemma new_generator_componentName name outputDir :
  name <> [] -> componentName (new_generator (Some name) outputDir) = name.
Proof. destruct name; [congruence|reflexivity]. Qed.

(** X25.  [generate-single.js] awaits the generation and ends as it
    ended.  The generator is made with the argument that follows the first
    [--componentName], or with [appWrapper]; the script leaves the disk as
    [generate] left it, runs to its end when [generate] reports success,
    that is exactly when the four templates exist and both compile stages
    resolve, and otherwise calls [process.exit(1)] after writing the
    message of the error to the console. *)
Theorem generateWrapper_exits_with_the_result (env : Env) (args : list jsstr) (d : Disk) :
  let generator := new_generator (Some (CLI.componentName_of args)) (Some (js "./dist")) in
  let generated := generate env generator d in
  let d0 := final (createOutputDirectory generator d) in
  let r1 := compileReactComponents env d0 in
  let r2 := compileStyles env (final r1) in
  let r := CLI.generateWrapper env args d in
  componentName generator = CLI.componentName_of args
  /\ (CLI.indexOf args (js "--componentName") = None ->
      componentName generator = js "appWrapper")
  /\ final r = final generated
  /\ (outcome r = Returned CLI.completed \/ outcome r = Returned (CLI.exited 1))
  /\ (outcome r = Returned CLI.completed <->
      (forall templateName,
         In templateName [js "lwcWrapper.js"; js "lwcWrapper.html";
                          js "lwcWrapper-meta.xml"; js "lwcWrapper.css"] ->
         is_Some (templates d !! templateName))
      /\ (exists compiledReact, outcome r1 = Returned compiledReact)
      /\ (exists compiledStyles, outcome r2 = Returned compiledStyles))
  /\ (forall error,
        outcome generated = Returned (success_false error) ->
        outcome r = Returned (CLI.exited 1)
        /\ In (CLI.error_generation_failed (Some error)) (trace r)).
Proof.
  cbv zeta.
  split; [apply new_generator_componentName, componentName_of_nonempty|].
  split.
  { intros Hnone. rewrite new_generator_componentName by apply componentName_of_nonempty.
    unfold CLI.componentName_of. now rewrite Hnone. }
  unfold CLI.generateWrapper, try_catch. rewrite bind_run, call_run.
  set (generator := new_generator (Some (CLI.componentName_of args)) (Some (js "./dist"))).
  pose proof (generate_outcome env generator d) as (_ & Hiff & _). cbv zeta in Hiff.
  destruct (generate_result_shape env generator d) as [Hok|[error Hfailed]].
  - pose proof (proj1 Hiff Hok) as Hconditions. clear Hiff.
    destruct (generate env generator d) as [dg tg og]. cbn [outcome final trace] in *.
    subst og. cbn [outcome final trace]. unfold bind, emit, ret. cbn [outcome final trace].
    split; [reflexivity|]. split; [auto|]. split; [tauto|]. intros; discriminate.
  - assert (Hnot : ~ ((forall templateName,
                         In templateName [js "lwcWrapper.js"; js "lwcWrapper.html";
                                          js "lwcWrapper-meta.xml"; js "lwcWrapper.css"] ->
                         is_Some (templates d !! templateName))
                      /\ (exists compiledReact,
                            outcome (compileReactComponents env
                                       (final (createOutputDirectory generator d)))
                            = Returned compiledReact)
                      /\ (exists compiledStyles,
                            outcome (compileStyles env
                                       (final (compileReactComponents env
                                                 (final (createOutputDirectory generator d)))))
                            = Returned compiledStyles))).
    { intros Hconditions. apply (proj2 Hiff) in Hconditions. congruence. }
    clear Hiff.
    destruct (generate env generator d) as [dg tg og]. cbn [outcome final trace] in *.
    subst og. unfold bind, emit, ret. cbn [outcome final trace].
    split; [reflexivity|]. split; [auto|]. split; [split; [discriminate|tauto]|].
    intros error' [= <-]. split; [reflexivity|]. apply in_or_app. right. now left.
Qed.

End Callers.

(** ** The pipeline *)

Section Pipeline.
Import Build.

(** *** The generator scripts as child processes *)

Lemma generateWrapper_cases env args d :
  let name := CLI.componentName_of args in
  let generated := generate env (new_generator (Some name) (Some (js "./dist"))) d in
  CLI.generateWrapper env args d =
  mkRun (final generated)
    (map CLI.generator (trace generated)
       ++ match outcome generated with
          | Returned (success_true outputDir _) =>
              [CLI.log_wrapper_generated name; CLI.log_output outputDir]
          | Returned (success_false message) => [CLI.error_generation_failed (Some message)]
          | Thrown e => [CLI.error_generation_failed (Some (err_message e))]
          end)
    (Returned
       match outcome generated with
       | Returned (success_true _ _) => CLI.completed
       | _ => CLI.exited 1
       end).
Proof.
  cbv zeta. unfold CLI.generateWrapper, try_catch. rewrite bind_run, call_run.
  destruct (generate env _ d) as [dg tg [[o n|m]|e]]; reflexivity.
Qed.

Lemma generateReactImport_succeeds env g d :
  outcome (generateReactImport env g d) = Returned (success_true (outputDir g) (js "react")).
Proof.
  rewrite generateReactImport_run, generateReactLWCComponent_cases. cbv zeta.
  destruct (react_umd _) as [[library|entries]|]; reflexivity.
Qed.

Lemma generateReactDOMImport_succeeds env g d :
  outcome (generateReactDOMImport env g d)
  = Returned (success_true (outputDir g) (js "reactdom")).
Proof.
  rewrite generateReactDOMImport_run, generateReactDOMLWCComponent_cases. cbv zeta.
  destruct (react_dom_umd _) as [[library|entries]|]; reflexivity.
Qed.

Lemma run_react env package_version d :
  let generated := generateReactImport env (new_generator None None) d in
  CLI.run env package_version [js "--react"] d =
  mkRun (final generated) (map CLI.generator (trace generated)) (Returned CLI.completed).
Proof.
  cbv zeta. unfold CLI.run.
  change (CLI.parseArgs [js "--react"])
    with (@inl CLI.Options jsstr
            (CLI.mkOptions (Some (js "appInterop")) (Some (js "./dist")) false false
               true false false)).
  cbn [CLI.help CLI.version CLI.generateReact CLI.componentName CLI.outputDir].
  change (new_generator (Some (js "appInterop")) (Some (js "./dist")))
    with (new_generator None None).
  unfold try_catch. rewrite bind_run, call_run.
  pose proof (generateReactImport_succeeds env (new_generator None None) d) as Hok.
  destruct (generateReactImport env _ d) as [dg tg og]. cbn [outcome final trace] in *.
  subst og. cbn. now rewrite app_nil_r.
Qed.

Lemma run_reactdom env package_version d :
  let generated := generateReactDOMImport env (new_generator None None) d in
  CLI.run env package_version [js "--reactdom"] d =
  mkRun (final generated) (map CLI.generator (trace generated)) (Returned CLI.completed).
Proof.
  cbv zeta. unfold CLI.run.
  change (CLI.parseArgs [js "--reactdom"])
    with (@inl CLI.Options jsstr
            (CLI.mkOptions (Some (js "appInterop")) (Some (js "./dist")) false false
               false true false)).
  cbn [CLI.help CLI.version CLI.generateReact CLI.generateReactDOM CLI.componentName
       CLI.outputDir].
  change (new_generator (Some (js "appInterop")) (Some (js "./dist")))
    with (new_generator None None).
  unfold try_catch. rewrite bind_run, call_run.
  pose proof (generateReactDOMImport_succeeds env (new_generator None None) d) as Hok.
  destruct (generateReactDOMImport env _ d) as [dg tg og]. cbn [outcome final trace] in *.
  subst og. cbn. now rewrite app_nil_r.
Qed.

(** The component directories after [generate], however it ends. *)
(** *** The component directories after each generation *)

Lemma generate_output env g d :
  exists files,
    output (final (generate env g d)) =
    Some (Some (<[componentName g := files]>
                  (with_component_dir (componentName g) (output d)))).
Proof.
  destruct (with_component_dir_lookup (componentName g) (output d)) as [files0 H0].
  rewrite generate_cases. cbv zeta.
  set (lwc0 := with_component_dir (componentName g) (output d)) in *.
  set (d0 := set_output (Some (Some lwc0)) d).
  pose proof (compileReactComponents_frame env d0) as (_ & _ & _ & _ & _ & Ho1).
  pose proof (compileStyles_frame env (final (compileReactComponents env d0)))
    as (_ & _ & _ & _ & _ & Ho2).
  cbv zeta in Ho1, Ho2.
  assert (Ho0 : output d0 = Some (Some (<[componentName g := files0]> lwc0)))
    by (rewrite insert_id by exact H0; destruct d; reflexivity).
  rewrite Ho1 in Ho2.
  destruct (templates d !! js "lwcWrapper.js"); [|exists files0; exact Ho0].
  destruct (outcome (compileReactComponents env d0));
    [|exists files0; cbn [final]; congruence].
  destruct (outcome (compileStyles env _));
    [|exists files0; cbn [final]; congruence].
  destruct (templates d !! js "lwcWrapper.html"); [|eexists; reflexivity].
  destruct (templates d !! js "lwcWrapper-meta.xml"); [|eexists; reflexivity].
  destruct (templates d !! js "lwcWrapper.css"); eexists; reflexivity.
Qed.

Lemma generateReactImport_output env g d :
  exists files,
    output (final (generateReactImport env g d)) =
    Some (Some (<[js "react" := files]>
                  (with_component_dir (js "react")
                     (Some (Some (with_component_dir (componentName g) (output d))))))).
Proof.
  rewrite generateReactImport_run, createOutputDirectory_run. cbn [final].
  rewrite generateReactLWCComponent_cases. cbv zeta. cbn [react_umd output set_output].
  destruct (react_umd d) as [[library|entries]|]; eexists; destruct d; reflexivity.
Qed.

Lemma generateReactDOMImport_output env g d :
  exists files,
    output (final (generateReactDOMImport env g d)) =
    Some (Some (<[js "reactdom" := files]>
                  (with_component_dir (js "reactdom")
                     (Some (Some (with_component_dir (componentName g) (output d))))))).
Proof.
  rewrite generateReactDOMImport_run, createOutputDirectory_run. cbn [final].
  rewrite generateReactDOMLWCComponent_cases. cbv zeta. cbn [react_dom_umd output set_output].
  destruct (react_dom_umd d) as [[library|entries]|]; eexists; destruct d; reflexivity.
Qed.

Lemma with_component_dir_lookup_other name other o :
  other <> name ->
  with_component_dir name o !! other
  = match o with Some (Some lwc) => lwc !! other | _ => None end.
Proof.
  intros Hne. unfold with_component_dir. destruct o as [[lwc|]|].
  - destruct (lwc !! name); [reflexivity|]. now rewrite lookup_insert_ne by congruence.
  - now rewrite lookup_singleton_ne by congruence.
  - now rewrite lookup_singleton_ne by congruence.
Qed.

Lemma with_component_dir_lookup_self name o :
  with_component_dir name o !! name
  = Some (default ∅ (match o with Some (Some lwc) => lwc !! name | _ => None end)).
Proof.
  unfold with_component_dir. destruct o as [[lwc|]|].
  - destruct (lwc !! name) eqn:E; [now rewrite E|]. now rewrite lookup_insert_eq.
  - now rewrite lookup_singleton_eq.
  - now rewrite lookup_singleton_eq.
Qed.

Lemma with_component_dir_keeps name other o :
  is_Some (match o with Some (Some lwc) => lwc !! other | _ => None end) ->
  is_Some (with_component_dir name o !! other).
Proof.
  intros H. destruct (decide (other = name)) as [->|Hne].
  - apply with_component_dir_lookup.
  - now rewrite with_component_dir_lookup_other.
Qed.

(** *** [main] *)

Lemma executeCommand_script script step d :
  App.executeCommand (App.run_script script) step d =
  let r := script d in
  let ok :=
    match outcome r with
    | Returned CLI.completed | Returned (CLI.exited 0) => true
    | _ => false
    end in
  mkRun (final r)
    (App.log_step step :: map App.child (trace r)
       ++ (if ok then [] else [App.error_step_failed step]))
    (Returned ok).
Proof.
  cbv zeta. unfold App.executeCommand, App.run_script, bind, emit, ret.
  destruct (script d) as [d' t' [[|[|code]]|e]]; cbn; rewrite ?app_nil_r; reflexivity.
Qed.

Lemma valid_component_name_facts name :
  App.valid_component_name name = true ->
  name <> js "--help" /\ name <> js "-h"
  /\ CLI.componentName_of [js "--componentName"; name] = name.
Proof.
  intros Hvalid. destruct name as [|c rest]; [discriminate Hvalid|].
  cbn [App.valid_component_name] in Hvalid. apply andb_true_iff in Hvalid as [Hc _].
  unfold App.is_lower in Hc. apply andb_true_iff in Hc as [Hc _]. apply N.leb_le in Hc.
  split; [|split].
  - intros [= -> _]. lia.
  - intros [= -> _]. lia.
  - unfold CLI.componentName_of. cbn [CLI.indexOf].
    rewrite bool_decide_eq_true_2 by reflexivity. reflexivity.
Qed.

(** Where a sequence ends and how, leaving the trace aside. *)
Lemma bind_result {St Ev Ex A B} (m : Eff St Ev Ex A) (k : A -> Eff St Ev Ex B) s :
  (final (bind m k s), outcome (bind m k s)) =
  match outcome (m s) with
  | Returned a => (final (k a (final (m s))), outcome (k a (final (m s))))
  | Thrown e => (final (m s), Thrown e)
  end.
Proof.
  unfold bind. destruct (m s) as [s1 t1 [a|e]]; [|reflexivity].
  cbn [final outcome]. now destruct (k a s1).
Qed.

Lemma final_emit {St Ev Ex} (e : Ev) (s : St) : final (@emit St Ev Ex e s) = s.
Proof. reflexivity. Qed.
Lemma outcome_emit {St Ev Ex} (e : Ev) (s : St) : outcome (@emit St Ev Ex e s) = Returned tt.
Proof. reflexivity. Qed.
Lemma final_ret {St Ev Ex A} (a : A) (s : St) : final (@ret St Ev Ex A a s) = s.
Proof. reflexivity. Qed.
Lemma outcome_ret {St Ev Ex A} (a : A) (s : St) : outcome (@ret St Ev Ex A a s) = Returned a.
Proof. reflexivity. Qed.

Ltac step :=
  rewrite bind_result;
  rewrite ?outcome_emit, ?final_emit, ?outcome_ret, ?final_ret;
  cbv beta iota.

(** X26.  For a component name that passes the test and without
    [--deploy], once the wrapper is generated the pipeline runs to its end
    whatever becomes of the two import components, whose results it does
    not look at; the disk is then as the three generations left it one
    after the other, with a directory for the wrapper, for [react] and for
    [reactdom], and one for [appInterop] as well, the default name with
    which [cli.js] makes its generator: that one is empty when the wrapper
    has another name and it was not there before. *)
Theorem pipeline_generates_the_three_components (env : App.Env) (name : jsstr)
  (rest : list jsstr) (d : Disk) :
  App.valid_component_name name = true ->
  App.includes (name :: rest) (js "--deploy") = false ->
  let wrapper :=
    generate (App.wrapper_env env) (new_generator (Some name) (Some (js "./dist"))) d in
  let react :=
    generateReactImport (App.react_env env) (new_generator None None) (final wrapper) in
  let reactdom :=
    generateReactDOMImport (App.reactdom_env env) (new_generator None None) (final react) in
  outcome wrapper = Returned (success_true (js "./dist") name) ->
  let r := App.main env (name :: rest) d in
  outcome r = Returned CLI.completed
  /\ final r = final reactdom
  /\ is_Some (component_directory (final r) name)
  /\ is_Some (component_directory (final r) (js "react"))
  /\ is_Some (component_directory (final r) (js "reactdom"))
  /\ is_Some (component_directory (final r) (js "appInterop"))
  /\ (name <> js "appInterop" ->
      component_directory d (js "appInterop") = None ->
      component_directory (final r) (js "appInterop") = Some ∅).
Proof.
  intros Hvalid Hdeploy wrapper react reactdom Hwrapper r.
  destruct (valid_component_name_facts name Hvalid) as (Hhelp & Hh & Hname).
  assert (Hrun : (final r, outcome r) = (final reactdom, Returned CLI.completed)).
  { subst r. unfold App.main.
    rewrite (bool_decide_eq_false_2 _ Hhelp), (bool_decide_eq_false_2 _ Hh).
    cbn [orb]. rewrite Hvalid, Hdeploy. cbn [negb andb].
    rewrite andb_false_r.
    do 5 step.
    rewrite bind_result, executeCommand_script, generateWrapper_cases, Hname.
    cbv zeta. fold wrapper. cbn [outcome final]. rewrite Hwrapper. cbn [negb].
    step.
    rewrite bind_result, executeCommand_script, run_react.
    cbv zeta. fold react. cbn [outcome final].
    rewrite bind_result, executeCommand_script, run_reactdom.
    cbv zeta. fold reactdom. cbn [outcome final].
    step. cbn [negb]. step. step.
    rewrite ?outcome_ret, ?final_ret. reflexivity. }
  injection Hrun as Hfinal Houtcome.
  split; [exact Houtcome|]. split; [exact Hfinal|]. rewrite Hfinal. clear Hfinal Houtcome r.
  destruct (generate_output (App.wrapper_env env)
              (new_generator (Some name) (Some (js "./dist"))) d) as [f1 H1].
  fold wrapper in H1.
  destruct (generateReactImport_output (App.react_env env) (new_generator None None)
              (final wrapper)) as [f2 H2].
  fold react in H2.
  destruct (generateReactDOMImport_output (App.reactdom_env env) (new_generator None None)
              (final react)) as [f3 H3].
  fold reactdom in H3.
  rewrite H2 in H3. rewrite H1 in H2, H3.
  change (componentName (new_generator None None)) with (js "appInterop") in *.
  rewrite (new_generator_componentName name) in * by (intros ->; discriminate Hvalid).
  unfold component_directory. rewrite H3.
  set (L0 := with_component_dir name (output d)) in *.
  set (L1 := <[name := f1]> L0) in *.
  set (A1 := with_component_dir (js "appInterop") (Some (Some L1))) in *.
  set (R1 := with_component_dir (js "react") (Some (Some A1))) in *.
  set (L2 := <[js "react" := f2]> R1) in *.
  set (A2 := with_component_dir (js "appInterop") (Some (Some L2))) in *.
  set (R2 := with_component_dir (js "reactdom") (Some (Some A2))) in *.
  assert (keep_insert : forall (lwc : gmap jsstr (gmap jsstr jsstr)) a f c,
            is_Some (lwc !! c) -> is_Some (<[a := f]> lwc !! c)).
  { intros lwc a f c H. apply lookup_insert_is_Some. destruct (decide (a = c)); auto. }
  assert (keep_dir : forall (lwc : gmap jsstr (gmap jsstr jsstr)) a c,
            is_Some (lwc !! c) -> is_Some (with_component_dir a (Some (Some lwc)) !! c)).
  { intros lwc a c H. now apply with_component_dir_keeps. }
  assert (Hn : is_Some (L1 !! name)) by (subst L1; rewrite lookup_insert_eq; eauto).
  assert (Hr : is_Some (L2 !! js "react")) by (subst L2; rewrite lookup_insert_eq; eauto).
  assert (Ha : is_Some (A2 !! js "appInterop")) by apply with_component_dir_lookup.
  split; [apply keep_insert, keep_dir, keep_dir, keep_insert, keep_dir, keep_dir, Hn|].
  split; [apply keep_insert, keep_dir, keep_dir, Hr|].
  split; [rewrite lookup_insert_eq; eauto|].
  split; [apply keep_insert, keep_dir, Ha|].
  intros Hne Hnone.
  rewrite lookup_insert_ne by discriminate.
  subst R2. rewrite with_component_dir_lookup_other by discriminate.
  subst A2. rewrite with_component_dir_lookup_self.
  subst L2. rewrite lookup_insert_ne by discriminate.
  subst R1. rewrite with_component_dir_lookup_other by discriminate.
  subst A1. rewrite with_component_dir_lookup_self.
  subst L1. rewrite lookup_insert_ne by congruence.
  subst L0. rewrite with_component_dir_lookup_other by congruence.
  unfold component_directory in Hnone. rewrite Hnone. reflexivity.
Qed.

Lemma pipeline_generates_the_three_components_witness :
  outcome (App.main Scenario.pipeline_env [js "landingPage"] Scenario.clean_disk)
  = Returned CLI.completed.
Proof.
  assert (Hwrapper : outcome (generate (App.wrapper_env Scenario.pipeline_env)
                                (new_generator (Some (js "landingPage")) (Some (js "./dist")))
                                Scenario.clean_disk)
                     = Returned (success_true (js "./dist") (js "landingPage")))
    by (vm_compute; reflexivity).
  exact (proj1 (pipeline_generates_the_three_components Scenario.pipeline_env
                  (js "landingPage") [] Scenario.clean_disk eq_refl eq_refl Hwrapper)).
Defined.

(** X27.  The pipeline stops before it generates anything it cannot
    finish: a component name that does not pass the test makes it exit
    with status 1 without running any command, and when the wrapper is not
    generated it exits with status 1 after the first command, the import
    components not being generated. *)
Theorem pipeline_stops_without_a_wrapper (env : App.Env) (name : jsstr)
  (rest : list jsstr) (d : Disk) :
  (name <> js "--help" -> name <> js "-h" ->
   App.valid_component_name name = false ->
   App.main env (name :: rest) d =
   mkRun d [App.error_invalid_component_name] (Returned (CLI.exited 1)))
  /\ (App.valid_component_name name = true ->
      let wrapper :=
        generate (App.wrapper_env env) (new_generator (Some name) (Some (js "./dist"))) d in
      forall error,
        outcome wrapper = Returned (success_false error) ->
        let r := App.main env (name :: rest) d in
        outcome r = Returned (CLI.exited 1)
        /\ final r = final wrapper
        /\ trace r =
           [App.log_generating name; App.log_component_name name;
            App.log_org (App.orgAlias_of (name :: rest));
            App.log_deploy (App.includes (name :: rest) (js "--deploy"));
            App.log_open (App.includes (name :: rest) (js "--open"));
            App.log_step App.generating_wrapper]
           ++ map App.child
                (map CLI.generator (trace wrapper)
                   ++ [CLI.error_generation_failed (Some error)])
           ++ [App.error_step_failed App.generating_wrapper]).
Proof.
  split.
  - intros Hhelp Hh Hinvalid. unfold App.main.
    rewrite (bool_decide_eq_false_2 _ Hhelp), (bool_decide_eq_false_2 _ Hh).
    cbn [orb]. rewrite Hinvalid. reflexivity.
  - intros Hvalid wrapper error Hfailed r.
    destruct (valid_component_name_facts name Hvalid) as (Hhelp & Hh & Hname).
    assert (Hrun : r =
      mkRun (final wrapper)
        ([App.log_generating name; App.log_component_name name;
          App.log_org (App.orgAlias_of (name :: rest));
          App.log_deploy (App.includes (name :: rest) (js "--deploy"));
          App.log_open (App.includes (name :: rest) (js "--open"));
          App.log_step App.generating_wrapper]
         ++ map App.child
              (map CLI.generator (trace wrapper)
                 ++ [CLI.error_generation_failed (Some error)])
         ++ [App.error_step_failed App.generating_wrapper])
        (Returned (CLI.exited 1))).
    { subst r. unfold App.main.
      rewrite (bool_decide_eq_false_2 _ Hhelp), (bool_decide_eq_false_2 _ Hh).
      cbn [orb]. rewrite Hvalid. cbn [negb].
      unfold bind, emit.
      rewrite executeCommand_script, generateWrapper_cases, Hname. cbv zeta.
      fold wrapper. rewrite Hfailed. cbn [outcome final trace negb app]. unfold ret.
      now rewrite app_nil_r. }
    rewrite Hrun. repeat split.
Qed.

Lemma pipeline_stops_without_a_wrapper_witness :
  App.main Scenario.pipeline_env [js "landing-page"; js "--deploy"] Scenario.clean_disk
  = mkRun Scenario.clean_disk [App.error_invalid_component_name] (Returned (CLI.exited 1)).
Proof.
  apply (proj1 (pipeline_stops_without_a_wrapper Scenario.pipeline_env (js "landing-page")
                  [js "--deploy"] Scenario.clean_disk)).
  - discriminate.
  - discriminate.
  - reflexivity.
Defined.

End Pipeline.
